(** * mini_checkin_app: the scan reader, the name normalizer and the member
      matchers, embedded from the JavaScript sources.

    Conventions of the embedding.
    - A JavaScript string is a [string]; the case conversions and [trim]
      are the ASCII ones (characters above 127 are left as they are).  On
      texts of ASCII characters they are those of the engine; the engine
      also maps letters outside ASCII and also trims other Unicode white
      space (U+00A0 and the like), which these texts do not model.
    - A property that may be [undefined] is an [option]; the truthiness
      test of JavaScript on it is [truthy].
    - A call that may throw returns an [outcome]; [try]/[catch] is a match
      on it.
    - Remote calls go through an oracle that answers every request, and
      every call made is appended to a log, so that "was never consulted"
      is a statement about the log. *)

From Stdlib Require Import List String Ascii ZArith Bool Arith Lia Permutation.
From Stdlib Require Import DecimalString.
Import ListNotations.
Local Open Scope string_scope.
Local Open Scope list_scope.

Set Implicit Arguments.

(* ================================================================== *)
(** ** JavaScript values and string primitives *)

Module Js.

(** [!x] is false: a defined, non-empty string. *)
Definition truthy (x : option string) : bool :=
  match x with
  | Some (String _ _) => true
  | _ => false
  end.

Definition nonEmpty (s : string) : bool :=
  match s with
  | EmptyString => false
  | String _ _ => true
  end.

(** [a || b] on possibly undefined strings. *)
Definition or (a b : option string) : option string :=
  if truthy a then a else b.

(** [a || ''], the usual last link of such a chain. *)
Definition orEmpty (a : option string) : string :=
  match a with
  | Some (String c s) => String c s
  | _ => ""
  end.

(** How a template literal prints a possibly undefined value. *)
Definition show (x : option string) : string :=
  match x with
  | Some s => s
  | None => "undefined"
  end.

Definition isUpper (c : ascii) : bool :=
  let n := nat_of_ascii c in ((65 <=? n) && (n <=? 90))%nat.

Definition isLower (c : ascii) : bool :=
  let n := nat_of_ascii c in ((97 <=? n) && (n <=? 122))%nat.

Definition lowerChar (c : ascii) : ascii :=
  if isUpper c then ascii_of_nat (nat_of_ascii c + 32) else c.

Definition upperChar (c : ascii) : ascii :=
  if isLower c then ascii_of_nat (nat_of_ascii c - 32) else c.

Fixpoint mapChars (f : ascii -> ascii) (s : string) : string :=
  match s with
  | EmptyString => EmptyString
  | String c s' => String (f c) (mapChars f s')
  end.

Definition toLowerCase : string -> string := mapChars lowerChar.
Definition toUpperCase : string -> string := mapChars upperChar.

(** TAB, LF, VT, FF, CR and SPACE. *)
Definition isSpace (c : ascii) : bool :=
  let n := nat_of_ascii c in (((9 <=? n) && (n <=? 13)) || (n =? 32))%nat.

Fixpoint trimStart (s : string) : string :=
  match s with
  | EmptyString => EmptyString
  | String c s' => if isSpace c then trimStart s' else s
  end.

(** Drops the trailing white space: a character is kept when something
    that is kept follows it, or when it is not white space itself. *)
Fixpoint trimEnd (s : string) : string :=
  match s with
  | EmptyString => EmptyString
  | String c s' =>
      match trimEnd s' with
      | EmptyString => if isSpace c then EmptyString else String c EmptyString
      | t => String c t
      end
  end.

Definition trim (s : string) : string := trimEnd (trimStart s).

(** Nothing but white space (the empty string included). *)
Fixpoint allSpaces (s : string) : bool :=
  match s with
  | EmptyString => true
  | String c s' => isSpace c && allSpaces s'
  end.

(** [s.split(sep)] for a separator of one character: never empty. *)
Fixpoint split (sep : ascii) (s : string) : list string :=
  match s with
  | EmptyString => [EmptyString]
  | String c s' =>
      if Ascii.eqb c sep then EmptyString :: split sep s'
      else match split sep s' with
           | [] => [String c EmptyString]
           | w :: ws => String c w :: ws
           end
  end.

(** [parts.join(sep)]. *)
Fixpoint join (sep : string) (parts : list string) : string :=
  match parts with
  | [] => EmptyString
  | [w] => w
  | w :: ws => w ++ sep ++ join sep ws
  end.

(** [s.replace(/c/g, d)] for single characters. *)
Definition replaceAll (c d : ascii) : string -> string :=
  mapChars (fun x => if Ascii.eqb x c then d else x).

(** [arr[i]]: undefined past the end. *)
Definition at_ (parts : list string) (i : nat) : option string :=
  nth_error parts i.

(** [s.includes(sub)]. *)
Fixpoint includes (sub s : string) : bool :=
  prefix sub s ||
  match s with
  | EmptyString => false
  | String _ s' => includes sub s'
  end.

(** [s.includes(c)] for one character. *)
Fixpoint hasChar (c : ascii) (s : string) : bool :=
  match s with
  | EmptyString => false
  | String x s' => Ascii.eqb x c || hasChar c s'
  end.

(** [word.charAt(0).toUpperCase() + word.slice(1)]. *)
Definition capitalize (word : string) : string :=
  match word with
  | EmptyString => EmptyString
  | String c rest => String (upperChar c) rest
  end.

(** A JavaScript number as far as the sources need it: the difference of
    two time values, or NaN. *)
Inductive number : Type :=
| Num (z : Z)
| NaN.

(** What a call returns: a value, or a thrown error with its message. *)
Inductive outcome (A : Type) : Type :=
| Returned (a : A)
| Thrown (message : string).
Arguments Thrown {A} message.

Definition bind {A B} (m : outcome A) (k : A -> outcome B) : outcome B :=
  match m with
  | Returned a => k a
  | Thrown msg => Thrown msg
  end.

(** A text of ASCII characters: on such a text the case conversions and
    [trim] above are those of the engine. *)
Definition isAscii (c : ascii) : bool := (nat_of_ascii c <? 128)%nat.

Fixpoint asciiText (s : string) : bool :=
  match s with
  | EmptyString => true
  | String c s' => isAscii c && asciiText s'
  end.

End Js.

Notation "x <- m ;; k" := (Js.bind m (fun x => k))
  (at level 61, m at next level, right associativity).

(* ================================================================== *)
(** ** src/services/ScanIDService.js

    The file holds three drafts of [getLatestScan].  The one of lines
    93-155 guards its comparator; the ones of lines 24-79 and 165-208 share
    a comparator without guards (the first of them also looks up a
    fingerprint, which is left out here). *)

Module ScanIDService.
Import Js.

(** A record of [parse(csvContent, { columns: true })]: every value is a
    string, a column that the header lacks is undefined. *)
Record Row : Type := mkRow {
  FIRST_NAME : option string;
  LAST_NAME : option string;
  FULL_NAME : option string;
  BIRTHDATE : option string;
  AGE : option string;
  DRV_LC_NO : option string;
  EXPIRES_ON : option string;
  ISSUED_ON : option string;
  CREATED : option string;
  Image1 : option string
}.

Record ScanRecord : Type := mkScan {
  FirstName : option string;
  LastName : option string;
  FullName : option string;
  DateOfBirth : option string;
  Age : option string;
  IDNumber : option string;
  IDExpiration : option string;
  IDIssued : option string;
  ScanTime : option string;
  PhotoPath : option string
}.

Inductive ScanResult : Type :=
| Scan (record : ScanRecord)
| ScanError (error : string).

(** What the file system and the CSV parser hand over. *)
Inductive CsvFile : Type :=
| NotFound
| ParseFailure (message : string)
| Parsed (records : list Row).

Definition toScan (latestRecord : Row) : ScanRecord :=
  {| FirstName := FIRST_NAME latestRecord;
     LastName := LAST_NAME latestRecord;
     FullName := FULL_NAME latestRecord;
     DateOfBirth := BIRTHDATE latestRecord;
     Age := AGE latestRecord;
     IDNumber := DRV_LC_NO latestRecord;
     IDExpiration := EXPIRES_ON latestRecord;
     IDIssued := ISSUED_ON latestRecord;
     ScanTime := CREATED latestRecord;
     PhotoPath := Image1 latestRecord |}.

(** [Array.prototype.sort]: what the engine does with the comparator's
    value (NaN counts as +0), and a stable insertion sort.  For a
    consistent comparator every stable sort produces this order.  For a
    comparator that is not consistent the standard leaves the order to the
    engine; an array whose neighbours all compare as equal stays as it is
    here, as it does in an engine that first looks for runs that are
    already in order.  An exception of the comparator leaves the sort. *)
Definition sortCompare (v : number) : Z :=
  match v with
  | Num z => z
  | NaN => 0%Z
  end.

Section Sort.
Variable A : Type.
Variable comparefn : A -> A -> outcome number.

Fixpoint insert (x : A) (sorted : list A) : outcome (list A) :=
  match sorted with
  | [] => Returned [x]
  | y :: rest =>
      v <- comparefn x y ;;
      if (sortCompare v <=? 0)%Z then Returned (x :: y :: rest)
      else (rest' <- insert x rest ;; Returned (y :: rest'))
  end.

Fixpoint sort (l : list A) : outcome (list A) :=
  match l with
  | [] => Returned []
  | x :: l' => sorted <- sort l' ;; insert x sorted
  end.
End Sort.

Section Reader.
(** [new Date(text)] as a time value; [None] is the Invalid Date, whose
    number is NaN.  The engine's parser is not part of the repository. *)
Variable parseDate : string -> option Z.

(** [dateB - dateA] on two Date objects. *)
Definition dateDiff (dateB dateA : option Z) : number :=
  match dateB, dateA with
  | Some b, Some a => Num (b - a)
  | _, _ => NaN
  end.

(** [created.split(' ')[0]]. *)
Definition firstField (created : string) : string :=
  hd "" (split " " created).

Definition toDate (dateStr : string) : option Z :=
  parseDate (replaceAll "/" "-" dateStr).

(** The comparator of lines 115-134: the one with the guards. *)
Definition dateStrOf (r : Row) : string :=
  match CREATED r with
  | Some (String c s) => firstField (String c s)
  | _ => ""
  end.

Definition compareCreated (a b : Row) : outcome number :=
  let attempt : outcome number :=
    let dateAStr := dateStrOf a in
    let dateBStr := dateStrOf b in
    if negb (nonEmpty dateAStr) || negb (nonEmpty dateBStr) then
      Returned (Num 0)
    else
      let dateA := toDate dateAStr in
      let dateB := toDate dateBStr in
      Returned (dateDiff dateB dateA) in
  match attempt with
  | Returned v => Returned v
  | Thrown _ => Returned (Num 0)
  end.

(** The comparator of lines 44-48 and 183-187: no guard, so a missing
    CREATED column is a TypeError. *)
Definition splitCreated (r : Row) : outcome string :=
  match CREATED r with
  | Some created => Returned (firstField created)
  | None => Thrown "Cannot read properties of undefined (reading 'split')"
  end.

Definition compareCreatedPlain (a b : Row) : outcome number :=
  dateAStr <- splitCreated a ;;
  dateBStr <- splitCreated b ;;
  Returned (dateDiff (toDate dateBStr) (toDate dateAStr)).

Definition latestOf (comparefn : Row -> Row -> outcome number)
    (file : CsvFile) : ScanResult :=
  match file with
  | NotFound => ScanError "Scan-ID CSV file not found"
  | ParseFailure message => ScanError message
  | Parsed records =>
      if (List.length records =? 0)%nat then
        ScanError "No records found in CSV file"
      else
        match sort comparefn records with
        | Thrown message => ScanError message
        | Returned sorted =>
            match sorted with
            | latestRecord :: _ => Scan (toScan latestRecord)
            | [] =>
                ScanError
                  "Cannot read properties of undefined (reading 'FIRST NAME')"
            end
        end
  end.

(** Lines 93-155. *)
Definition getLatestScan : CsvFile -> ScanResult :=
  latestOf compareCreated.

(** Lines 165-208. *)
Definition getLatestScanPlain : CsvFile -> ScanResult :=
  latestOf compareCreatedPlain.

(** The time value the comparator works with, when there is one. *)
Definition timeOf (r : Row) : option Z :=
  if nonEmpty (dateStrOf r) then toDate (dateStrOf r) else None.

(** The earliest row among those with the greatest time value: every row
    before it is strictly older, no row after it is newer. *)
Definition firstLatest (records : list Row) (latest : Row) : Prop :=
  exists before after t,
    records = before ++ latest :: after /\
    timeOf latest = Some t /\
    (forall r, In r before -> exists t', timeOf r = Some t' /\ (t' < t)%Z) /\
    (forall r, In r after -> exists t', timeOf r = Some t' /\ (t' <= t)%Z).

End Reader.

(** A parser for the [MM-DD-YYYY] texts of the scanner, for running the
    reader on concrete rows: days since a fixed origin, in milliseconds. *)
Definition digitOf (c : ascii) : option Z :=
  let n := nat_of_ascii c in
  if (48 <=? n)%nat && (n <=? 57)%nat then Some (Z.of_nat (n - 48)) else None.

Fixpoint numberOf (acc : Z) (s : string) : option Z :=
  match s with
  | EmptyString => Some acc
  | String c s' =>
      match digitOf c with
      | Some d => numberOf (10 * acc + d) s'
      | None => None
      end
  end.

Definition mdyDate (text : string) : option Z :=
  match split "-" text with
  | [m; d; y] =>
      if nonEmpty m && nonEmpty d && nonEmpty y then
        match numberOf 0 m, numberOf 0 d, numberOf 0 y with
        | Some m', Some d', Some y' =>
            Some (((y' * 12 + (m' - 1)) * 31 + (d' - 1)) * 86400000)%Z
        | _, _, _ => None
        end
      else None
  | _ => None
  end.

End ScanIDService.


(* ================================================================== *)
(** ** WixService.js, the REST version (unnamed/part_003): [toTitleCase]
       and [findMember] *)

Module WixService.
Import Js.

(** One entry of a [filter.or] array. *)
Record Filter : Type := mkFilter {
  fieldName : string;
  operator : string;
  value : string
}.

Inductive Endpoint : Type :=
| MembersQuery      (* POST members/v1/members/query *)
| ContactsQuery     (* POST contacts/v4/contacts/query *)
| ContactsSearch.   (* POST contacts/v4/contacts/search *)

Inductive Request : Type :=
| Query (or_ : list Filter) (limit : nat) (fields : list string)
| FreeText (freeText : string) (fields : list string).

(** An item of the Members API, with the property paths the sources read;
    a path through [?.] is undefined as soon as one link is. *)
Record Member : Type := mkMember {
  member_id_ : option string;            (* _id *)
  member_id : option string;             (* id *)
  member_memberId : option string;
  member_loginEmail : option string;
  profile_nickname : option string;
  profile_firstName : option string;
  profile_lastName : option string;
  profile_email : option string;
  profile_phone : option string;
  profile_photo_url : option string;
  contact_firstName : option string;
  contact_lastName : option string;
  contact_emails0 : option string;
  contact_phones0 : option string;
  contact_birthdate : option string;
  extendedFields_dob : option string;
  extendedFields_birthdate : option string
}.

(** An item of the Contacts API. *)
Record Contact : Type := mkContact {
  contact_id : option string;            (* id *)
  memberInfo_id : option string;
  info_memberId : option string;
  info_id : option string;
  info_name_first : option string;
  info_name_last : option string;
  primaryEmail_email : option string;
  info_emails0_email : option string;
  primaryPhone_phone : option string;
  info_phones0_phone : option string;
  picture_image_url : option string;
  info_birthdate : option string;
  customFields_birthdate : option string;
  customFields_dob : option string
}.

(** The remote service: what each endpoint answers to a request.  The
    answer is the [members] or [contacts] property of the response data,
    which may be missing; a rejected request throws. *)
Record Remote : Type := mkRemote {
  membersQuery : Request -> outcome (option (list Member));
  contactsQuery : Request -> outcome (option (list Contact));
  contactsSearch : Request -> outcome (option (list Contact))
}.

Definition Call : Type := (Endpoint * Request)%type.

(** A computation that appends the calls it makes to the log. *)
Definition Logged (A : Type) : Type := list Call -> A * list Call.

Definition ret {A} (a : A) : Logged A := fun log => (a, log).

Definition andThen {A B} (m : Logged A) (k : A -> Logged B) : Logged B :=
  fun log => let (a, log') := m log in k a log'.

Definition post {A} (e : Endpoint) (answer : Request -> outcome A)
    (r : Request) : Logged (outcome A) :=
  fun log => (answer r, log ++ [(e, r)]).

Definition run {A} (m : Logged A) : A * list Call := m [].

(** Lines 52-58. *)
Definition toTitleCase (str : option string) : string :=
  match str with
  | Some (String c s) =>
      join " " (map capitalize (split " " (toLowerCase (String c s))))
  | _ => ""
  end.

(** [!x || x.trim() === ''] *)
Definition blank (x : option string) : bool :=
  match x with
  | Some (String c s) => negb (nonEmpty (trim (String c s)))
  | _ => true
  end.

(** Lines 90-107: the array [firstNameVariations]. *)
Definition firstNameVariations (formattedFirstName : string) : list string :=
  let firstNameParts := split " " formattedFirstName in
  [formattedFirstName]
  ++ filter (fun part => (1 <? String.length part)%nat) firstNameParts
  ++ (if (1 <? List.length firstNameParts)%nat
      then [hd "" firstNameParts] else []).

(** Lines 114-127.  [split] and the destructuring do not throw, so the
    [catch] that would keep the text as it is never runs. *)
Definition formattedDOB (dateOfBirth : option string) : string :=
  match dateOfBirth with
  | Some (String c s) =>
      let parts := split "-" (String c s) in
      let month := at_ parts 0 in
      let day := at_ parts 1 in
      let year := at_ parts 2 in
      (show year ++ "-" ++ show month ++ "-" ++ show day)%string
  | _ => ""
  end.

Definition originalDOB (dateOfBirth : option string) : string :=
  match dateOfBirth with
  | Some (String c s) => String c s
  | _ => ""
  end.

(** The three date-of-birth fields, tried with one value. *)
Definition dobFilters (v : string) : list Filter :=
  [ mkFilter "extendedFields.dob" "eq" v;
    mkFilter "extendedFields.birthdate" "eq" v;
    mkFilter "extendedFields.dateOfBirth" "eq" v ].

(** Lines 139-186 and 250-296: the [or] filters, for the field names of
    one directory. *)
Definition buildFilters (firstField lastField fullField : string)
    (variations : list string) (formattedLastName fmtDOB origDOB : string)
    (formattedFirstName : string) : list Filter :=
  map (fun nameVariation => mkFilter firstField "contains" nameVariation)
      variations
  ++ (if nonEmpty formattedLastName
      then [mkFilter lastField "contains" formattedLastName] else [])
  ++ (if nonEmpty fmtDOB
      then dobFilters fmtDOB ++ dobFilters origDOB else [])
  ++ (if nonEmpty formattedFirstName && nonEmpty formattedLastName
      then [mkFilter fullField "contains"
              (trim (formattedFirstName ++ " " ++ formattedLastName))]
      else []).

Definition membersFields : list string :=
  ["profile"; "privacyStatus"; "status"; "activityStatus"; "extendedFields";
   "membershipStatus"].

Definition contactsFields : list string :=
  ["info"; "customFields"; "extendedFields"].

(** Lines 227-235: every member gets an [_id]. *)
Definition ensureId (member : Member) : Member :=
  let set_id v :=
    mkMember v (member_id member) (member_memberId member)
      (member_loginEmail member) (profile_nickname member)
      (profile_firstName member) (profile_lastName member)
      (profile_email member) (profile_phone member)
      (profile_photo_url member) (contact_firstName member)
      (contact_lastName member) (contact_emails0 member)
      (contact_phones0 member) (contact_birthdate member)
      (extendedFields_dob member) (extendedFields_birthdate member) in
  if negb (truthy (member_id_ member)) && truthy (member_id member)
  then set_id (member_id member)
  else if negb (truthy (member_id_ member)) && truthy (member_memberId member)
  then set_id (member_memberId member)
  else member.

(** A profile of the result list. *)
Record Candidate : Type := mkCandidate {
  id : option string;
  firstName : string;
  lastName : string;
  email : string;
  phone : string;
  picture : string;
  dateOfBirth : string;
  source : string;
  nickname : option string     (* only the members branch sets it *)
}.

(** Lines 375-409. *)
Definition fromMember (member : Member) : Candidate :=
  let nameParts :=
    match profile_nickname member with
    | Some (String c s) => split " " (String c s)
    | _ => []
    end in
  let firstName0 :=
    if truthy (profile_nickname member) then
      if (2 <=? List.length nameParts)%nat then hd "" nameParts
      else orEmpty (profile_nickname member)
    else "" in
  let lastName0 :=
    if truthy (profile_nickname member) then
      if (2 <=? List.length nameParts)%nat then join " " (tl nameParts)
      else ""
    else "" in
  {| id := or (or (member_id_ member) (member_id member))
              (member_memberId member);
     firstName :=
       orEmpty (or (or (Some firstName0) (profile_firstName member))
                   (contact_firstName member));
     lastName :=
       orEmpty (or (or (Some lastName0) (profile_lastName member))
                   (contact_lastName member));
     email :=
       orEmpty (or (or (member_loginEmail member) (contact_emails0 member))
                   (profile_email member));
     phone := orEmpty (or (contact_phones0 member) (profile_phone member));
     picture := orEmpty (profile_photo_url member);
     dateOfBirth :=
       orEmpty (or (or (contact_birthdate member) (extendedFields_dob member))
                   (extendedFields_birthdate member));
     source := "members";
     nickname := Some (orEmpty (profile_nickname member)) |}.

(** Lines 415-437. *)
Definition fromContact (contact : Contact) : Candidate :=
  {| id := or (or (or (memberInfo_id contact) (info_memberId contact))
                  (info_id contact))
              (contact_id contact);
     firstName := orEmpty (info_name_first contact);
     lastName := orEmpty (info_name_last contact);
     email :=
       orEmpty (or (primaryEmail_email contact) (info_emails0_email contact));
     phone :=
       orEmpty (or (primaryPhone_phone contact) (info_phones0_phone contact));
     picture := orEmpty (picture_image_url contact);
     dateOfBirth :=
       orEmpty (or (or (info_birthdate contact) (customFields_birthdate contact))
                   (customFields_dob contact));
     source := "contacts";
     nickname := None |}.

(** The pair of variables [results] and [source]: they are only ever
    assigned together. *)
Inductive Found : Type :=
| Nothing                                  (* results = [], source = null *)
| FoundMembers (results : list Member)     (* source = 'members' *)
| FoundContacts (results : list Contact).  (* source = 'contacts' *)

Inductive MatchResult : Type :=
| Success (members : list Candidate)
| Failure (error : string).

Record Args : Type := mkArgs {
  arg_firstName : option string;
  arg_lastName : option string;
  arg_dateOfBirth : option string
}.

(** [data.items && data.items.length > 0] *)
Definition someItems {A} (items : option (list A)) : option (list A) :=
  match items with
  | Some (x :: l) => Some (x :: l)
  | _ => None
  end.

(** The request bodies of lines 139-204, 250-310 and 338-342. *)
Definition membersData (args : Args) : Request :=
  let formattedFirstName := toTitleCase (arg_firstName args) in
  let formattedLastName := toTitleCase (arg_lastName args) in
  Query (buildFilters "profile.firstName" "profile.lastName" "profile.name"
           (firstNameVariations formattedFirstName) formattedLastName
           (formattedDOB (arg_dateOfBirth args))
           (originalDOB (arg_dateOfBirth args)) formattedFirstName)
        10 membersFields.

Definition contactsData (args : Args) : Request :=
  let formattedFirstName := toTitleCase (arg_firstName args) in
  let formattedLastName := toTitleCase (arg_lastName args) in
  Query (buildFilters "info.name.first" "info.name.last" "info.name.full"
           (firstNameVariations formattedFirstName) formattedLastName
           (formattedDOB (arg_dateOfBirth args))
           (originalDOB (arg_dateOfBirth args)) formattedFirstName)
        10 contactsFields.

Definition simpleParams (args : Args) : Request :=
  let formattedFirstName := toTitleCase (arg_firstName args) in
  let formattedLastName := toTitleCase (arg_lastName args) in
  FreeText (trim (formattedFirstName ++ " " ++ formattedLastName))
           ["info"; "customFields"; "picture"].

(** Lines 76-78: at least one criterion is there. *)
Definition hasCriteria (args : Args) : bool :=
  negb (blank (arg_firstName args) && blank (arg_lastName args)
        && blank (arg_dateOfBirth args)).

Definition noKey : string :=
  "Wix API key not set. Please add it to wix.config.json.".

Definition noCriteria : string :=
  "At least one search parameter (firstName, lastName, or dateOfBirth) is required".

Definition noMembers : string :=
  "No members found matching the search criteria".

(** Lines 70-453.  With arguments that are strings or undefined nothing
    throws outside the inner [try] blocks, so the outer [catch] is not
    reached. *)
Definition findMember (WIX_API_KEY : option string) (remote : Remote)
    (args : Args) : Logged MatchResult :=
  if negb (truthy WIX_API_KEY) then ret (Failure noKey)
  else if negb (hasCriteria args) then ret (Failure noCriteria)
  else
    (* 1. the Members API *)
    andThen (post MembersQuery (membersQuery remote) (membersData args))
      (fun membersResponse =>
    let found1 :=
      match membersResponse with
      | Returned data =>
          match someItems data with
          | Some members => FoundMembers (map ensureId members)
          | None => Nothing
          end
      | Thrown _ => Nothing
      end in
    (* 2. the Contacts API, when [results] is still empty *)
    andThen
      (match found1 with
       | FoundMembers _ | FoundContacts _ => ret found1
       | Nothing =>
           andThen
             (post ContactsQuery (contactsQuery remote) (contactsData args))
             (fun contactsResponse =>
           match contactsResponse with
           | Returned data =>
               match someItems data with
               | Some contacts => ret (FoundContacts contacts)
               | None => ret Nothing
               end
           | Thrown _ =>
               (* last resort: the free text search *)
               andThen
                 (post ContactsSearch (contactsSearch remote)
                    (simpleParams args))
                 (fun simpleResponse =>
               match simpleResponse with
               | Returned data =>
                   match someItems data with
                   | Some contacts => ret (FoundContacts contacts)
                   | None => ret Nothing
                   end
               | Thrown _ => ret Nothing
               end)
           end)
       end)
      (fun found =>
    match found with
    | FoundMembers results => ret (Success (map fromMember results))
    | FoundContacts results => ret (Success (map fromContact results))
    | Nothing => ret (Failure noMembers)
    end)).

(** The candidates an answer holds: none when the call was rejected or the
    property is missing. *)
Definition yield {A} (answer : outcome (option (list A))) : list A :=
  match answer with
  | Returned (Some items) => items
  | _ => []
  end.

End WixService.


(* ================================================================== *)
(** ** WixDirectApi.js (unnamed/part_004): [searchMemberByNameOrDOB]

    The same two REST endpoints as in WixService.js, hence the same
    requests, items and oracle. *)

Module WixDirectApi.
Import Js.
Import WixService.

(** What [results] may hold: raw items of either directory. *)
Inductive Item : Type :=
| MemberItem (member : Member)
| ContactItem (contact : Contact).

Inductive SearchResult : Type :=
| Found (source : string) (results : list Item)
| SearchFailure (error : string).

(** Lines 302-310 (and again 424-431). *)
Definition formattedDob (dob : string) : string :=
  if hasChar "-" dob then
    let parts := split "-" dob in
    if (List.length parts =? 3)%nat
       && (String.length (show (at_ parts 2)) =? 4)%nat
    then (show (at_ parts 2) ++ "-" ++ show (at_ parts 0) ++ "-"
          ++ show (at_ parts 1))%string
    else dob
  else dob.

(** [name.split(' ').filter(part => part.trim().length > 0)] *)
Definition namePartsOf (name : string) : list string :=
  filter (fun part => (0 <? String.length (trim part))%nat) (split " " name).

(** Lines 267-322 and 388-442, for the field names of one directory. *)
Definition searchFilters (firstField lastField fullField customField : string)
    (name dob : option string) : list Filter :=
  (match name with
   | Some (String c s) =>
       let name' := String c s in
       flat_map (fun part =>
                   [ mkFilter firstField "contains" part;
                     mkFilter lastField "contains" part;
                     mkFilter fullField "contains" part;
                     mkFilter customField "contains" part ])
                (namePartsOf name')
       ++ [mkFilter fullField "contains" name']
   | _ => []
   end)
  ++ (match dob with
      | Some (String c s) => dobFilters (formattedDob (String c s))
      | _ => []
      end).

(** Lines 368-374. *)
Definition ensureId (member : Member) : Member :=
  if negb (truthy (member_id_ member)) && truthy (member_id member)
  then
    mkMember (member_id member) (member_id member) (member_memberId member)
      (member_loginEmail member) (profile_nickname member)
      (profile_firstName member) (profile_lastName member)
      (profile_email member) (profile_phone member)
      (profile_photo_url member) (contact_firstName member)
      (contact_lastName member) (contact_emails0 member)
      (contact_phones0 member) (contact_birthdate member)
      (extendedFields_dob member) (extendedFields_birthdate member)
  else member.

Definition filters (name dob : option string) : list Filter :=
  searchFilters "profile.firstName" "profile.lastName" "profile.name"
    "extendedFields.fullName" name dob.

Definition contactFilters (name dob : option string) : list Filter :=
  searchFilters "info.name.first" "info.name.last" "info.name.full"
    "customFields.fullName" name dob.

Definition data (name dob : option string) : Request :=
  Query (filters name dob) 10 membersFields.

Definition contactsData (name dob : option string) : Request :=
  Query (contactFilters name dob) 10 contactsFields.

(** Lines 250-482.  [initialized] is the field set by the constructor. *)
Definition searchMemberByNameOrDOB (initialized : bool) (remote : Remote)
    (name dob : option string) : Logged SearchResult :=
  if negb initialized then
    ret (SearchFailure "Wix Direct API not properly initialized")
  else
    if (List.length (filters name dob) =? 0)%nat then ret (Found "none" [])
    else
      andThen (post MembersQuery (membersQuery remote) (data name dob))
        (fun answer =>
      let membersResponse :=
        match answer with
        | Returned members => members
        | Thrown _ => Some []
        end in
      match someItems membersResponse with
      | Some members =>
          ret (Found "members" (map MemberItem (map ensureId members)))
      | None =>
          andThen
            (post ContactsQuery (contactsQuery remote) (contactsData name dob))
            (fun answer' =>
          let contactsResponse :=
            match answer' with
            | Returned contacts => contacts
            | Thrown _ => Some []
            end in
          ret (Found "contacts"
                 (map ContactItem
                    (match contactsResponse with
                     | Some contacts => contacts
                     | None => []
                     end))))
      end).

End WixDirectApi.


(* ================================================================== *)
(** ** WixService.js, the SDK version (unnamed/part_002): [findMember]
       with the exact-match promotion.  [toTitleCase] and the name variations are the same
       lines as in the REST version. *)

Module WixServiceSdk.
Import Js.

Record ContactDetails : Type := mkContactDetails {
  cd_firstName : option string;
  cd_lastName : option string;
  cd_email : option string;
  cd_phone : option string
}.

(** An item of the Members data collection. *)
Record Member : Type := mkMember {
  member_id_ : option string;                  (* _id *)
  contactDetails : option ContactDetails;
  member_dateOfBirth : option string;
  member_status : option string;
  member_createdDate : option string;          (* _createdDate *)
  member_extendedFields : option (list (string * string))
}.

Record Profile : Type := mkProfile {
  id : option string;
  source : string;
  firstName : string;
  lastName : string;
  fullName : string;
  email : string;
  phone : string;
  dateOfBirth : string;
  status : string;
  createdDate : string;
  membershipStatus : string;
  extendedFields : list (string * string)
}.

Inductive MatchResult : Type :=
| Success (members : list Profile) (count : nat) (exactMatch : bool)
    (message : string)
| Failure (error : string).

Record Args : Type := mkArgs {
  arg_firstName : option string;
  arg_lastName : option string;
  arg_dateOfBirth : option string
}.

(** The SDK client: [adapter.initialize()] and the query for the active
    members, whose answer is the [items] property. *)
Record Sdk : Type := mkSdk {
  initialize : outcome unit;
  activeMembers : outcome (option (list Member))
}.

Definition emptyDetails : ContactDetails :=
  mkContactDetails None None None None.

(** [a === b] for a possibly undefined [a] and a string [b]. *)
Definition sameText (a : option string) (b : string) : bool :=
  match a with
  | Some s => String.eqb s b
  | None => false
  end.

(** Lines 136-164: the filter over the active members. *)
Definition matches (args : Args) (formattedFirstName formattedLastName : string)
    (variations : list string) (member : Member) : bool :=
  match contactDetails member with
  | None => false
  | Some details =>
      let memberFirstName := orEmpty (cd_firstName details) in
      let memberLastName := orEmpty (cd_lastName details) in
      let memberDob := orEmpty (member_dateOfBirth member) in
      let firstNameMatch :=
        existsb (fun variation =>
                   includes (toLowerCase variation)
                            (toLowerCase memberFirstName))
                variations in
      let lastNameMatch :=
        nonEmpty formattedLastName
        && includes (toLowerCase formattedLastName)
                    (toLowerCase memberLastName) in
      let dobMatch :=
        match arg_dateOfBirth args with
        | Some (String c s) =>
            if nonEmpty (trim (String c s)) then
              String.eqb memberDob (replaceAll "/" "-" (String c s))
            else true
        | _ => true
        end in
      (firstNameMatch || negb (nonEmpty formattedFirstName))
      && (lastNameMatch || negb (nonEmpty formattedLastName))
      && dobMatch
  end.

(** Lines 170-184. *)
Definition toProfile (member : Member) : Profile :=
  let contactInfo :=
    match contactDetails member with
    | Some details => details
    | None => emptyDetails
    end in
  {| id := member_id_ member;
     source := "wix-sdk";
     firstName := orEmpty (cd_firstName contactInfo);
     lastName := orEmpty (cd_lastName contactInfo);
     fullName :=
       trim (orEmpty (cd_firstName contactInfo) ++ " "
             ++ orEmpty (cd_lastName contactInfo));
     email := orEmpty (cd_email contactInfo);
     phone := orEmpty (cd_phone contactInfo);
     dateOfBirth := orEmpty (member_dateOfBirth member);
     status := orEmpty (member_status member);
     createdDate := orEmpty (member_createdDate member);
     membershipStatus := orEmpty (member_status member);
     extendedFields :=
       match member_extendedFields member with
       | Some fields => fields
       | None => []
       end |}.

(** Lines 186-193: is this member an exact match? *)
Definition isExact (args : Args) (formattedFirstName formattedLastName : string)
    (member : Member) : bool :=
  let contactInfo :=
    match contactDetails member with
    | Some details => details
    | None => emptyDetails
    end in
  let exactFirstNameMatch :=
    truthy (cd_firstName contactInfo)
    && String.eqb (toLowerCase (orEmpty (cd_firstName contactInfo)))
                  (toLowerCase formattedFirstName) in
  let exactLastNameMatch :=
    truthy (cd_lastName contactInfo)
    && String.eqb (toLowerCase (orEmpty (cd_lastName contactInfo)))
                  (toLowerCase formattedLastName) in
  let exactDobMatch :=
    match arg_dateOfBirth args with
    | Some (String c s) => sameText (member_dateOfBirth member) (String c s)
    | _ => false
    end in
  exactFirstNameMatch && exactLastNameMatch && exactDobMatch.


(** Lines 169-201: the loop, on the pair [results], [foundExactMatch];
    [unshift] puts in front, [push] at the end. *)
Definition step (args : Args) (formattedFirstName formattedLastName : string)
    (state : list Profile * bool) (member : Member) : list Profile * bool :=
  let (results, foundExactMatch) := state in
  let profile := toProfile member in
  if isExact args formattedFirstName formattedLastName member
  then (profile :: results, true)
  else (results ++ [profile], foundExactMatch).

Definition promote (args : Args) (formattedFirstName formattedLastName : string)
    (matchingMembers : list Member) : list Profile * bool :=
  fold_left (step args formattedFirstName formattedLastName)
            matchingMembers ([], false).

(** The decimal text of a length, as a template literal prints it. *)
Definition showNat (n : nat) : string :=
  DecimalString.NilZero.string_of_uint (Nat.to_uint n).

(** Lines 70-222. *)
Definition findMember (WIX_API_KEY : option string) (sdk : Sdk)
    (args : Args) : MatchResult :=
  if negb (truthy WIX_API_KEY) then
    Failure "Wix API key not set. Please add it to wix.config.json."
  else if WixService.blank (arg_firstName args)
          && WixService.blank (arg_lastName args)
          && WixService.blank (arg_dateOfBirth args) then
    Failure
      "At least one search parameter (firstName, lastName, or dateOfBirth) is required"
  else
    let formattedFirstName := WixService.toTitleCase (arg_firstName args) in
    let formattedLastName := WixService.toTitleCase (arg_lastName args) in
    let variations := WixService.firstNameVariations formattedFirstName in
    let attempt : outcome MatchResult :=
      _ <- initialize sdk ;;
      answer <- activeMembers sdk ;;
      items <- match answer with
               | Some items => Returned items
               | None =>
                   Thrown "Cannot read properties of undefined (reading 'length')"
               end ;;
      let matchingMembers :=
        filter (matches args formattedFirstName formattedLastName variations)
               items in
      let (results, foundExactMatch) :=
        promote args formattedFirstName formattedLastName matchingMembers in
      Returned
        (Success results (List.length results) foundExactMatch
           (if (0 <? List.length results)%nat then
              ("Found " ++ showNat (List.length results)
               ++ " matching members"
               ++ (if foundExactMatch then " (with exact match)" else ""))%string
            else "No matching members found")) in
    match attempt with
    | Returned result => result
    | Thrown message => Failure ("Error finding member: " ++ message)
    end.

End WixServiceSdk.


(* ================================================================== *)
(** ** WixSdkAdapter.js, the CRM Contacts version (unnamed/part_001, lines
       203-718): [searchMember] *)

Module WixSdkAdapterCrm.
Import Js.

(** A contact as the query builder returns it. *)
Record Contact : Type := mkContact {
  contact_id_ : option string;             (* _id *)
  info_name_first : option string;
  info_name_last : option string;
  primaryInfo_email : option string
}.

(** [queryContacts()], then possibly [.startsWith(field, text)], then
    [.limit(n)]. *)
Record ContactsQuery : Type := mkQuery {
  startsWith : option (string * string);
  limit : nat
}.

(** The SDK: the outcome of building the client, and what [find()] answers
    to a query: the [items] property, whose entries may be null. *)
Record Sdk : Type := mkSdk {
  createClient : outcome unit;
  find : ContactsQuery -> outcome (option (list (option Contact)))
}.

(** The adapter object and the queries sent so far. *)
Record World : Type := mkWorld {
  initialized : bool;
  sent : list ContactsQuery
}.

Definition Stateful (A : Type) : Type := World -> A * World.

Definition ret {A} (a : A) : Stateful A := fun w => (a, w).

Definition andThen {A B} (m : Stateful A) (k : A -> Stateful B)
    : Stateful B :=
  fun w => let (a, w') := m w in k a w'.

Definition runFind (sdk : Sdk) (q : ContactsQuery)
    : Stateful (outcome (option (list (option Contact)))) :=
  fun w => (find sdk q, mkWorld (initialized w) (sent w ++ [q])).

(** Lines 256-304. *)
Definition initialize (sdk : Sdk) : Stateful (outcome unit) :=
  fun w =>
    if initialized w then (Returned tt, w)
    else match createClient sdk with
         | Returned _ => (Returned tt, mkWorld true (sent w))
         | Thrown message => (Thrown message, w)
         end.

Record QueryDetails : Type := mkDetails {
  qd_firstName : string;
  qd_lastName : string;
  qd_dateOfBirth : string;
  qd_methodUsed : string
}.

Inductive SearchResult : Type :=
| Success (items : list Contact) (total : nat) (source : string)
    (queryDetails : QueryDetails)
| Failure (error : string) (source : string).

Record Args : Type := mkArgs {
  arg_firstName : option string;
  arg_lastName : option string;
  arg_dateOfBirth : option string
}.

(** [x && x.trim() !== ''] *)
Definition given (x : option string) : bool :=
  match x with
  | Some (String c s) => nonEmpty (trim (String c s))
  | _ => false
  end.

(** Lines 386-392. *)
Definition firstNamePartsOf (firstName : option string) : list string :=
  if given firstName
  then map capitalize (split " " (toLowerCase (trim (orEmpty firstName))))
  else [].

(** Lines 395-402. *)
Definition formattedLastNameOf (lastName : option string) : string :=
  if given lastName
  then join " "
         (map capitalize (split " " (toLowerCase (trim (orEmpty lastName)))))
  else "".

(** The entries that [push(...response.items)] adds: none when [items] is
    undefined or empty. *)
Definition someItems {A} (items : option (list A)) : list A :=
  match items with
  | Some l => l
  | None => []
  end.

(** Lines 422-436: one query per part of the first name, the answers
    appended to [firstNameResults]. *)
Fixpoint searchFirstNames (sdk : Sdk) (parts : list string)
    (firstNameResults : list (option Contact))
    : Stateful (list (option Contact)) :=
  match parts with
  | [] => ret firstNameResults
  | namePart :: rest =>
      andThen
        (runFind sdk (mkQuery (Some ("info.name.first", namePart)) 50))
        (fun response =>
      searchFirstNames sdk rest
        (match response with
         | Returned items => firstNameResults ++ someItems items
         | Thrown _ => firstNameResults
         end))
  end.

(** [Map.prototype.set]: a new key goes last, a known key keeps its place
    and takes the new value. *)
Fixpoint mapSet {V} (key : string) (v : V) (m : list (string * V))
    : list (string * V) :=
  match m with
  | [] => [(key, v)]
  | (k, old) :: m' =>
      if String.eqb k key then (k, v) :: m' else (k, old) :: mapSet key v m'
  end.

(** Lines 486-494. *)
Definition remember (uniqueContacts : list (string * Contact))
    (contact : option Contact) : list (string * Contact) :=
  match contact with
  | Some c =>
      match contact_id_ c with
      | Some (String a s) => mapSet (String a s) c uniqueContacts
      | _ => uniqueContacts
      end
  | None => uniqueContacts
  end.

Definition uniqueContacts (results : list (option Contact))
    : list (string * Contact) :=
  fold_left remember results [].

Definition dedupe (results : list (option Contact)) : list Contact :=
  map snd (uniqueContacts results).

(** Lines 405-483: the array [results] before the deduplication.  Building
    a query ([queryContacts], [startsWith], [limit]) sends nothing and does
    not throw; only [find] does. *)
Definition collect (sdk : Sdk) (firstNameParts : list string)
    (formattedLastName : string) : Stateful (list (option Contact)) :=
  andThen
    (if (0 <? List.length firstNameParts)%nat
     then searchFirstNames sdk firstNameParts []
     else ret [])
    (fun firstNameResults =>
  let hasFilters1 := (0 <? List.length firstNameResults)%nat in
  andThen
    (if nonEmpty formattedLastName then
       andThen
         (runFind sdk (mkQuery (Some ("info.name.last", formattedLastName)) 50))
         (fun response =>
       match response with
       | Returned (Some (x :: l)) =>
           ret (firstNameResults ++ x :: l, true)
       | _ => ret (firstNameResults, hasFilters1)
       end)
     else ret (firstNameResults, hasFilters1))
    (fun '(results, hasFilters) =>
  if negb hasFilters then
    andThen (runFind sdk (mkQuery None 50))
      (fun response =>
    match response with
    | Returned items => ret (someItems items)
    | Thrown _ => ret []
    end)
  else ret results)).

(** Lines 372-522. *)
Definition searchMember (sdk : Sdk) (args : Args) : Stateful SearchResult :=
  andThen
    (fun w => if initialized w then (Returned tt, w) else initialize sdk w)
    (fun started =>
  match started with
  | Thrown message => ret (Failure message "wix-crm-contacts")
  | Returned _ =>
      let firstNameParts := firstNamePartsOf (arg_firstName args) in
      let formattedLastName := formattedLastNameOf (arg_lastName args) in
      andThen (collect sdk firstNameParts formattedLastName)
        (fun results =>
      let results' := dedupe results in
      ret (Success results' (List.length results') "wix-crm-contacts"
             {| qd_firstName := join ", " firstNameParts;
                qd_lastName := formattedLastName;
                qd_dateOfBirth := orEmpty (arg_dateOfBirth args);
                qd_methodUsed := "queryContacts" |}))
  end).

(** [contact] is the last entry of [results] that carries the identifier
    [key]. *)
Definition lastSeen (results : list (option Contact)) (key : string)
    (contact : Contact) : Prop :=
  contact_id_ contact = Some key /\ nonEmpty key = true /\
  exists before after,
    results = before ++ Some contact :: after /\
    forall later, In (Some later) after -> contact_id_ later <> Some key.

End WixSdkAdapterCrm.


(* ================================================================== *)
(** ** WixSdkAdapter.js, the Members version (unnamed/part_001, lines
       720-1067): [searchMember] and the exported wrapper *)

Module WixSdkAdapterMembers.
Import Js.

Record Member : Type := mkMember {
  member_id_ : option string;
  member_firstName : option string;
  member_lastName : option string;
  member_dateOfBirth : option string
}.

(** The object [searchParams]: a key is present when it was given. *)
Record SearchParams : Type := mkParams {
  sp_firstName : option string;
  sp_lastName : option string;
  sp_dateOfBirth : option string
}.

Inductive Call : Type :=
| QueryMembers (filter : SearchParams)
| ListMembers.

(** [client.members]: each method may be missing; the answer is the
    [members] property of the response. *)
Record MembersModule : Type := mkModule {
  queryMembers : option (SearchParams -> outcome (option (list Member)));
  listMembers : option (outcome (option (list Member)))
}.

(** The adapter object and the calls made so far. *)
Record World : Type := mkWorld {
  initialized : bool;
  membersModule : option MembersModule;
  sdkVersion : string;
  made : list Call
}.

Definition Stateful (A : Type) : Type := World -> A * World.

Inductive SearchResult : Type :=
| Success (results : list Member) (resultCount : nat) (source : string)
| Failure (error : string) (source : option string).

Record Args : Type := mkArgs {
  arg_firstName : option string;
  arg_lastName : option string;
  arg_dateOfBirth : option string
}.

(** Lines 768-796: [createClient] gives the members module or throws. *)
Definition initialize (createClient : outcome (option MembersModule))
    : Stateful (outcome unit) :=
  fun w =>
    if initialized w then (Returned tt, w)
    else match createClient with
         | Returned module =>
             (Returned tt, mkWorld true module (sdkVersion w) (made w))
         | Thrown message => (Thrown message, w)
         end.

(** Lines 875-890. *)
Definition paramOf (x : option string) : option string :=
  match x with
  | Some (String c s) =>
      if nonEmpty (trim (String c s)) then Some (trim (String c s)) else None
  | _ => None
  end.

Definition searchParamsOf (args : Args) : SearchParams :=
  {| sp_firstName := paramOf (arg_firstName args);
     sp_lastName := paramOf (arg_lastName args);
     sp_dateOfBirth := paramOf (arg_dateOfBirth args) |}.

(** [Object.keys(searchParams).length] *)
Definition present (x : option string) : nat :=
  match x with
  | Some _ => 1
  | None => 0
  end.

Definition keyCount (p : SearchParams) : nat :=
  present (sp_firstName p) + present (sp_lastName p)
  + present (sp_dateOfBirth p).

(** Lines 938-956: the manual filter of the [listMembers] branch. *)
Definition matchesParams (p : SearchParams) (member : Member) : bool :=
  let byFirst :=
    if truthy (sp_firstName p) then
      truthy (member_firstName member)
      && includes (toLowerCase (orEmpty (sp_firstName p)))
                  (toLowerCase (orEmpty (member_firstName member)))
    else true in
  let byLast :=
    if truthy (sp_lastName p) then
      truthy (member_lastName member)
      && includes (toLowerCase (orEmpty (sp_lastName p)))
                  (toLowerCase (orEmpty (member_lastName member)))
    else true in
  let byDob :=
    match sp_dateOfBirth p with
    | Some (String c s) =>
        match member_dateOfBirth member with
        | Some d => String.eqb d (String c s)
        | None => false
        end
    | _ => true
    end in
  byFirst && byLast && byDob.

Definition itemsOf {A} (items : option (list A)) : list A :=
  match items with
  | Some l => l
  | None => []
  end.

Definition missingCriteria : string :=
  "At least one search parameter (firstName, lastName, or dateOfBirth) is required".

(** Lines 864-981: the method; a [Thrown] outcome is an exception that
    leaves it. *)
Definition adapterSearchMember (createClient : outcome (option MembersModule))
    (args : Args) : Stateful (outcome SearchResult) :=
  fun w0 =>
    let (started, w) := initialize createClient w0 in
    match started with
    | Thrown message => (Thrown message, w)
    | Returned _ =>
        match membersModule w with
        | None =>
            (Thrown "Members module not available in the SDK client", w)
        | Some module =>
            let searchParams := searchParamsOf args in
            if (keyCount searchParams =? 0)%nat then
              (Returned (Failure missingCriteria None), w)
            else
              let log c :=
                mkWorld (initialized w) (membersModule w) (sdkVersion w)
                  (made w ++ [c]) in
              let failed message :=
                Failure ("Error searching for members: " ++ message)%string
                  (Some "wix-sdk") in
              match queryMembers module, listMembers module with
              | Some query, _ =>
                  match query searchParams with
                  | Returned members =>
                      (Returned
                         (Success (itemsOf members)
                            (List.length (itemsOf members)) "wix-sdk"),
                       log (QueryMembers searchParams))
                  | Thrown message =>
                      (Returned (failed message),
                       log (QueryMembers searchParams))
                  end
              | None, Some list =>
                  match list with
                  | Returned members =>
                      let results :=
                        filter (matchesParams searchParams) (itemsOf members) in
                      (Returned
                         (Success results (List.length results) "wix-sdk"),
                       log ListMembers)
                  | Thrown message => (Returned (failed message), log ListMembers)
                  end
              | None, None =>
                  (Returned
                     (failed ("No compatible member search method found in SDK v"
                              ++ sdkVersion w)%string), w)
              end
        end
    end.

(** Lines 991-1003: the exported [searchMember]. *)
Definition searchMember (createClient : outcome (option MembersModule))
    (args : Args) : Stateful SearchResult :=
  fun w0 =>
    let (result, w) := adapterSearchMember createClient args w0 in
    match result with
    | Returned r => (r, w)
    | Thrown message => (Failure message (Some "wix-sdk-adapter"), w)
    end.

End WixSdkAdapterMembers.


(* ================================================================== *)
(** ** Concrete inputs used below *)

Module Samples.
Import Js.

(** A CSV row of which only the name and the CREATED column matter. *)
Definition rowAt (fullName : string) (created : option string)
    : ScanIDService.Row :=
  ScanIDService.mkRow (Some "JANE") (Some "DOE") (Some fullName)
    (Some "01-15-1990") (Some "34") (Some "D1234567") (Some "01-15-2030")
    (Some "01-15-2022") created (Some "photo.jpg").

Definition rowJan1 : ScanIDService.Row :=
  rowAt "FIRST ROW" (Some "01/01/2024 10:00").

Definition rowUndated : ScanIDService.Row :=
  rowAt "UNDATED ROW" (Some "").

Definition rowJan2 : ScanIDService.Row :=
  rowAt "LATER ROW" (Some "01/02/2024 09:00").

Definition rowJan2Again : ScanIDService.Row :=
  rowAt "SAME DAY ROW" (Some "01/02/2024 18:30").

Definition rowNoColumn : ScanIDService.Row :=
  rowAt "NO COLUMN" None.

(** Members, contacts and remote services. *)
Definition memberJane : WixService.Member :=
  {| WixService.member_id_ := None;
     WixService.member_id := Some "m-1";
     WixService.member_memberId := None;
     WixService.member_loginEmail := Some "jane@example.com";
     WixService.profile_nickname := Some "Jane Doe";
     WixService.profile_firstName := None;
     WixService.profile_lastName := None;
     WixService.profile_email := None;
     WixService.profile_phone := None;
     WixService.profile_photo_url := None;
     WixService.contact_firstName := Some "Jane";
     WixService.contact_lastName := Some "Doe";
     WixService.contact_emails0 := None;
     WixService.contact_phones0 := None;
     WixService.contact_birthdate := Some "1990-01-15";
     WixService.extendedFields_dob := None;
     WixService.extendedFields_birthdate := None |}.

Definition contactJane : WixService.Contact :=
  {| WixService.contact_id := Some "c-7";
     WixService.memberInfo_id := None;
     WixService.info_memberId := Some "m-1";
     WixService.info_id := None;
     WixService.info_name_first := Some "Jane";
     WixService.info_name_last := Some "Doe";
     WixService.primaryEmail_email := Some "jane@example.com";
     WixService.info_emails0_email := None;
     WixService.primaryPhone_phone := None;
     WixService.info_phones0_phone := None;
     WixService.picture_image_url := None;
     WixService.info_birthdate := Some "1990-01-15";
     WixService.customFields_birthdate := None;
     WixService.customFields_dob := None |}.

(** Every endpoint answers, with no item. *)
Definition silentRemote : WixService.Remote :=
  WixService.mkRemote (fun _ => Returned (Some []))
    (fun _ => Returned (Some [])) (fun _ => Returned (Some [])).

(** Every request is rejected. *)
Definition deadRemote : WixService.Remote :=
  WixService.mkRemote (fun _ => Thrown "Network Error")
    (fun _ => Thrown "Network Error") (fun _ => Thrown "Network Error").

(** Both directories know Jane. *)
Definition bothRemote : WixService.Remote :=
  WixService.mkRemote (fun _ => Returned (Some [memberJane]))
    (fun _ => Returned (Some [contactJane]))
    (fun _ => Returned (Some [contactJane])).

(** Only the contact directory knows Jane. *)
Definition contactsOnlyRemote : WixService.Remote :=
  WixService.mkRemote (fun _ => Returned (Some []))
    (fun _ => Returned (Some [contactJane])) (fun _ => Returned (Some [])).

Definition apiKey : option string := Some "IST.key".

Definition janeDoe : WixService.Args :=
  WixService.mkArgs (Some "JANE MARIE") (Some "DOE") (Some "01-15-1990").

Definition blankArgs : WixService.Args :=
  WixService.mkArgs (Some "   ") None (Some "").

(** Members of the SDK collection, and a client that lists them. *)
Definition sdkMember (ident first last dob : string) : WixServiceSdk.Member :=
  WixServiceSdk.mkMember (Some ident)
    (Some (WixServiceSdk.mkContactDetails (Some first) (Some last) None None))
    (Some dob) (Some "ACTIVE") None None.

Definition janet : WixServiceSdk.Member :=
  sdkMember "id-1" "Janet" "Doe" "01-15-1990".

Definition jane : WixServiceSdk.Member :=
  sdkMember "id-2" "Jane" "Doe" "01-15-1990".

Definition janeDoering : WixServiceSdk.Member :=
  sdkMember "id-3" "Jane" "Doering" "01-15-1990".

Definition sdkClient : WixServiceSdk.Sdk :=
  WixServiceSdk.mkSdk (Returned tt) (Returned (Some [janet; jane; janeDoering])).

Definition sdkJaneDoe : WixServiceSdk.Args :=
  WixServiceSdk.mkArgs (Some "JANE") (Some "DOE") (Some "01-15-1990").

(** Contacts of the CRM, and a client whose answers overlap: the query for
    the first name and the one for the last name both return Jane. *)
Definition crmContact (ident first last email : string)
    : WixSdkAdapterCrm.Contact :=
  WixSdkAdapterCrm.mkContact (Some ident) (Some first) (Some last) (Some email).

Definition crmJane : WixSdkAdapterCrm.Contact :=
  crmContact "c-1" "Jane" "Doe" "jane@example.com".

Definition crmJaneUpdated : WixSdkAdapterCrm.Contact :=
  crmContact "c-1" "Jane" "Doe" "jane.doe@example.com".

Definition crmJohn : WixSdkAdapterCrm.Contact :=
  crmContact "c-2" "John" "Doe" "john@example.com".

Definition crmClient : WixSdkAdapterCrm.Sdk :=
  WixSdkAdapterCrm.mkSdk (Returned tt)
    (fun q =>
       match WixSdkAdapterCrm.startsWith q with
       | Some ("info.name.first", _) => Returned (Some [Some crmJane])
       | Some (_, _) => Returned (Some [Some crmJohn; Some crmJaneUpdated])
       | None => Returned (Some [Some crmJohn; None; Some crmJane])
       end).

(** A client that cannot be built. *)
Definition brokenCrmClient : WixSdkAdapterCrm.Sdk :=
  WixSdkAdapterCrm.mkSdk
    (Thrown "Cannot read properties of undefined (reading 'substring')")
    (fun _ => Returned (Some [])).

Definition freshAdapter : WixSdkAdapterCrm.World :=
  WixSdkAdapterCrm.mkWorld false [].

Definition crmJaneDoe : WixSdkAdapterCrm.Args :=
  WixSdkAdapterCrm.mkArgs (Some "JANE") (Some "DOE") (Some "01-15-1990").

Definition crmNoNames : WixSdkAdapterCrm.Args :=
  WixSdkAdapterCrm.mkArgs (Some "  ") None (Some "01-15-1990").

End Samples.

(* ================================================================== *)
(** ** More concrete inputs *)

Module MoreSamples.
Import Js.

(** The members directory is empty, the contacts query is rejected, and
    the free text search knows Jane. *)
Definition searchOnlyRemote : WixService.Remote :=
  WixService.mkRemote (fun _ => Returned (Some []))
    (fun _ => Thrown "Request failed with status code 400")
    (fun _ => Returned (Some [Samples.contactJane])).

(** A query whose date of birth is written with slashes. *)
Definition sdkSlashDate : WixServiceSdk.Args :=
  WixServiceSdk.mkArgs (Some "JANE") (Some "DOE") (Some "01/15/1990").

(** A members module with both methods, one with [listMembers] only. *)
Definition adapterMember (ident first last dob : string)
    : WixSdkAdapterMembers.Member :=
  WixSdkAdapterMembers.mkMember (Some ident) (Some first) (Some last)
    (Some dob).

Definition listedMembers : list WixSdkAdapterMembers.Member :=
  [adapterMember "m-1" "Jane" "Doe" "01-15-1990";
   adapterMember "m-2" "John" "Doe" "02-02-1980";
   adapterMember "m-3" "Janet" "Doering" "01-15-1990"].

Definition listOnlyModule : WixSdkAdapterMembers.MembersModule :=
  WixSdkAdapterMembers.mkModule None (Some (Returned (Some listedMembers))).

Definition readyAdapter : WixSdkAdapterMembers.World :=
  WixSdkAdapterMembers.mkWorld true (Some listOnlyModule) "1.12.0" [].

Definition adapterJaneDoe : WixSdkAdapterMembers.Args :=
  WixSdkAdapterMembers.mkArgs (Some " jane ") (Some "DOE") None.

Definition readyCrmAdapter : WixSdkAdapterCrm.World :=
  WixSdkAdapterCrm.mkWorld true [].

End MoreSamples.


(* ================================================================== *)
(** ** src/services/sqlService.js and the draft of [getLatestScan] that
       asks it for a fingerprint (src/services/ScanIDService.js, lines
       24-79) *)

Module ScanIDFingerprint.
Import Js ScanIDService.

(** The mssql driver: what [connect] does, and the record set of the
    query for a name; a row is its [fingerprint_hash] column, which may be
    NULL. *)
Record Sql : Type := mkSql {
  connect : outcome unit;
  query : option string -> outcome (list (option string))
}.

Inductive SqlCall : Type :=
| Connect
| Select (full_name : option string).

(** sqlService.js, lines 14-24: the hash, or null, and the calls made. *)
Definition getFingerprintData (sql : Sql) (userName : option string)
    : option string * list SqlCall :=
  match connect sql with
  | Thrown _ => (None, [Connect])
  | Returned _ =>
      match query sql userName with
      | Thrown _ => (None, [Connect; Select userName])
      | Returned recordset =>
          (match recordset with
           | [] => None
           | fingerprint_hash :: _ => fingerprint_hash
           end,
           [Connect; Select userName])
      end
  end.

Inductive Result : Type :=
| Scanned (record : ScanRecord) (FingerprintHash : string)
| Failed (error : string).

Section Reader.
Variable parseDate : string -> option Z.

(** ScanIDService.js, lines 24-79. *)
Definition getLatestScan (sql : Sql) (file : CsvFile)
    : Result * list SqlCall :=
  match file with
  | NotFound => (Failed "Scan-ID CSV file not found", [])
  | ParseFailure message => (Failed message, [])
  | Parsed records =>
      if (List.length records =? 0)%nat then
        (Failed "No records found in CSV file", [])
      else
        match sort (compareCreatedPlain parseDate) records with
        | Thrown message => (Failed message, [])
        | Returned sorted =>
            match sorted with
            | latestRecord :: _ =>
                let (fingerprintHash, calls) :=
                  getFingerprintData sql (FULL_NAME latestRecord) in
                if negb (truthy fingerprintHash) then
                  (Failed "Fingerprint not found", calls)
                else
                  (Scanned (toScan latestRecord) (orEmpty fingerprintHash),
                   calls)
            | [] =>
                (Failed
                   "Cannot read properties of undefined (reading 'FULL NAME')",
                 [])
            end
        end
  end.

End Reader.

End ScanIDFingerprint.


(* ================================================================== *)
(** ** WixService.js: [getMemberPricingPlans] (the same text in
       unnamed/part_002, lines 232-310, and unnamed/part_003, lines
       463-541) *)

Module WixServicePlans.
Import Js.

(** The body of the subscriptions query. *)
Record PlansQuery : Type := mkPlansQuery {
  filter_buyerInfo_memberId : string;
  paging_limit : nat;
  fields : list string
}.

Definition plansFields : list string :=
  ["id"; "status"; "planName"; "pricingPlanId"; "buyerInfo"; "startDate";
   "endDate"; "autoRenew"].

Section Plans.
(** Subscriptions and paging metadata are handed on as they come. *)
Variable Subscription : Type.
Variable Metadata : Type.

(** [response.data].  A response whose data cannot be read makes the
    method throw inside its [try], as a rejected request does. *)
Record PlansData : Type := mkPlansData {
  memberSubscriptions : option (list Subscription);
  pagingMetadata : option Metadata
}.

(** In [Plans], a [pagingMetadata] of [None] is the empty object. *)
Inductive PlansResult : Type :=
| Plans (plans : list Subscription) (planCount : nat)
    (pagingMetadata : option Metadata)
| PlansFailure (error : string).

Definition getMemberPricingPlans (WIX_API_KEY : option string)
    (post : PlansQuery -> outcome PlansData) (memberId : option string)
    : PlansResult * list PlansQuery :=
  if negb (truthy WIX_API_KEY) then
    (PlansFailure "Wix API key not set. Please add it to wix.config.json.", [])
  else if negb (truthy memberId) then
    (PlansFailure "Member ID is required", [])
  else
    let data := mkPlansQuery (orEmpty memberId) 10 plansFields in
    match post data with
    | Returned response =>
        (Plans
           (match memberSubscriptions response with
            | Some subscriptions => subscriptions
            | None => []
            end)
           (match memberSubscriptions response with
            | Some subscriptions => List.length subscriptions
            | None => 0
            end)
           (pagingMetadata response),
         [data])
    | Thrown message =>
        (PlansFailure ("Error getting pricing plans: " ++ message)%string,
         [data])
    end.

End Plans.

End WixServicePlans.


(* ================================================================== *)
(** ** WixDirectApi.js (unnamed/part_004): [queryCollection],
       [queryMembers] and [queryContacts] *)

Module WixDirectApiQueries.
Import Js.

(** An argument that the caller may leave out ([undefined]) or pass as
    [null]. *)
Inductive Argument (A : Type) : Type :=
| Omitted
| Null
| Passed (a : A).
Arguments Omitted {A}.
Arguments Null {A}.

(** A query object: each property may be missing; [{}] has none. *)
Record Query : Type := mkQuery {
  filter : option (list WixService.Filter);
  paging_limit : option nat;
  fields : option (list string)
}.

Definition emptyObject : Query := mkQuery None None None.

(** The parameter after its default [= {}]: [None] is [null]. *)
Definition defaulted (query : Argument Query) : option Query :=
  match query with
  | Omitted => Some emptyObject
  | Null => None
  | Passed q => Some q
  end.

(** [query || literal]: an object is truthy, also an empty one. *)
Definition orLiteral (query : option Query) (literal : Query) : Query :=
  match query with
  | Some q => q
  | None => literal
  end.

Inductive Endpoint : Type :=
| CollectionItems (collectionId : string)
| Members
| Contacts.

Section Api.
Variable Item : Type.

(** [response.data].  A response whose data cannot be read makes the
    method throw inside its [try], as a rejected request does. *)
Record Data : Type := mkData {
  entries : option (list Item);
  data_totalCount : option nat
}.

Record Answer : Type := mkAnswer {
  found : list Item;
  totalCount : nat
}.

Definition answerOf (response : Data) : Answer :=
  {| found := match entries response with
              | Some l => l
              | None => []
              end;
     totalCount := match data_totalCount response with
                   | Some n => n
                   | None => 0
                   end |}.

Definition quote : string := String (ascii_of_nat 34) EmptyString.

Definition notInitialized : string := "Wix Direct API not properly initialized".

Definition membersLiteral : Query :=
  mkQuery None (Some 10)
    (Some ["profile"; "privacyStatus"; "status"; "activityStatus";
           "lastLoginDate"; "registrationDate"; "lastUpdateDate";
           "extendedFields"]).

Definition contactsLiteral : Query :=
  mkQuery None (Some 10) (Some ["info"; "customFields"; "extendedFields"]).

Definition collectionLiteral : Query := mkQuery None (Some 50) None.

Variable initialized : bool.
Variable post : Endpoint -> Query -> outcome Data.

(** Lines 55-96.  The body is [{ query: ... }]; the log keeps the inner
    object. *)
Definition queryCollection (collectionId : string) (query : Argument Query)
    : outcome Answer * list (Endpoint * Query) :=
  if negb initialized then (Thrown notInitialized, [])
  else
    let data := orLiteral (defaulted query) collectionLiteral in
    match post (CollectionItems collectionId) data with
    | Returned response =>
        (Returned (answerOf response), [(CollectionItems collectionId, data)])
    | Thrown message =>
        (Thrown ("Error querying collection " ++ quote ++ collectionId
                 ++ quote ++ ": " ++ message)%string,
         [(CollectionItems collectionId, data)])
    end.

(** Lines 140-191. *)
Definition queryMembers (query : Argument Query)
    : outcome Answer * list (Endpoint * Query) :=
  if negb initialized then (Thrown notInitialized, [])
  else
    let data := orLiteral (defaulted query) membersLiteral in
    match post Members data with
    | Returned response => (Returned (answerOf response), [(Members, data)])
    | Thrown message =>
        (Thrown ("Error querying members: " ++ message)%string,
         [(Members, data)])
    end.

(** Lines 196-242. *)
Definition queryContacts (query : Argument Query)
    : outcome Answer * list (Endpoint * Query) :=
  if negb initialized then (Thrown notInitialized, [])
  else
    let data := orLiteral (defaulted query) contactsLiteral in
    match post Contacts data with
    | Returned response => (Returned (answerOf response), [(Contacts, data)])
    | Thrown message =>
        (Thrown ("Error querying contacts: " ++ message)%string,
         [(Contacts, data)])
    end.

End Api.

End WixDirectApiQueries.


(* ================================================================== *)
(** ** WixSdkAdapter.js, the data version (unnamed/part_001, lines 1-201;
       the same methods again at lines 768-826 and 1008-1063):
       [initialize], [queryCollection] and [testAdapter] *)

Module WixSdkAdapterData.
Import Js.

Inductive Call : Type :=
| CallQuery (dataCollectionId : string)
| CallFind (dataCollectionId : string)
| CallList (collectionId : string).

Section Adapter.
Variable Item : Type.

(** What a data call resolves to: an object that may have [items],
    [results] and [data], an array, or nothing ([undefined]). *)
Inductive DataItems : Type :=
| ObjectAnswer (items results data : option (list Item))
| ArrayAnswer (elements : list Item)
| NoAnswer.

(** The SDK: building the client gives the names of the functions found
    on [client.items], or throws; then the three data calls. *)
Record Sdk : Type := mkSdk {
  createClient : outcome (list string);
  query : string -> outcome DataItems;
  find : string -> outcome DataItems;
  list_ : string -> outcome DataItems         (* list *)
}.

(** The adapter object and the data calls made so far. *)
Record World : Type := mkWorld {
  initialized : bool;
  availableMethods : list string;
  called : list Call
}.

Definition Stateful (A : Type) : Type := World -> A * World.

Variable SDK_VERSION : string.
Variable sdk : Sdk.

(** [availableMethods.includes(name)]. *)
Definition has (methods : list string) (name : string) : bool :=
  existsb (String.eqb name) methods.

(** Lines 47-72. *)
Definition initialize : Stateful (outcome unit) :=
  fun w =>
    if initialized w then (Returned tt, w)
    else match createClient sdk with
         | Returned methods => (Returned tt, mkWorld true methods (called w))
         | Thrown message => (Thrown message, w)
         end.

(** Lines 77-102. *)
Definition queryCollection (collectionId : string)
    : Stateful (outcome DataItems) :=
  fun w0 =>
    let (started, w) := initialize w0 in
    match started with
    | Thrown message => (Thrown message, w)
    | Returned _ =>
        let log c :=
          mkWorld (initialized w) (availableMethods w) (called w ++ [c]) in
        if has (availableMethods w) "query" then
          (query sdk collectionId, log (CallQuery collectionId))
        else if has (availableMethods w) "find" then
          (find sdk collectionId, log (CallFind collectionId))
        else if has (availableMethods w) "list" then
          (list_ sdk collectionId, log (CallList collectionId))
        else
          (Thrown ("No compatible query method found in SDK v"
                   ++ SDK_VERSION)%string, w)
    end.

(** Lines 155-170: where the items are looked for.  An array is truthy
    also when it is empty. *)
Definition itemsOf (dataItems : DataItems) : outcome (list Item) :=
  match dataItems with
  | ObjectAnswer (Some items) _ _ => Returned items
  | ObjectAnswer None (Some results) _ => Returned results
  | ObjectAnswer None None (Some data) => Returned data
  | ObjectAnswer None None None => Returned []
  | ArrayAnswer elements => Returned elements
  | NoAnswer => Thrown "Cannot read properties of undefined (reading 'items')"
  end.

Inductive TestResult : Type :=
| Tested (total : nat) (items : list Item) (rawData : DataItems)
    (methods : list string) (message : string)
| TestFailed (error : string) (methods : list string).

Definition quote : string := String (ascii_of_nat 34) EmptyString.

(** Lines 142-197.  [None] is a call without the argument. *)
Definition testAdapter (collection : option string) : Stateful TestResult :=
  fun w0 =>
    let collectionId :=
      match collection with
      | Some c => c
      | None => "BannedNames"
      end in
    let (started, w1) := initialize w0 in
    match started with
    | Thrown message => (TestFailed message (availableMethods w1), w1)
    | Returned _ =>
        let (answer, w2) := queryCollection collectionId w1 in
        match answer with
        | Thrown message => (TestFailed message (availableMethods w2), w2)
        | Returned dataItems =>
            match itemsOf dataItems with
            | Thrown message => (TestFailed message (availableMethods w2), w2)
            | Returned items =>
                let total := List.length items in
                (Tested total items dataItems (availableMethods w2)
                   ("Successfully retrieved " ++ WixServiceSdk.showNat total
                    ++ " items from collection " ++ quote ++ collectionId
                    ++ quote ++ " using SDK Adapter")%string,
                 w2)
            end
        end
    end.

End Adapter.

End WixSdkAdapterData.


(* ================================================================== *)
(** ** WixSdkAdapter.js, the CRM version: [getMemberPricingPlans] and
       [queryAllContactsStatic] (unnamed/part_001, lines 530-598 and
       679-714) *)

Module WixSdkAdapterCrmMore.
Import Js WixSdkAdapterCrm.

Record PlansAnswer : Type := mkPlansAnswer {
  success : bool;
  error : string;
  source : string
}.

(** Lines 530-560, the method. *)
Definition adapterGetMemberPricingPlans (sdk : Sdk) (memberId : option string)
    : Stateful PlansAnswer :=
  fun w0 =>
    let (started, w) := initialize sdk w0 in
    let attempt : outcome PlansAnswer :=
      _ <- started ;;
      if negb (truthy memberId) then Thrown "Member ID is required"
      else
        Returned
          {| success := false;
             error := "The pricing plans functionality is not available in the current SDK configuration";
             source := "wix-sdk" |} in
    match attempt with
    | Returned answer => (answer, w)
    | Thrown message =>
        ({| success := false;
            error := ("Error getting pricing plans: " ++ message)%string;
            source := "wix-sdk" |}, w)
    end.

(** Lines 587-598, the export: the method does not throw. *)
Definition getMemberPricingPlans (sdk : Sdk) (memberId : option string)
    : Stateful PlansAnswer :=
  adapterGetMemberPricingPlans sdk memberId.

Inductive AllContacts : Type :=
| Listed (items : list (option Contact)) (total : nat) (source : string)
| NotListed (error : string).

(** Lines 679-714: a new adapter object each time, so the client is built
    each time; the result and the queries this adapter sent. *)
Definition queryAllContactsStatic (sdk : Sdk)
    : AllContacts * list ContactsQuery :=
  let (started, w) := initialize sdk (mkWorld false []) in
  match started with
  | Thrown message => (NotListed message, sent w)
  | Returned _ =>
      let (response, w') := runFind sdk (mkQuery None 50) w in
      match response with
      | Thrown message => (NotListed message, sent w')
      | Returned items =>
          let results := someItems items in
          (Listed results (List.length results) "wix-crm-contacts", sent w')
      end
  end.

End WixSdkAdapterCrmMore.


(* ================================================================== *)
(** ** Concrete inputs for the definitions above *)

Module FurtherSamples.
Import Js.

(** A database that knows the later row of the samples, and one that
    cannot be reached. *)
Definition fingerprints : ScanIDFingerprint.Sql :=
  ScanIDFingerprint.mkSql (Returned tt)
    (fun userName =>
       match userName with
       | Some "LATER ROW" => Returned [Some "9f86d081884c7d65"]
       | _ => Returned []
       end).

Definition unreachable : ScanIDFingerprint.Sql :=
  ScanIDFingerprint.mkSql (Thrown "Failed to connect") (fun _ => Returned []).

(** A subscriptions service with two subscriptions for every member. *)
Definition twoPlans (query : WixServicePlans.PlansQuery)
    : outcome (WixServicePlans.PlansData string nat) :=
  Returned (WixServicePlans.mkPlansData (Some ["Monthly"; "Day pass"])
              (Some 2)).

(** A data client that has [find] and [list] but no [query]. *)
Definition findListClient : WixSdkAdapterData.Sdk string :=
  WixSdkAdapterData.mkSdk (Returned ["get"; "list"; "find"])
    (fun _ => Thrown "query is not a function")
    (fun _ => Returned (WixSdkAdapterData.ObjectAnswer None
                          (Some ["Mallory"; "Trudy"]) (Some ["unused"])))
    (fun _ => Returned (WixSdkAdapterData.ArrayAnswer ["Mallory"])).

Definition newDataAdapter : WixSdkAdapterData.World :=
  WixSdkAdapterData.mkWorld false [] [].

(** A REST endpoint that answers every query with one entry. *)
Definition oneEntry (endpoint : WixDirectApiQueries.Endpoint)
    (query : WixDirectApiQueries.Query)
    : outcome (WixDirectApiQueries.Data string) :=
  Returned (WixDirectApiQueries.mkData (Some ["entry"]) (Some 1)).



End FurtherSamples.


(* ================================================================== *)
(** * Properties *)

Unset Implicit Arguments.

(** ** The scan reader *)

Section ScanReader.
Import Js ScanIDService.

Variable parseDate : string -> option Z.

(** The guarded comparator always returns. *)
Lemma compareCreated_returns (a b : Row) :
  exists v, compareCreated parseDate a b = Returned v.
Proof.
  unfold compareCreated.
  destruct (negb (nonEmpty (dateStrOf a)) || negb (nonEmpty (dateStrOf b)));
    eexists; reflexivity.
Qed.

(** On two rows that carry a date it is the difference of the time
    values, the later row first. *)
Lemma compareCreated_dated (a b : Row) (ta tb : Z) :
  timeOf parseDate a = Some ta ->
  timeOf parseDate b = Some tb ->
  compareCreated parseDate a b = Returned (Num (tb - ta)).
Proof.
  unfold timeOf, compareCreated. intros Ha Hb.
  destruct (nonEmpty (dateStrOf a)); [| discriminate].
  destruct (nonEmpty (dateStrOf b)); [| discriminate].
  simpl. rewrite Ha, Hb. reflexivity.
Qed.


End ScanReader.

Section Sorting.
Import Js ScanIDService.

Variable A : Type.
Variable comparefn : A -> A -> outcome number.
Hypothesis comparefn_returns : forall a b, exists v, comparefn a b = Returned v.

(** With a comparator that returns, [insert] and [sort] return, and what
    they return is a rearrangement of what they got. *)
Lemma insert_returns (x : A) (sorted : list A) :
  exists l, insert comparefn x sorted = Returned l /\ Permutation (x :: sorted) l.
Proof.
  induction sorted as [| y rest IH]; simpl.
  - exists [x]. split; [reflexivity | apply Permutation_refl].
  - destruct (comparefn_returns x y) as [v ->]. simpl.
    destruct (sortCompare v <=? 0)%Z.
    + eexists. split; [reflexivity | apply Permutation_refl].
    + destruct IH as [l [-> Hperm]]. simpl.
      eexists. split; [reflexivity |].
      eapply perm_trans; [apply perm_swap |].
      apply perm_skip. exact Hperm.
Qed.

Lemma sort_returns (l : list A) :
  exists l', sort comparefn l = Returned l' /\ Permutation l l'.
Proof.
  induction l as [| x l IH]; simpl.
  - exists []. split; [reflexivity | apply perm_nil].
  - destruct IH as [s [-> Hperm]]. simpl.
    destruct (insert_returns x s) as [l' [-> Hperm']].
    exists l'. split; [reflexivity |].
    eapply perm_trans; [apply perm_skip; exact Hperm | exact Hperm'].
Qed.

End Sorting.

Section SortingTwice.
Import Js ScanIDService.

Variable A : Type.
Variables comparefn comparefn' : A -> A -> outcome number.
Hypothesis comparefn_returns : forall a b, exists v, comparefn a b = Returned v.

(** Two comparators that agree on the elements at hand sort alike. *)
Lemma insert_ext (x : A) (sorted : list A) :
  (forall y, In y sorted -> comparefn' x y = comparefn x y) ->
  insert comparefn' x sorted = insert comparefn x sorted.
Proof.
  induction sorted as [| y rest IH]; intro Hagree; simpl; [reflexivity |].
  rewrite (Hagree y (or_introl eq_refl)).
  destruct (comparefn x y) as [v | message]; simpl; [| reflexivity].
  destruct (sortCompare v <=? 0)%Z; [reflexivity |].
  rewrite IH; [reflexivity |].
  intros z Hz. apply Hagree. right. exact Hz.
Qed.

Lemma sort_ext (l : list A) :
  (forall a b, In a l -> In b l -> comparefn' a b = comparefn a b) ->
  sort comparefn' l = sort comparefn l.
Proof.
  induction l as [| x l IH]; intro Hagree; simpl; [reflexivity |].
  rewrite IH by (intros a b Ha Hb; apply Hagree; right; assumption).
  destruct (sort_returns A comparefn comparefn_returns l)
    as [sorted [-> Hperm]]. simpl.
  apply insert_ext. intros y Hy. apply Hagree; [left; reflexivity |].
  right. eapply Permutation_in; [apply Permutation_sym; exact Hperm | exact Hy].
Qed.

End SortingTwice.

Section PlainComparator.
Import Js ScanIDService.

Variable parseDate : string -> option Z.

(** On rows that carry a date the comparator without the guards returns
    what the guarded one returns. *)
Lemma compareCreatedPlain_dated (a b : Row) :
  timeOf parseDate a <> None -> timeOf parseDate b <> None ->
  compareCreatedPlain parseDate a b = compareCreated parseDate a b.
Proof.
  unfold timeOf, compareCreatedPlain, compareCreated, splitCreated, dateStrOf.
  intros Ha Hb.
  destruct (CREATED a) as [[| ca sa] |]; try (exfalso; apply Ha; reflexivity).
  destruct (CREATED b) as [[| cb sb] |]; try (exfalso; apply Hb; reflexivity).
  simpl bind.
  destruct (nonEmpty (firstField (String ca sa)));
    [| exfalso; apply Ha; reflexivity].
  destruct (nonEmpty (firstField (String cb sb)));
    [| exfalso; apply Hb; reflexivity].
  reflexivity.
Qed.

End PlainComparator.

Section ScanClaims.
Import Js ScanIDService.

(** The row [getLatestScan] answers with is the head of the sorted array. *)
Lemma getLatestScan_head (parseDate : string -> option Z) (records sorted : list Row)
    (latest : Row) :
  records <> [] ->
  sort (compareCreated parseDate) records = Returned (latest :: sorted) ->
  getLatestScan parseDate (Parsed records) = Scan (toScan latest).
Proof.
  intros Hne Hsort. unfold getLatestScan, latestOf.
  destruct records as [| r records]; [contradiction |].
  simpl List.length. simpl Nat.eqb. cbv iota.
  rewrite Hsort. reflexivity.
Qed.



Lemma sort_dated_head (parseDate : string -> option Z) (records : list Row) :
  records <> [] ->
  (forall r, In r records -> timeOf parseDate r <> None) ->
  exists latest sorted,
    sort (compareCreated parseDate) records = Returned (latest :: sorted) /\
    firstLatest parseDate records latest.
Proof.
  induction records as [| x records IH]; [contradiction |].
  intros _ Hdated.
  assert (Hx : exists tx, timeOf parseDate x = Some tx).
  { destruct (timeOf parseDate x) as [tx |] eqn:E; [eauto |].
    exfalso. apply (Hdated x); [left; reflexivity | exact E]. }
  destruct Hx as [tx Hx].
  destruct records as [| y records].
  - exists x, []. split; [reflexivity |].
    exists [], [], tx. repeat split; try assumption; intros r [].
  - destruct IH as [m [sorted [Hsort Hfirst]]]; [discriminate | |].
    { intros r Hr. apply Hdated. right; exact Hr. }
    destruct Hfirst as [before [after [tm [Hsplit [Hm [Hbefore Hafter]]]]]].
    change (sort (compareCreated parseDate) (x :: y :: records))
      with (sorted' <- sort (compareCreated parseDate) (y :: records) ;;
            insert (compareCreated parseDate) x sorted').
    rewrite Hsort. simpl.
    rewrite (compareCreated_dated parseDate x m tx tm Hx Hm). simpl.
    destruct (tm - tx <=? 0)%Z eqn:Hcmp.
    + apply Z.leb_le in Hcmp.
      exists x, (m :: sorted). split; [reflexivity |].
      exists [], (y :: records), tx. repeat split; try assumption.
      * intros r [].
      * intros r Hr. rewrite Hsplit in Hr. apply in_app_or in Hr.
        destruct Hr as [Hr | [<- | Hr]].
        -- destruct (Hbefore r Hr) as [t' [Ht' Hlt]]. exists t'. split; [assumption | lia].
        -- exists tm. split; [assumption | lia].
        -- destruct (Hafter r Hr) as [t' [Ht' Hle]]. exists t'. split; [assumption | lia].
    + apply Z.leb_gt in Hcmp.
      destruct (insert_returns _ _ (compareCreated_returns parseDate) x sorted)
        as [rest [-> _]]. simpl.
      exists m, rest. split; [reflexivity |].
      exists (x :: before), after, tm. repeat split; try assumption.
      * rewrite Hsplit. reflexivity.
      * intros r [<- | Hr].
        -- exists tx. split; [assumption | lia].
        -- apply Hbefore; assumption.
Qed.

(** C3, as the code has it: when every row carries a CREATED text whose
    date part the engine can parse, [getLatestScan] answers with the row of
    the greatest time value, and among several such rows with the one that
    comes first in the file; the draft without the guards answers with the
    same row. *)
Theorem getLatestScan_latest_of_dated_rows :
  forall (parseDate : string -> option Z) (records : list Row),
    records <> [] ->
    (forall r, In r records -> timeOf parseDate r <> None) ->
    exists latest,
      getLatestScan parseDate (Parsed records) = Scan (toScan latest) /\
      getLatestScanPlain parseDate (Parsed records) = Scan (toScan latest) /\
      firstLatest parseDate records latest.
Proof.
  intros parseDate records Hne Hdated.
  destruct (sort_dated_head parseDate records Hne Hdated)
    as [latest [sorted [Hsort Hfirst]]].
  exists latest. split; [| split; [| exact Hfirst]].
  - eapply getLatestScan_head; eassumption.
  - unfold getLatestScanPlain, latestOf.
    destruct records as [| r records]; [contradiction |].
    simpl List.length. simpl Nat.eqb. cbv iota.
    rewrite (sort_ext Row (compareCreated parseDate)
               (compareCreatedPlain parseDate)
               (compareCreated_returns parseDate) (r :: records)).
    + rewrite Hsort. reflexivity.
    + intros a b Ha Hb. apply compareCreatedPlain_dated; apply Hdated;
        assumption.
Qed.

End ScanClaims.

Section ScanRuns.
Import Js ScanIDService Samples.

Lemma getLatestScan_latest_of_dated_rows_witness :
  exists latest,
    getLatestScan mdyDate (Parsed [rowJan1; rowJan2; rowJan2Again])
    = Scan (toScan latest) /\
    getLatestScanPlain mdyDate (Parsed [rowJan1; rowJan2; rowJan2Again])
    = Scan (toScan latest) /\
    firstLatest mdyDate [rowJan1; rowJan2; rowJan2Again] latest.
Proof.
  refine (@getLatestScan_latest_of_dated_rows mdyDate
            [rowJan1; rowJan2; rowJan2Again] _ _).
  - discriminate.
  - intros r [<- | [<- | [<- | []]]]; vm_compute; discriminate.
Defined.

(** Two rows of the same day: the earlier one in the file is returned, the
    time of day plays no part. *)
Example getLatestScan_same_day :
  getLatestScan mdyDate (Parsed [rowJan1; rowJan2; rowJan2Again])
  = Scan (toScan rowJan2).
Proof. vm_compute. reflexivity. Qed.

(** C3 as stated fails: a row without a date between two dated rows
    compares as equal to both, the array stays as it is, and the first row
    is returned although the third is a day younger. *)
Lemma getLatestScan_undated_row_counterexample :
  getLatestScan mdyDate (Parsed [rowJan1; rowUndated; rowJan2])
  = Scan (toScan rowJan1)
  /\ getLatestScanPlain mdyDate (Parsed [rowJan1; rowUndated; rowJan2])
     = Scan (toScan rowJan1)
  /\ In rowJan2 [rowJan1; rowUndated; rowJan2]
  /\ ~ (forall t t',
          timeOf mdyDate rowJan1 = Some t ->
          timeOf mdyDate rowJan2 = Some t' -> (t' <= t)%Z).
Proof.
  split; [vm_compute; reflexivity |].
  split; [vm_compute; reflexivity |].
  split; [right; right; left; reflexivity |].
  intro Hmax.
  specialize (Hmax _ _ eq_refl eq_refl).
  vm_compute in Hmax. apply Hmax. reflexivity.
Qed.

End ScanRuns.

(** ** Strings *)

Section Strings.
Import Js.

Lemma trimStart_allSpaces (s : string) :
  allSpaces s = true -> trimStart s = "".
Proof.
  induction s as [| c s IH]; simpl; [reflexivity |].
  destruct (isSpace c); simpl; [exact IH | discriminate].
Qed.

Lemma trimStart_not_allSpaces (s : string) :
  allSpaces s = false ->
  exists c s', trimStart s = String c s' /\ isSpace c = false.
Proof.
  induction s as [| c s IH]; simpl; [discriminate |].
  destruct (isSpace c) eqn:E; simpl.
  - exact IH.
  - intros _. exists c, s. split; [reflexivity | exact E].
Qed.

Lemma trimEnd_keeps_head (c : ascii) (s : string) :
  isSpace c = false -> nonEmpty (trimEnd (String c s)) = true.
Proof.
  intro Hc. simpl. destruct (trimEnd s); [rewrite Hc |]; reflexivity.
Qed.

(** [s.trim()] is empty exactly when [s] holds nothing but white space. *)
Lemma trim_nonEmpty (s : string) : nonEmpty (trim s) = negb (allSpaces s).
Proof.
  unfold trim. destruct (allSpaces s) eqn:E; simpl.
  - rewrite (trimStart_allSpaces s E). reflexivity.
  - destruct (trimStart_not_allSpaces s E) as [c [s' [-> Hc]]].
    apply trimEnd_keeps_head. exact Hc.
Qed.

(** The emptiness tests of the matchers hold of an absent value and of a
    text made of white space only (the empty text among them). *)
Lemma blank_allSpaces (x : option string) :
  (forall s, x = Some s -> allSpaces s = true) -> WixService.blank x = true.
Proof.
  intro H. unfold WixService.blank. destruct x as [[| c s] |]; try reflexivity.
  rewrite trim_nonEmpty, (H _ eq_refl). reflexivity.
Qed.

Lemma given_allSpaces (x : option string) :
  (forall s, x = Some s -> allSpaces s = true) ->
  WixSdkAdapterCrm.given x = false.
Proof.
  intro H. unfold WixSdkAdapterCrm.given.
  destruct x as [[| c s] |]; try reflexivity.
  rewrite trim_nonEmpty, (H _ eq_refl). reflexivity.
Qed.

End Strings.

(** ** The REST matcher: validation *)

Section Validation.
Import Js WixService.

Lemma paramOf_blank (x : option string) :
  blank x = true -> WixSdkAdapterMembers.paramOf x = None.
Proof.
  unfold blank, WixSdkAdapterMembers.paramOf.
  destruct x as [[| c s] |]; try reflexivity.
  destruct (nonEmpty (trim (String c s))); [discriminate | reflexivity].
Qed.

(** C9, as the code has it: when each of the three criteria is absent,
    empty or made of ASCII white space only (TAB, LF, VT, FF, CR, SPACE),
    [findMember] fails without a remote call (the log is as it was); the
    error names the missing criteria when the API key is configured, and
    the missing key otherwise, because the key is tested first.  The
    members adapter's [searchMember], once initialised with its members
    module, fails with the same missing-criteria error and makes no call
    either. *)
Theorem findMember_without_criteria :
  forall (WIX_API_KEY firstName lastName dateOfBirth : option string)
         (remote : Remote) (log : list Call),
    (forall s, firstName = Some s -> allSpaces s = true) ->
    (forall s, lastName = Some s -> allSpaces s = true) ->
    (forall s, dateOfBirth = Some s -> allSpaces s = true) ->
    findMember WIX_API_KEY remote (mkArgs firstName lastName dateOfBirth) log
    = (Failure (if truthy WIX_API_KEY then noCriteria else noKey), log)
    /\
    forall createClient w module,
      WixSdkAdapterMembers.initialized w = true ->
      WixSdkAdapterMembers.membersModule w = Some module ->
      WixSdkAdapterMembers.searchMember createClient
        (WixSdkAdapterMembers.mkArgs firstName lastName dateOfBirth) w
      = (WixSdkAdapterMembers.Failure WixSdkAdapterMembers.missingCriteria None,
         w)
      /\ WixSdkAdapterMembers.made
           (snd (WixSdkAdapterMembers.searchMember createClient
                   (WixSdkAdapterMembers.mkArgs firstName lastName
                      dateOfBirth) w))
         = WixSdkAdapterMembers.made w.
Proof.
  intros key firstName lastName dateOfBirth remote log Hfirst Hlast Hdob.
  pose proof (blank_allSpaces _ Hfirst) as Hf.
  pose proof (blank_allSpaces _ Hlast) as Hl.
  pose proof (blank_allSpaces _ Hdob) as Hd.
  split.
  - unfold findMember, hasCriteria. simpl.
    rewrite Hf, Hl, Hd. simpl.
    destruct (truthy key); reflexivity.
  - intros createClient w module Hinit Hmodule.
    assert (Hsearch :
      WixSdkAdapterMembers.searchMember createClient
        (WixSdkAdapterMembers.mkArgs firstName lastName dateOfBirth) w
      = (WixSdkAdapterMembers.Failure WixSdkAdapterMembers.missingCriteria None,
         w)).
    { unfold WixSdkAdapterMembers.searchMember,
        WixSdkAdapterMembers.adapterSearchMember,
        WixSdkAdapterMembers.initialize.
      rewrite Hinit, Hmodule.
      unfold WixSdkAdapterMembers.searchParamsOf. simpl.
      rewrite (paramOf_blank _ Hf), (paramOf_blank _ Hl), (paramOf_blank _ Hd).
      reflexivity. }
    rewrite Hsearch. split; reflexivity.
Qed.

Lemma findMember_without_criteria_witness :
  findMember Samples.apiKey Samples.silentRemote
    (mkArgs (Some "   ") None (Some "")) []
  = (Failure noCriteria, []).
Proof.
  refine (proj1 (findMember_without_criteria Samples.apiKey (Some "   ") None
                   (Some "") Samples.silentRemote [] _ _ _)).
  - intros s H. injection H as <-. reflexivity.
  - discriminate.
  - intros s H. injection H as <-. reflexivity.
Defined.

(** C9 as stated fails: without an API key the same call is refused for
    the missing key, not for the missing criteria. *)
Lemma findMember_without_key_counterexample :
  run (findMember None Samples.silentRemote Samples.blankArgs)
  = (Failure noKey, [])
  /\ noKey <> noCriteria.
Proof.
  split; [reflexivity | discriminate].
Qed.

End Validation.

(** ** The REST matchers: the order of the sources *)

Section Sources.
Import Js WixService.

Lemma yield_someItems {A} (answer : outcome (option (list A))) :
  yield answer <> [] ->
  exists x l, answer = Returned (Some (x :: l)) /\ yield answer = x :: l.
Proof.
  destruct answer as [[[| x l] |] | msg]; simpl; try contradiction.
  intros _. exists x, l. split; reflexivity.
Qed.

Lemma yield_nothing {A} (answer : outcome (option (list A))) :
  yield answer = [] ->
  match answer with
  | Returned data => someItems data = None
  | Thrown _ => True
  end.
Proof.
  destruct answer as [[[| x l] |] | msg]; simpl; try reflexivity; try exact id.
  discriminate.
Qed.

Lemma sources_of_members (members : list Member) :
  Forall (fun c => source c = "members") (map fromMember members).
Proof.
  apply Forall_forall. intros c Hc. apply in_map_iff in Hc.
  destruct Hc as [m [<- _]]. reflexivity.
Qed.

Lemma sources_of_contacts (contacts : list Contact) :
  Forall (fun c => source c = "contacts") (map fromContact contacts).
Proof.
  apply Forall_forall. intros c Hc. apply in_map_iff in Hc.
  destruct Hc as [m [<- _]]. reflexivity.
Qed.

(** The members directory has candidates: they are the result, and the
    only call is the one to the members directory. *)
Lemma findMember_members (key : option string) (remote : Remote) (args : Args) :
  truthy key = true -> hasCriteria args = true ->
  yield (membersQuery remote (membersData args)) <> [] ->
  run (findMember key remote args)
  = (Success (map fromMember
                (map ensureId (yield (membersQuery remote (membersData args))))),
     [(MembersQuery, membersData args)]).
Proof.
  intros Hkey Hcrit Hsome.
  destruct (yield_someItems _ Hsome) as [m [ms [Hanswer Hyield]]].
  unfold run, findMember, andThen, post, ret.
  rewrite Hkey, Hcrit, Hyield, Hanswer. reflexivity.
Qed.

(** The members directory has none, the contacts directory has some. *)
Lemma findMember_contacts (key : option string) (remote : Remote) (args : Args) :
  truthy key = true -> hasCriteria args = true ->
  yield (membersQuery remote (membersData args)) = [] ->
  yield (contactsQuery remote (contactsData args)) <> [] ->
  run (findMember key remote args)
  = (Success (map fromContact
                (yield (contactsQuery remote (contactsData args)))),
     [(MembersQuery, membersData args); (ContactsQuery, contactsData args)]).
Proof.
  intros Hkey Hcrit Hnone Hsome.
  destruct (yield_someItems _ Hsome) as [c [cs [Hanswer Hyield]]].
  apply yield_nothing in Hnone.
  unfold run, findMember, andThen, post, ret.
  rewrite Hkey, Hcrit, Hyield, Hanswer. simpl.
  destruct (membersQuery remote (membersData args)) as [data | msg].
  - rewrite Hnone. reflexivity.
  - reflexivity.
Qed.

(** No source has a candidate. *)
Lemma findMember_nothing (key : option string) (remote : Remote) (args : Args) :
  truthy key = true -> hasCriteria args = true ->
  yield (membersQuery remote (membersData args)) = [] ->
  yield (contactsQuery remote (contactsData args)) = [] ->
  yield (contactsSearch remote (simpleParams args)) = [] ->
  fst (run (findMember key remote args)) = Failure noMembers.
Proof.
  intros Hkey Hcrit Hm Hc Hs.
  apply yield_nothing in Hm. apply yield_nothing in Hc.
  apply yield_nothing in Hs.
  unfold run, findMember, andThen, post, ret.
  rewrite Hkey, Hcrit. simpl.
  destruct (membersQuery remote (membersData args)) as [data | msg];
    [rewrite Hm |];
    (destruct (contactsQuery remote (contactsData args)) as [data' | msg'];
     [rewrite Hc; reflexivity |]);
    (destruct (contactsSearch remote (simpleParams args)) as [data'' | msg''];
     [rewrite Hs |]; reflexivity).
Qed.

(** With a key and a criterion, the only failure is "no members found". *)
Lemma findMember_only_failure (key : option string) (remote : Remote)
    (args : Args) (e : string) :
  truthy key = true -> hasCriteria args = true ->
  fst (run (findMember key remote args)) = Failure e -> e = noMembers.
Proof.
  intros Hkey Hcrit.
  unfold run, findMember, andThen, post, ret.
  rewrite Hkey, Hcrit. simpl.
  destruct (membersQuery remote (membersData args)) as [[[| m ms] |] | msg];
    simpl; try discriminate;
    (destruct (contactsQuery remote (contactsData args))
       as [[[| c cs] |] | msg']; simpl; try discriminate;
     try (intro H; injection H as <-; reflexivity));
    (destruct (contactsSearch remote (simpleParams args))
       as [[[| c' cs'] |] | msg'']; simpl; try discriminate;
     intro H; injection H as <-; reflexivity).
Qed.

End Sources.

Section DirectSources.
Import Js WixService.

Lemma filters_length (name dob : option string) :
  WixDirectApi.filters name dob <> [] ->
  (List.length (WixDirectApi.filters name dob) =? 0)%nat = false.
Proof.
  destruct (WixDirectApi.filters name dob); [contradiction | reflexivity].
Qed.

Lemma searchMember_members (remote : Remote) (name dob : option string) :
  WixDirectApi.filters name dob <> [] ->
  yield (membersQuery remote (WixDirectApi.data name dob)) <> [] ->
  run (WixDirectApi.searchMemberByNameOrDOB true remote name dob)
  = (WixDirectApi.Found "members"
       (map WixDirectApi.MemberItem
          (map WixDirectApi.ensureId
             (yield (membersQuery remote (WixDirectApi.data name dob))))),
     [(MembersQuery, WixDirectApi.data name dob)]).
Proof.
  intros Hfilters Hsome.
  destruct (yield_someItems _ Hsome) as [m [ms [Hanswer Hyield]]].
  unfold run, WixDirectApi.searchMemberByNameOrDOB, andThen, post, ret.
  rewrite (filters_length _ _ Hfilters), Hyield, Hanswer. reflexivity.
Qed.

Lemma searchMember_contacts (remote : Remote) (name dob : option string) :
  WixDirectApi.filters name dob <> [] ->
  yield (membersQuery remote (WixDirectApi.data name dob)) = [] ->
  run (WixDirectApi.searchMemberByNameOrDOB true remote name dob)
  = (WixDirectApi.Found "contacts"
       (map WixDirectApi.ContactItem
          (yield (contactsQuery remote (WixDirectApi.contactsData name dob)))),
     [(MembersQuery, WixDirectApi.data name dob);
      (ContactsQuery, WixDirectApi.contactsData name dob)]).
Proof.
  intros Hfilters Hnone. apply yield_nothing in Hnone.
  unfold run, WixDirectApi.searchMemberByNameOrDOB, andThen, post, ret.
  rewrite (filters_length _ _ Hfilters). simpl.
  destruct (membersQuery remote (WixDirectApi.data name dob)) as [data | msg];
    [rewrite Hnone |];
    (destruct (contactsQuery remote (WixDirectApi.contactsData name dob))
       as [[contacts |] | msg']; reflexivity).
Qed.

(** Once initialised, the direct search never answers with a failure. *)
Lemma searchMember_never_fails (remote : Remote) (name dob : option string) :
  exists source results,
    fst (run (WixDirectApi.searchMemberByNameOrDOB true remote name dob))
    = WixDirectApi.Found source results.
Proof.
  unfold run, WixDirectApi.searchMemberByNameOrDOB, andThen, post, ret.
  simpl.
  destruct (List.length (WixDirectApi.filters name dob) =? 0)%nat;
    [do 2 eexists; reflexivity |].
  destruct (membersQuery remote (WixDirectApi.data name dob))
    as [[[| m ms] |] | msg]; simpl; do 2 eexists; reflexivity.
Qed.

(** C1, as the code has it.  With the API key set and a criterion given:
    when the members directory yields a candidate, [findMember] makes that
    one call and answers with those candidates, all tagged "members"; when
    it yields none and the contacts directory yields a candidate, the
    answer holds the contacts' candidates only, all tagged "contacts",
    after one call to each.  [searchMemberByNameOrDOB] (initialised, with a
    filter to send) does the same, and answers from the contacts directory,
    tagged "contacts", whenever the members directory yields none. *)
Theorem findMember_first_source_wins :
  forall (key : option string) (remote : Remote) (args : Args),
    truthy key = true ->
    hasCriteria args = true ->
    let members := yield (membersQuery remote (membersData args)) in
    let contacts := yield (contactsQuery remote (contactsData args)) in
    (members <> [] ->
     run (findMember key remote args)
     = (Success (map fromMember (map ensureId members)),
        [(MembersQuery, membersData args)])
     /\ Forall (fun c => source c = "members")
               (map fromMember (map ensureId members)))
    /\
    (members = [] -> contacts <> [] ->
     run (findMember key remote args)
     = (Success (map fromContact contacts),
        [(MembersQuery, membersData args); (ContactsQuery, contactsData args)])
     /\ Forall (fun c => source c = "contacts") (map fromContact contacts))
    /\
    (forall name dob : option string,
       WixDirectApi.filters name dob <> [] ->
       let found := yield (membersQuery remote (WixDirectApi.data name dob)) in
       (found <> [] ->
        run (WixDirectApi.searchMemberByNameOrDOB true remote name dob)
        = (WixDirectApi.Found "members"
             (map WixDirectApi.MemberItem (map WixDirectApi.ensureId found)),
           [(MembersQuery, WixDirectApi.data name dob)]))
       /\
       (found = [] ->
        run (WixDirectApi.searchMemberByNameOrDOB true remote name dob)
        = (WixDirectApi.Found "contacts"
             (map WixDirectApi.ContactItem
                (yield (contactsQuery remote
                          (WixDirectApi.contactsData name dob)))),
           [(MembersQuery, WixDirectApi.data name dob);
            (ContactsQuery, WixDirectApi.contactsData name dob)]))).
Proof.
  intros key remote args Hkey Hcrit members contacts.
  split; [| split].
  - intro Hsome. split.
    + apply findMember_members; assumption.
    + apply sources_of_members.
  - intros Hnone Hsome. split.
    + apply findMember_contacts; assumption.
    + apply sources_of_contacts.
  - intros name dob Hfilters found. split.
    + intro Hsome. apply searchMember_members; assumption.
    + intro Hnone. apply searchMember_contacts; assumption.
Qed.

Lemma findMember_first_source_wins_witness :
  run (findMember Samples.apiKey Samples.bothRemote Samples.janeDoe)
  = (Success (map fromMember (map ensureId [Samples.memberJane])),
     [(MembersQuery, membersData Samples.janeDoe)])
  /\ Forall (fun c => source c = "members")
            (map fromMember (map ensureId [Samples.memberJane])).
Proof.
  refine (proj1 (@findMember_first_source_wins Samples.apiKey
                   Samples.bothRemote Samples.janeDoe _ _) _).
  - reflexivity.
  - reflexivity.
  - discriminate.
Defined.

(** C1 as stated fails: both directories answer with no candidate; after a
    call to each, [findMember] reports a failure, which carries neither
    candidates nor a source tag. *)
Lemma findMember_second_source_empty_counterexample :
  yield (membersQuery Samples.silentRemote (membersData Samples.janeDoe)) = []
  /\ run (findMember Samples.apiKey Samples.silentRemote Samples.janeDoe)
     = (Failure noMembers,
        [(MembersQuery, membersData Samples.janeDoe);
         (ContactsQuery, contactsData Samples.janeDoe)])
  /\ ~ (exists members,
          fst (run (findMember Samples.apiKey Samples.silentRemote
                      Samples.janeDoe))
          = Success members).
Proof.
  split; [reflexivity |]. split; [reflexivity |].
  intros [members H]. discriminate H.
Qed.

(** C2, as the code has it.  With the API key set and a criterion given:
    when every source raises or yields no candidate, [findMember] answers
    with the failure "No members found matching the search criteria", and
    that is the only failure it answers with; a rejected call and an empty
    answer are not told apart.  [searchMemberByNameOrDOB] (initialised)
    answers in both cases with success, the tag "contacts" and an empty
    list, and never with a failure. *)
Theorem findMember_nothing_found :
  forall (key : option string) (remote : Remote) (args : Args),
    truthy key = true ->
    hasCriteria args = true ->
    (yield (membersQuery remote (membersData args)) = [] ->
     yield (contactsQuery remote (contactsData args)) = [] ->
     yield (contactsSearch remote (simpleParams args)) = [] ->
     fst (run (findMember key remote args)) = Failure noMembers)
    /\
    (forall e, fst (run (findMember key remote args)) = Failure e ->
               e = noMembers)
    /\
    (forall name dob : option string,
       (WixDirectApi.filters name dob <> [] ->
        yield (membersQuery remote (WixDirectApi.data name dob)) = [] ->
        yield (contactsQuery remote (WixDirectApi.contactsData name dob)) = [] ->
        fst (run (WixDirectApi.searchMemberByNameOrDOB true remote name dob))
        = WixDirectApi.Found "contacts" [])
       /\
       exists source results,
         fst (run (WixDirectApi.searchMemberByNameOrDOB true remote name dob))
         = WixDirectApi.Found source results).
Proof.
  intros key remote args Hkey Hcrit. split; [| split].
  - intros Hm Hc Hs. apply findMember_nothing; assumption.
  - intros e He. eapply findMember_only_failure; eassumption.
  - intros name dob. split.
    + intros Hfilters Hm Hc.
      rewrite (searchMember_contacts remote name dob Hfilters Hm). simpl.
      rewrite Hc. reflexivity.
    + apply searchMember_never_fails.
Qed.

Lemma findMember_nothing_found_witness :
  fst (run (findMember Samples.apiKey Samples.deadRemote Samples.janeDoe))
  = Failure noMembers.
Proof.
  refine (proj1 (@findMember_nothing_found Samples.apiKey Samples.deadRemote
                   Samples.janeDoe _ _) _ _ _);
    reflexivity.
Defined.

(** C2 as stated fails: with empty answers from every source [findMember]
    answers with success = false; with every call rejected it answers the
    very same way, and [searchMemberByNameOrDOB] then answers with
    success = true. *)
Lemma findMember_no_match_is_failure_counterexample :
  fst (run (findMember Samples.apiKey Samples.silentRemote Samples.janeDoe))
  = Failure noMembers
  /\ fst (run (findMember Samples.apiKey Samples.deadRemote Samples.janeDoe))
     = fst (run (findMember Samples.apiKey Samples.silentRemote
                   Samples.janeDoe))
  /\ fst (run (WixDirectApi.searchMemberByNameOrDOB true Samples.deadRemote
                 (Some "Jane Doe") (Some "01-15-1990")))
     = WixDirectApi.Found "contacts" [].
Proof.
  repeat split; reflexivity.
Qed.

End DirectSources.

(** ** The normalizer *)

Section Normalizer.
Import Js WixService.

(** C6: "JANE MARIE" gives the variants "Jane Marie", "Jane" and "Marie",
    and "01-15-1990" the date "1990-01-15"; for every first name the
    variants hold the whole title-cased name and each of its tokens of more
    than one character, and each variant is sent as a filter on the first
    name. *)
Theorem firstNameVariations_cover :
  (toTitleCase (Some "JANE MARIE") = "Jane Marie"
   /\ In "Jane Marie" (firstNameVariations (toTitleCase (Some "JANE MARIE")))
   /\ In "Jane" (firstNameVariations (toTitleCase (Some "JANE MARIE")))
   /\ In "Marie" (firstNameVariations (toTitleCase (Some "JANE MARIE")))
   /\ formattedDOB (Some "01-15-1990") = "1990-01-15")
  /\
  (forall firstName : option string,
     In (toTitleCase firstName) (firstNameVariations (toTitleCase firstName))
     /\
     forall token,
       In token (split " " (toTitleCase firstName)) ->
       (1 < String.length token)%nat ->
       In token (firstNameVariations (toTitleCase firstName)))
  /\
  (forall (args : Args) (variation : string),
     In variation (firstNameVariations (toTitleCase (arg_firstName args))) ->
     exists rest limit fields,
       membersData args = Query rest limit fields
       /\ In (mkFilter "profile.firstName" "contains" variation) rest).
Proof.
  split; [| split].
  - vm_compute. repeat split; auto.
  - intro firstName. split.
    + left. reflexivity.
    + intros token Hin Hlen. unfold firstNameVariations.
      apply in_or_app. right. apply in_or_app. left.
      apply filter_In. split; [exact Hin |].
      apply Nat.ltb_lt. exact Hlen.
  - intros args variation Hin. unfold membersData, buildFilters.
    do 3 eexists. split; [reflexivity |].
    apply in_or_app. left.
    apply in_map_iff. exists variation. split; [reflexivity | exact Hin].
Qed.

(** C7, on [findMember]: the date text is cut at its dashes and put back
    in the order third, first, second whatever its shape, so a text without
    two dashes comes back with "undefined" in it and a date that is already
    year-first comes back scrambled; the text is not passed through. *)
Theorem formattedDOB_not_passed_through :
  formattedDOB (Some "19900115") = "undefined-19900115-undefined"
  /\ formattedDOB (Some "01/15/1990") = "undefined-01/15/1990-undefined"
  /\ formattedDOB (Some "1990-01-15") = "15-1990-01".
Proof. repeat split. Qed.

Lemma split_without_separator (sep : ascii) (s : string) :
  hasChar sep s = false -> split sep s = [s].
Proof.
  induction s as [| c s IH]; simpl; [reflexivity |].
  destruct (Ascii.eqb c sep); simpl; [discriminate |].
  intro H. rewrite (IH H). reflexivity.
Qed.

(** X1: The same step in [searchMemberByNameOrDOB] does what C7 says: three
    parts with a last part of four characters are reordered, every other
    text passes through. *)
Lemma formattedDob_shape (dob : string) :
  (forall month day year,
     split "-" dob = [month; day; year] -> String.length year = 4 ->
     WixDirectApi.formattedDob dob
     = (year ++ "-" ++ month ++ "-" ++ day)%string)
  /\
  ((forall month day year,
      split "-" dob = [month; day; year] -> String.length year <> 4) ->
   WixDirectApi.formattedDob dob = dob).
Proof.
  unfold WixDirectApi.formattedDob. split.
  - intros month day year Hsplit Hyear.
    destruct (hasChar "-" dob) eqn:Hdash.
    + rewrite Hsplit. simpl. rewrite Hyear. reflexivity.
    + rewrite (split_without_separator _ _ Hdash) in Hsplit. discriminate.
  - intro Hshape.
    destruct (hasChar "-" dob); [| reflexivity].
    destruct (split "-" dob) as [| m [| d [| y [| x rest]]]] eqn:Hsplit;
      try reflexivity.
    simpl. specialize (Hshape m d y eq_refl).
    apply Nat.eqb_neq in Hshape. rewrite Hshape. reflexivity.
Qed.

End Normalizer.

(** ** The SDK matcher: exact matches first *)

Section Promotion.
Import Js WixServiceSdk.

Variable args : Args.
Variables formattedFirstName formattedLastName : string.

Let exact := isExact args formattedFirstName formattedLastName.


Lemma sameText_orEmpty (x : option string) (c : ascii) (s : string) :
  sameText x (String c s) = String.eqb (orEmpty x) (String c s).
Proof. destruct x as [[| c' s'] |]; reflexivity. Qed.


(** The loop from any state: exact matches pile up in front, last one
    first; the others line up at the end in their order. *)
Lemma promote_from (matching : list Member) (results : list Profile)
    (foundExactMatch : bool) :
  fold_left (step args formattedFirstName formattedLastName) matching
            (results, foundExactMatch)
  = (map toProfile (rev (filter exact matching)) ++ results
       ++ map toProfile (filter (fun m => negb (exact m)) matching),
     foundExactMatch || existsb exact matching).
Proof.
  revert results foundExactMatch.
  induction matching as [| m matching IH]; intros results found; simpl.
  - rewrite app_nil_r, orb_false_r. reflexivity.
  - fold (exact m). destruct (exact m) eqn:E; simpl; rewrite IH.
    + rewrite map_app, <- app_assoc, orb_true_r. simpl. reflexivity.
    + rewrite <- app_assoc. simpl. reflexivity.
Qed.

Lemma promote_split (matching : list Member) :
  promote args formattedFirstName formattedLastName matching
  = (map toProfile (rev (filter exact matching))
       ++ map toProfile (filter (fun m => negb (exact m)) matching),
     existsb exact matching).
Proof.
  unfold promote. rewrite promote_from. reflexivity.
Qed.

Lemma filter_map_toProfile (keep : Profile -> bool) (members : list Member) :
  filter keep (map toProfile members)
  = map toProfile (filter (fun m => keep (toProfile m)) members).
Proof.
  induction members as [| m members IH]; simpl; [reflexivity |].
  destruct (keep (toProfile m)); simpl; rewrite IH; reflexivity.
Qed.





End Promotion.

Section SdkMatcher.
Import Js WixServiceSdk.


(** What a successful [findMember] holds. *)
Lemma findMember_success (key : option string) (sdk : Sdk) (args : Args)
    (members : list Profile) (count : nat) (exactMatch : bool)
    (message : string) :
  findMember key sdk args = Success members count exactMatch message ->
  exists items,
    activeMembers sdk = Returned (Some items)
    /\ promote args (WixService.toTitleCase (arg_firstName args))
         (WixService.toTitleCase (arg_lastName args))
         (filter (matches args (WixService.toTitleCase (arg_firstName args))
                    (WixService.toTitleCase (arg_lastName args))
                    (WixService.firstNameVariations
                       (WixService.toTitleCase (arg_firstName args))))
                 items)
       = (members, exactMatch)
    /\ count = List.length members.
Proof.
  unfold findMember.
  destruct (negb (truthy key)); [discriminate |].
  destruct (WixService.blank (arg_firstName args)
            && WixService.blank (arg_lastName args)
            && WixService.blank (arg_dateOfBirth args)); [discriminate |].
  destruct (initialize sdk) as [[] | msg]; simpl; [| discriminate].
  destruct (activeMembers sdk) as [[items |] | msg]; simpl;
    [| discriminate | discriminate].
  destruct (promote _ _ _ _) as [results found] eqn:Hpromote.
  intro H. injection H as <- <- <- _.
  exists items. repeat split. exact Hpromote.
Qed.


(** Three active members match "JANE DOE" born 01-15-1990; the second one
    is the exact match and comes out first. *)
Example findMember_promotes_jane :
  findMember Samples.apiKey Samples.sdkClient Samples.sdkJaneDoe
  = Success
      (map toProfile [Samples.jane; Samples.janet; Samples.janeDoering])
      3 true "Found 3 matching members (with exact match)".
Proof. vm_compute. reflexivity. Qed.



End SdkMatcher.

(** ** The CRM adapter: one entry per identifier *)

Section MapSet.
Import Js WixSdkAdapterCrm.

Variable V : Type.

Lemma mapSet_keys_known (key : string) (v : V) (m : list (string * V)) :
  In key (map fst m) -> map fst (mapSet key v m) = map fst m.
Proof.
  induction m as [| [k old] m IH]; simpl; [contradiction |].
  destruct (String.eqb k key) eqn:E; simpl; [reflexivity |].
  intros [H | H].
  - subst k. rewrite String.eqb_refl in E. discriminate.
  - rewrite (IH H). reflexivity.
Qed.

Lemma mapSet_keys_new (key : string) (v : V) (m : list (string * V)) :
  ~ In key (map fst m) -> map fst (mapSet key v m) = map fst m ++ [key].
Proof.
  induction m as [| [k old] m IH]; simpl; [reflexivity |].
  intro H. destruct (String.eqb k key) eqn:E.
  - apply String.eqb_eq in E. exfalso. apply H. left. exact E.
  - simpl. rewrite IH; [reflexivity |]. intro Hin. apply H. right. exact Hin.
Qed.

Lemma mapSet_keys_NoDup (key : string) (v : V) (m : list (string * V)) :
  NoDup (map fst m) -> NoDup (map fst (mapSet key v m)).
Proof.
  intro Hnodup. destruct (in_dec string_dec key (map fst m)) as [Hin | Hnew].
  - rewrite mapSet_keys_known by exact Hin. exact Hnodup.
  - rewrite mapSet_keys_new by exact Hnew.
    apply NoDup_app; [exact Hnodup | repeat constructor; intros [] |].
    intros x Hx [<- | []]. exact (Hnew Hx).
Qed.

Lemma mapSet_has_key (key : string) (v : V) (m : list (string * V)) :
  In key (map fst (mapSet key v m)).
Proof.
  destruct (in_dec string_dec key (map fst m)) as [Hin | Hnew].
  - rewrite mapSet_keys_known by exact Hin. exact Hin.
  - rewrite mapSet_keys_new by exact Hnew. apply in_or_app. right. left.
    reflexivity.
Qed.

Lemma mapSet_keeps_keys (key k : string) (v : V) (m : list (string * V)) :
  In k (map fst m) -> In k (map fst (mapSet key v m)).
Proof.
  intro Hk. destruct (in_dec string_dec key (map fst m)) as [Hin | Hnew].
  - rewrite mapSet_keys_known by exact Hin. exact Hk.
  - rewrite mapSet_keys_new by exact Hnew. apply in_or_app. left. exact Hk.
Qed.

(** An entry after [set]: the one that was set, or an older entry under
    another key. *)
Lemma mapSet_entries (key k : string) (v x : V) (m : list (string * V)) :
  NoDup (map fst m) ->
  In (k, x) (mapSet key v m) ->
  (k = key /\ x = v) \/ (k <> key /\ In (k, x) m).
Proof.
  induction m as [| [k' old] m IH]; simpl; intros Hnodup Hin.
  - destruct Hin as [H | []]. injection H as <- <-. left. split; reflexivity.
  - inversion Hnodup as [| ? ? Hnotin Hnodup']; subst.
    destruct (String.eqb k' key) eqn:E.
    + apply String.eqb_eq in E. subst k'.
      destruct Hin as [H | H].
      * injection H as <- <-. left. split; reflexivity.
      * right. split; [| right; exact H].
        intros ->. apply Hnotin. apply (in_map fst) in H. exact H.
    + apply String.eqb_neq in E.
      destruct Hin as [H | H].
      * injection H as <- <-. right. split; [exact E | left; reflexivity].
      * destruct (IH Hnodup' H) as [Hset | [Hne Hold]];
          [left; exact Hset | right; split; [exact Hne | right; exact Hold]].
Qed.

Lemma mapSet_length (key : string) (v : V) (m : list (string * V)) :
  List.length (mapSet key v m) <= S (List.length m).
Proof.
  induction m as [| [k old] m IH]; simpl; [lia |].
  destruct (String.eqb k key); simpl; lia.
Qed.

End MapSet.

Section Dedupe.
Import Js WixSdkAdapterCrm.

Lemma uniqueContacts_snoc (results : list (option Contact))
    (contact : option Contact) :
  uniqueContacts (results ++ [contact])
  = remember (uniqueContacts results) contact.
Proof.
  unfold uniqueContacts. rewrite fold_left_app. reflexivity.
Qed.

(** An entry that is skipped carries no usable identifier. *)
Lemma remember_skips (m : list (string * Contact)) (contact : option Contact) :
  (forall c key, contact = Some c -> contact_id_ c = Some key ->
                 nonEmpty key = false) ->
  remember m contact = m.
Proof.
  intro Hskip. destruct contact as [c |]; [| reflexivity]. simpl.
  destruct (contact_id_ c) as [[| a s] |] eqn:E; try reflexivity.
  specialize (Hskip c (String a s) eq_refl E). discriminate.
Qed.

Lemma lastSeen_snoc_other (results : list (option Contact)) (key : string)
    (c : Contact) (contact : option Contact) :
  lastSeen results key c ->
  (forall c', contact = Some c' -> contact_id_ c' <> Some key) ->
  lastSeen (results ++ [contact]) key c.
Proof.
  intros [Hid [Hkey [before [after [Hsplit Hlast]]]]] Hother.
  split; [exact Hid |]. split; [exact Hkey |].
  exists before, (after ++ [contact]). split.
  - rewrite Hsplit, <- app_assoc. reflexivity.
  - intros later Hin. apply in_app_or in Hin.
    destruct Hin as [Hin | [Hin | []]]; [apply Hlast; exact Hin |].
    apply Hother. exact Hin.
Qed.

(** The state of the map after the loop over [results]. *)
Lemma uniqueContacts_invariant (results : list (option Contact)) :
  NoDup (map fst (uniqueContacts results))
  /\ (forall key c, In (key, c) (uniqueContacts results) ->
                    lastSeen results key c)
  /\ (forall c key, In (Some c) results -> contact_id_ c = Some key ->
                    nonEmpty key = true ->
                    In key (map fst (uniqueContacts results))).
Proof.
  induction results as [| contact results IH] using rev_ind.
  - split; [constructor |]. split; [intros key c [] | intros c key []].
  - destruct IH as [Hnodup [Hlast Hall]].
    rewrite uniqueContacts_snoc.
    destruct contact as [c0 |]; simpl.
    + destruct (contact_id_ c0) as [[| a s] |] eqn:Eid.
      * (* an empty identifier: skipped *)
        split; [exact Hnodup |]. split.
        -- intros key c Hin. apply lastSeen_snoc_other; [apply Hlast; exact Hin |].
           intros c' H. injection H as <-. rewrite Eid. intro H.
           injection H as <-. destruct (Hlast _ _ Hin) as [_ [Hkey _]].
           discriminate.
        -- intros c key Hin Hid Hkey. apply in_app_or in Hin.
           destruct Hin as [Hin | [Hin | []]]; [eapply Hall; eassumption |].
           injection Hin as <-. rewrite Eid in Hid. injection Hid as <-.
           discriminate.
      * (* a usable identifier: set *)
        split; [apply mapSet_keys_NoDup; exact Hnodup |]. split.
        -- intros key c Hin.
           destruct (mapSet_entries _ _ _ _ _ _ Hnodup Hin)
             as [[-> ->] | [Hne Hold]].
           ++ split; [exact Eid |]. split; [reflexivity |].
              exists results, []. split; [reflexivity | intros later []].
           ++ apply lastSeen_snoc_other; [apply Hlast; exact Hold |].
              intros c' H. injection H as <-. rewrite Eid. intro H.
              injection H as H. apply Hne. symmetry. exact H.
        -- intros c key Hin Hid Hkey. apply in_app_or in Hin.
           destruct Hin as [Hin | [Hin | []]].
           ++ apply mapSet_keeps_keys. eapply Hall; eassumption.
           ++ injection Hin as <-. rewrite Eid in Hid. injection Hid as <-.
              apply mapSet_has_key.
      * (* no identifier: skipped *)
        split; [exact Hnodup |]. split.
        -- intros key c Hin. apply lastSeen_snoc_other; [apply Hlast; exact Hin |].
           intros c' H. injection H as <-. rewrite Eid. discriminate.
        -- intros c key Hin Hid Hkey. apply in_app_or in Hin.
           destruct Hin as [Hin | [Hin | []]]; [eapply Hall; eassumption |].
           injection Hin as <-. rewrite Eid in Hid. discriminate.
    + (* a null entry: skipped *)
      split; [exact Hnodup |]. split.
      * intros key c Hin. apply lastSeen_snoc_other; [apply Hlast; exact Hin |].
        intros c' H. discriminate.
      * intros c key Hin Hid Hkey. apply in_app_or in Hin.
        destruct Hin as [Hin | [Hin | []]]; [eapply Hall; eassumption |].
        discriminate.
Qed.

Lemma uniqueContacts_length (results : list (option Contact)) :
  List.length (uniqueContacts results) <= List.length results.
Proof.
  induction results as [| contact results IH] using rev_ind; [simpl; lia |].
  rewrite uniqueContacts_snoc, length_app. simpl.
  destruct contact as [c |]; simpl; [| lia].
  destruct (contact_id_ c) as [[| a s] |]; try lia.
  pose proof (mapSet_length _ (String a s) c (uniqueContacts results)). lia.
Qed.

Lemma NoDup_map_Some {A} (l : list A) : NoDup l -> NoDup (map Some l).
Proof.
  induction 1 as [| x l Hnotin _ IH]; simpl; constructor; [| exact IH].
  intro Hin. apply in_map_iff in Hin. destruct Hin as [y [Hy Hin]].
  injection Hy as ->. exact (Hnotin Hin).
Qed.

(** The deduplicated array: no identifier twice, every entry the last one
    seen with its identifier, and no identifier lost. *)
Lemma dedupe_spec (results : list (option Contact)) :
  NoDup (map contact_id_ (dedupe results))
  /\ (forall c, In c (dedupe results) ->
                exists key, lastSeen results key c)
  /\ (forall c key, In (Some c) results -> contact_id_ c = Some key ->
                    nonEmpty key = true ->
                    exists kept, In kept (dedupe results)
                                 /\ contact_id_ kept = Some key).
Proof.
  destruct (uniqueContacts_invariant results) as [Hnodup [Hlast Hall]].
  unfold dedupe. split; [| split].
  - assert (Hids : map contact_id_ (map snd (uniqueContacts results))
                   = map Some (map fst (uniqueContacts results))).
    { rewrite !map_map. apply map_ext_in. intros [key c] Hin. simpl.
      destruct (Hlast key c Hin) as [Hid _]. exact Hid. }
    rewrite Hids. apply NoDup_map_Some. exact Hnodup.
  - intros c Hin. apply in_map_iff in Hin. destruct Hin as [[key c'] [<- Hin]].
    exists key. apply Hlast. exact Hin.
  - intros c key Hin Hid Hkey.
    specialize (Hall c key Hin Hid Hkey). apply in_map_iff in Hall.
    destruct Hall as [[key' kept] [Hfst Hkept]]. simpl in Hfst. subst key'.
    exists kept. split.
    + apply in_map_iff. exists (key, kept). split; [reflexivity | exact Hkept].
    + destruct (Hlast key kept Hkept) as [Hid' _]. exact Hid'.
Qed.

End Dedupe.

Section CrmSearch.
Import Js WixSdkAdapterCrm.

(** The items of a successful [searchMember] are the deduplicated union
    of the answers collected from the queries. *)
Lemma searchMember_success (sdk : Sdk) (args : Args) (w : World)
    (items : list Contact) (total : nat) (source : string)
    (details : QueryDetails) :
  fst (searchMember sdk args w) = Success items total source details ->
  exists w',
    items = dedupe (fst (collect sdk (firstNamePartsOf (arg_firstName args))
                           (formattedLastNameOf (arg_lastName args)) w')).
Proof.
  unfold searchMember, andThen, initialize, ret.
  destruct (initialized w).
  - destruct (collect sdk _ _ w) as [results w1] eqn:Hcollect. simpl.
    intro H. injection H as <- _ _ _. exists w. rewrite Hcollect. reflexivity.
  - destruct (createClient sdk) as [[] | message]; [| discriminate].
    destruct (collect sdk _ _ (mkWorld true (sent w))) as [results w1]
      eqn:Hcollect. simpl.
    intro H. injection H as <- _ _ _. exists (mkWorld true (sent w)).
    rewrite Hcollect. reflexivity.
Qed.

(** C5: in the items of a successful [searchMember] no identifier occurs
    twice; each item is the last contact with its identifier among the
    answers that were collected (last seen wins), and every identifier
    that was collected is still there. *)
Theorem searchMember_one_entry_per_identifier :
  forall (sdk : Sdk) (args : Args) (w : World) (items : list Contact)
         (total : nat) (source : string) (details : QueryDetails),
    fst (searchMember sdk args w) = Success items total source details ->
    NoDup (map contact_id_ items)
    /\
    exists results w',
      results = fst (collect sdk (firstNamePartsOf (arg_firstName args))
                       (formattedLastNameOf (arg_lastName args)) w')
      /\ items = dedupe results
      /\ (forall c, In c items -> exists key, lastSeen results key c)
      /\ (forall c key,
            In (Some c) results -> contact_id_ c = Some key ->
            nonEmpty key = true ->
            exists kept, In kept items /\ contact_id_ kept = Some key).
Proof.
  intros sdk args w items total source details Hfound.
  destruct (searchMember_success sdk args w items total source details Hfound)
    as [w' Hitems].
  destruct (dedupe_spec
              (fst (collect sdk (firstNamePartsOf (arg_firstName args))
                      (formattedLastNameOf (arg_lastName args)) w')))
    as [Hnodup [Hlast Hall]].
  rewrite <- Hitems in Hnodup, Hlast, Hall.
  split; [exact Hnodup |].
  eexists. exists w'. split; [reflexivity |].
  split; [exact Hitems |]. split; [exact Hlast | exact Hall].
Qed.

(** Jane comes back from the first-name query and, with a newer e-mail,
    from the last-name query: she is listed once, with the newer e-mail,
    at the place of her first appearance. *)
Example searchMember_jane_once :
  fst (searchMember Samples.crmClient Samples.crmJaneDoe Samples.freshAdapter)
  = Success [Samples.crmJaneUpdated; Samples.crmJohn] 2 "wix-crm-contacts"
      (mkDetails "Jane" "Doe" "01-15-1990" "queryContacts").
Proof. vm_compute. reflexivity. Qed.

Lemma searchMember_one_entry_per_identifier_witness :
  NoDup (map contact_id_ [Samples.crmJaneUpdated; Samples.crmJohn]).
Proof.
  refine (proj1 (searchMember_one_entry_per_identifier Samples.crmClient
                   Samples.crmJaneDoe Samples.freshAdapter
                   [Samples.crmJaneUpdated; Samples.crmJohn] 2
                   "wix-crm-contacts"
                   (mkDetails "Jane" "Doe" "01-15-1990" "queryContacts") _)).
  vm_compute. reflexivity.
Defined.

Lemma given_false_parts (firstName : option string) :
  given firstName = false -> firstNamePartsOf firstName = [].
Proof. unfold firstNamePartsOf. intros ->. reflexivity. Qed.

Lemma given_false_lastName (lastName : option string) :
  given lastName = false -> formattedLastNameOf lastName = "".
Proof. unfold formattedLastNameOf. intros ->. reflexivity. Qed.

(** The union collected when neither name is given: the answer to the one
    query without a filter. *)
Lemma collect_without_names (sdk : Sdk) (w : World) :
  collect sdk [] "" w
  = (match find sdk (mkQuery None 50) with
     | Returned items => someItems items
     | Thrown _ => []
     end,
     mkWorld (initialized w) (sent w ++ [mkQuery None 50])).
Proof.
  unfold collect, andThen, ret, runFind. simpl.
  destruct (find sdk (mkQuery None 50)); reflexivity.
Qed.

(** C10, as the code has it.  With a first and a last name that are each
    absent, empty or made of ASCII white space only, an adapter that is
    initialised, or whose client can be built, sends exactly one query, the
    one for all contacts with the limit 50 and no filter, and answers with
    success and the contacts of that answer, one per identifier (none when
    the query is rejected): contacts that have nothing to do with the
    input.  An adapter that is not initialised and whose client cannot be
    built answers with a failure that carries the message of the error,
    and sends nothing.  The result holds at most 50 contacts when the
    service keeps to the limit it was sent. *)
Theorem searchMember_without_names_lists_contacts :
  forall (sdk : Sdk) (args : Args) (w : World),
    (forall s, arg_firstName args = Some s -> allSpaces s = true) ->
    (forall s, arg_lastName args = Some s -> allSpaces s = true) ->
    let answer :=
      match find sdk (mkQuery None 50) with
      | Returned items => someItems items
      | Thrown _ => []
      end in
    (initialized w = true \/ createClient sdk = Returned tt ->
     searchMember sdk args w
     = (Success (dedupe answer) (List.length (dedupe answer))
          "wix-crm-contacts"
          (mkDetails "" "" (orEmpty (arg_dateOfBirth args)) "queryContacts"),
        mkWorld true (sent w ++ [mkQuery None 50])))
    /\ (forall message,
          initialized w = false -> createClient sdk = Thrown message ->
          searchMember sdk args w = (Failure message "wix-crm-contacts", w))
    /\ ((forall items,
           find sdk (mkQuery None 50) = Returned (Some items) ->
           List.length items <= 50) ->
        List.length (dedupe answer) <= 50).
Proof.
  intros sdk args w Hfirst Hlast answer.
  pose proof (given_allSpaces _ Hfirst) as Hf.
  pose proof (given_allSpaces _ Hlast) as Hl.
  split; [| split].
  - intro Hinit. unfold searchMember, andThen, initialize, ret.
    rewrite (given_false_parts _ Hf), (given_false_lastName _ Hl).
    destruct (initialized w) eqn:Einit.
    + rewrite collect_without_names, Einit. reflexivity.
    + destruct Hinit as [H | H]; [discriminate |]. rewrite H.
      rewrite collect_without_names. reflexivity.
  - intros message Hinit Hclient.
    unfold searchMember, andThen, initialize, ret.
    rewrite Hinit, Hclient. reflexivity.
  - intro Hlimit. unfold dedupe. rewrite length_map.
    eapply Nat.le_trans; [apply uniqueContacts_length |].
    unfold answer.
    destruct (find sdk (mkQuery None 50)) as [[items |] | message] eqn:E;
      simpl; try lia.
    apply Hlimit. reflexivity.
Qed.

Lemma searchMember_without_names_lists_contacts_witness :
  searchMember Samples.crmClient Samples.crmNoNames Samples.freshAdapter
  = (Success [Samples.crmJohn; Samples.crmJane] 2 "wix-crm-contacts"
       (mkDetails "" "" "01-15-1990" "queryContacts"),
     mkWorld true [mkQuery None 50]).
Proof.
  refine (proj1 (searchMember_without_names_lists_contacts Samples.crmClient
                   Samples.crmNoNames Samples.freshAdapter _ _) _).
  - intros s H. injection H as <-. reflexivity.
  - discriminate.
  - right. reflexivity.
Defined.

End CrmSearch.

Section CrmRuns.
Import Js WixSdkAdapterCrm.

(** C10 as stated fails: when the client cannot be built (no API key in
    the configuration), [searchMember] without names answers with the
    failure of the initialisation, not with success, and sends nothing. *)
Lemma searchMember_client_not_built_counterexample :
  given (arg_firstName Samples.crmNoNames) = false
  /\ given (arg_lastName Samples.crmNoNames) = false
  /\ searchMember Samples.brokenCrmClient Samples.crmNoNames
       Samples.freshAdapter
     = (Failure "Cannot read properties of undefined (reading 'substring')"
          "wix-crm-contacts",
        Samples.freshAdapter).
Proof. repeat split. Qed.

End CrmRuns.

(** ** The drafts of the reader without the guards *)

Section PlainDrafts.
Import Js ScanIDService.

Variable parseDate : string -> option Z.

Lemma insert_length {A} (comparefn : A -> A -> outcome number) (x : A)
    (sorted result : list A) :
  insert comparefn x sorted = Returned result ->
  List.length result = S (List.length sorted).
Proof.
  revert result. induction sorted as [| y rest IH]; intros result; simpl.
  - intro H. injection H as <-. reflexivity.
  - destruct (comparefn x y) as [v | message]; simpl; [| discriminate].
    destruct (sortCompare v <=? 0)%Z.
    + intro H. injection H as <-. reflexivity.
    + destruct (insert comparefn x rest) as [rest' | message]; simpl;
        [| discriminate].
      intro H. injection H as <-. simpl. rewrite (IH rest' eq_refl).
      reflexivity.
Qed.

Lemma sort_length {A} (comparefn : A -> A -> outcome number)
    (l result : list A) :
  sort comparefn l = Returned result -> List.length result = List.length l.
Proof.
  revert result. induction l as [| x l IH]; intros result; simpl.
  - intro H. injection H as <-. reflexivity.
  - destruct (sort comparefn l) as [sorted | message]; simpl; [| discriminate].
    intro H. rewrite (insert_length _ _ _ _ H), (IH sorted eq_refl).
    reflexivity.
Qed.

(** A comparison with a row that has no CREATED column throws. *)
Lemma compareCreatedPlain_throws (a b : Row) :
  CREATED a = None \/ CREATED b = None ->
  exists message, compareCreatedPlain parseDate a b = Thrown message.
Proof.
  unfold compareCreatedPlain, splitCreated. intros [H | H]; rewrite H.
  - eexists. reflexivity.
  - destruct (CREATED a); eexists; reflexivity.
Qed.

Lemma sortPlain_throws (records : list Row) :
  2 <= List.length records ->
  (exists r, In r records /\ CREATED r = None) ->
  exists message,
    sort (compareCreatedPlain parseDate) records = Thrown message.
Proof.
  induction records as [| x records IH]; simpl; [lia |].
  intros Hlen [r [[<- | Hin] Hr]].
  - (* the new element lacks the column *)
    destruct (sort (compareCreatedPlain parseDate) records)
      as [[| y rest] | message] eqn:Hsort; simpl.
    + apply sort_length in Hsort. simpl in Hsort. lia.
    + destruct (compareCreatedPlain_throws x y (or_introl Hr)) as [m ->].
      exists m. reflexivity.
    + exists message. reflexivity.
  - destruct records as [| y [| z records]].
    + destruct Hin.
    + destruct Hin as [<- | []]. simpl.
      destruct (compareCreatedPlain_throws x y (or_intror Hr)) as [m ->].
      exists m. reflexivity.
    + destruct IH as [message Hthrown];
        [simpl; lia | exists r; split; assumption |].
      rewrite Hthrown. exists message. reflexivity.
Qed.

(** X2: With two rows or more and a row without the CREATED column, the drafts
    of lines 44-48 and 183-187 end in their error branch. *)
Lemma getLatestScanPlain_missing_column_error (records : list Row) :
  2 <= List.length records ->
  (exists r, In r records /\ CREATED r = None) ->
  exists message,
    getLatestScanPlain parseDate (Parsed records) = ScanError message.
Proof.
  intros Hlen Hmissing. unfold getLatestScanPlain, latestOf.
  destruct (sortPlain_throws records Hlen Hmissing) as [message ->].
  destruct records as [| r records]; [simpl in Hlen; lia |].
  exists message. reflexivity.
Qed.

End PlainDrafts.

Lemma getLatestScanPlain_missing_column_error_witness :
  exists message,
    ScanIDService.getLatestScanPlain ScanIDService.mdyDate
      (ScanIDService.Parsed [Samples.rowNoColumn; Samples.rowJan1])
    = ScanIDService.ScanError message.
Proof.
  apply (getLatestScanPlain_missing_column_error ScanIDService.mdyDate
           [Samples.rowNoColumn; Samples.rowJan1]).
  - simpl. apply le_n.
  - exists Samples.rowNoColumn. split; [left; reflexivity | reflexivity].
Defined.

(** ** The scan reader and rows without a usable date *)

Section ScanSafety.
Import Js ScanIDService.




End ScanSafety.

(** ** What "given" means for the two searches *)

Section Given.
Import Js.

(** The CRM adapter takes a name as given exactly when [findMember] would
    not call it blank. *)
Lemma given_not_blank (x : option string) :
  WixSdkAdapterCrm.given x = negb (WixService.blank x).
Proof.
  unfold WixSdkAdapterCrm.given, WixService.blank.
  destruct x as [[| c s] |]; try reflexivity.
  rewrite negb_involutive. reflexivity.
Qed.

(** The direct search has a filter to send exactly when a name or a date
    of birth is given. *)
Lemma filters_given (name dob : option string) :
  WixDirectApi.filters name dob <> [] <->
  truthy name = true \/ truthy dob = true.
Proof.
  unfold WixDirectApi.filters, WixDirectApi.searchFilters. split.
  - destruct name as [[| c s] |]; destruct dob as [[| c' s'] |]; simpl;
      intro H; try (exfalso; apply H; reflexivity); auto.
  - intros [H | H].
    + destruct name as [[| c s] |]; try discriminate.
      intro Hnil. apply app_eq_nil in Hnil. destruct Hnil as [Hnil _].
      apply app_eq_nil in Hnil. destruct Hnil as [_ Hnil]. discriminate.
    + destruct dob as [[| c s] |]; try discriminate.
      intro Hnil. apply app_eq_nil in Hnil. destruct Hnil as [_ Hnil].
      discriminate.
Qed.

End Given.

(* ================================================================== *)
(** * Further properties of the code *)

(** ** Title case *)

Section TitleCase.
Import Js.

Lemma lowerChar_upperChar (c : ascii) : lowerChar (upperChar c) = lowerChar c.
Proof. destruct c as [[] [] [] [] [] [] [] []]; reflexivity. Qed.

Lemma lowerChar_lowerChar (c : ascii) : lowerChar (lowerChar c) = lowerChar c.
Proof. destruct c as [[] [] [] [] [] [] [] []]; reflexivity. Qed.

Lemma lowerChar_space (c : ascii) :
  Ascii.eqb (lowerChar c) " " = Ascii.eqb c " ".
Proof. destruct c as [[] [] [] [] [] [] [] []]; reflexivity. Qed.

Lemma mapChars_append (f : ascii -> ascii) (s t : string) :
  mapChars f (s ++ t) = (mapChars f s ++ mapChars f t)%string.
Proof.
  induction s as [| c s IH]; simpl; [reflexivity | rewrite IH; reflexivity].
Qed.

Lemma mapChars_length (f : ascii -> ascii) (s : string) :
  String.length (mapChars f s) = String.length s.
Proof.
  induction s as [| c s IH]; simpl; [reflexivity | rewrite IH; reflexivity].
Qed.

Lemma mapChars_join (f : ascii -> ascii) (sep : string) (parts : list string) :
  mapChars f (join sep parts) = join (mapChars f sep) (map (mapChars f) parts).
Proof.
  induction parts as [| w [| w' parts] IH]; try reflexivity.
  change (join sep (w :: w' :: parts))
    with (w ++ sep ++ join sep (w' :: parts))%string.
  change (join (mapChars f sep) (map (mapChars f) (w :: w' :: parts)))
    with (mapChars f w ++ mapChars f sep
          ++ join (mapChars f sep) (map (mapChars f) (w' :: parts)))%string.
  rewrite !mapChars_append, IH. reflexivity.
Qed.

(** [split] never returns the empty array. *)
Lemma split_not_nil (sep : ascii) (s : string) : split sep s <> [].
Proof.
  destruct s as [| c s]; simpl; [discriminate |].
  destruct (Ascii.eqb c sep); [discriminate |].
  destruct (split sep s); discriminate.
Qed.

(** A change of characters that leaves the separator alone commutes with
    [split]. *)
Lemma split_mapChars (f : ascii -> ascii) (sep : ascii) (s : string) :
  (forall c, Ascii.eqb (f c) sep = Ascii.eqb c sep) ->
  split sep (mapChars f s) = map (mapChars f) (split sep s).
Proof.
  intro Hsep. induction s as [| c s IH]; simpl; [reflexivity |].
  rewrite Hsep. destruct (Ascii.eqb c sep); simpl.
  - rewrite IH. reflexivity.
  - rewrite IH. destruct (split sep s) as [| w ws] eqn:E; [| reflexivity].
    exfalso. exact (split_not_nil sep s E).
Qed.

(** Joining what was split gives the text back. *)
Lemma join_split (sep : ascii) (s : string) :
  join (String sep "") (split sep s) = s.
Proof.
  induction s as [| c s IH]; simpl; [reflexivity |].
  destruct (Ascii.eqb c sep) eqn:E.
  - apply Ascii.eqb_eq in E. subst c.
    destruct (split sep s) as [| w ws] eqn:Hs;
      [exfalso; exact (split_not_nil sep s Hs) |].
    change (join (String sep "") ("" :: w :: ws))
      with ("" ++ String sep "" ++ join (String sep "") (w :: ws))%string.
    rewrite IH. reflexivity.
  - destruct (split sep s) as [| w [| w' ws]] eqn:Hs.
    + exfalso. exact (split_not_nil sep s Hs).
    + simpl in IH. subst w. reflexivity.
    + change (join (String sep "") (String c w :: w' :: ws))
        with (String c (w ++ String sep "" ++ join (String sep "") (w' :: ws)))%string.
      change (join (String sep "") (w :: w' :: ws))
        with (w ++ String sep "" ++ join (String sep "") (w' :: ws))%string in IH.
      rewrite IH. reflexivity.
Qed.

Lemma lower_capitalize (word : string) :
  toLowerCase (capitalize word) = toLowerCase word.
Proof.
  destruct word as [| c rest]; [reflexivity |].
  unfold toLowerCase. simpl. rewrite lowerChar_upperChar. reflexivity.
Qed.

Lemma toLowerCase_idempotent (s : string) :
  toLowerCase (toLowerCase s) = toLowerCase s.
Proof.
  unfold toLowerCase. induction s as [| c s IH]; simpl; [reflexivity |].
  rewrite lowerChar_lowerChar, IH. reflexivity.
Qed.

(** In lower case, the title-cased text is the text in lower case. *)
Lemma toTitleCase_lower (s : string) :
  toLowerCase (WixService.toTitleCase (Some s)) = toLowerCase s.
Proof.
  destruct s as [| c s]; [reflexivity |].
  unfold WixService.toTitleCase.
  set (t := toLowerCase (String c s)).
  unfold toLowerCase at 1. rewrite mapChars_join, map_map.
  rewrite (map_ext _ (mapChars lowerChar))
    by (intro w; apply lower_capitalize).
  rewrite <- (split_mapChars lowerChar " " t lowerChar_space).
  change (mapChars lowerChar " ") with " ".
  rewrite join_split. apply toLowerCase_idempotent.
Qed.

Lemma toTitleCase_length (s : string) :
  String.length (WixService.toTitleCase (Some s)) = String.length s.
Proof.
  rewrite <- (mapChars_length lowerChar (WixService.toTitleCase (Some s))).
  change (mapChars lowerChar (WixService.toTitleCase (Some s)))
    with (toLowerCase (WixService.toTitleCase (Some s))).
  rewrite toTitleCase_lower. apply mapChars_length.
Qed.

(** X4: On a text of ASCII characters, title case changes the case of
    letters and nothing else: in lower case the result is the input in
    lower case, so it has the length of the input and every space where
    the input has it. *)
Theorem toTitleCase_changes_case_only :
  forall s : string,
    asciiText s = true ->
    toLowerCase (WixService.toTitleCase (Some s)) = toLowerCase s
    /\ String.length (WixService.toTitleCase (Some s)) = String.length s.
Proof.
  intros s _. split.
  - apply toTitleCase_lower.
  - apply toTitleCase_length.
Qed.

Lemma toTitleCase_changes_case_only_witness :
  toLowerCase (WixService.toTitleCase (Some "MARY ANN  o'NEIL"))
  = toLowerCase "MARY ANN  o'NEIL"
  /\ String.length (WixService.toTitleCase (Some "MARY ANN  o'NEIL"))
     = String.length "MARY ANN  o'NEIL".
Proof.
  apply (toTitleCase_changes_case_only "MARY ANN  o'NEIL"). reflexivity.
Defined.

(** X5: Title-casing a name of ASCII characters that is in title case
    already changes nothing. *)
Theorem toTitleCase_idempotent :
  forall str : option string,
    (forall s, str = Some s -> asciiText s = true) ->
    WixService.toTitleCase (Some (WixService.toTitleCase str))
    = WixService.toTitleCase str.
Proof.
  intros [[| c s] |] _; try reflexivity.
  pose proof (toTitleCase_lower (String c s)) as Hlower.
  pose proof (toTitleCase_length (String c s)) as Hlength.
  destruct (WixService.toTitleCase (Some (String c s))) as [| c' s'] eqn:E;
    [simpl in Hlength; discriminate |].
  unfold WixService.toTitleCase in E |- *.
  rewrite <- E at 2.
  f_equal. f_equal. f_equal. exact Hlower.
Qed.

Lemma toTitleCase_idempotent_witness :
  WixService.toTitleCase (Some (WixService.toTitleCase (Some "MARY ANN")))
  = WixService.toTitleCase (Some "MARY ANN").
Proof.
  apply (toTitleCase_idempotent (Some "MARY ANN")).
  intros s H. injection H as <-. reflexivity.
Defined.

End TitleCase.

(** ** The REST matchers: which calls are made *)

Section Calls.
Import Js WixService.

(** X6: With the members directory empty: a contacts query that is rejected is
    followed by the free text search, whose candidates (tagged "contacts")
    are the result; a contacts query that is answered ends the search, and
    the free text search is not called. *)
Theorem findMember_free_text_fallback :
  forall (key : option string) (remote : Remote) (args : Args),
    truthy key = true ->
    hasCriteria args = true ->
    yield (membersQuery remote (membersData args)) = [] ->
    (forall message,
       contactsQuery remote (contactsData args) = Thrown message ->
       run (findMember key remote args)
       = (match yield (contactsSearch remote (simpleParams args)) with
          | [] => Failure noMembers
          | contact :: contacts =>
              Success (map fromContact (contact :: contacts))
          end,
          [(MembersQuery, membersData args);
           (ContactsQuery, contactsData args);
           (ContactsSearch, simpleParams args)]))
    /\
    (forall data,
       contactsQuery remote (contactsData args) = Returned data ->
       snd (run (findMember key remote args))
       = [(MembersQuery, membersData args);
          (ContactsQuery, contactsData args)]).
Proof.
  intros key remote args Hkey Hcrit Hnone.
  apply yield_nothing in Hnone. split.
  - intros message Hthrown.
    unfold run, findMember, andThen, post, ret.
    rewrite Hkey, Hcrit, Hthrown. simpl.
    destruct (membersQuery remote (membersData args)) as [data | msg];
      [rewrite Hnone |];
      (destruct (contactsSearch remote (simpleParams args))
         as [[[| c cs] |] | msg']; reflexivity).
  - intros data Hreturned.
    unfold run, findMember, andThen, post, ret.
    rewrite Hkey, Hcrit, Hreturned. simpl.
    destruct (membersQuery remote (membersData args)) as [data' | msg];
      [rewrite Hnone |];
      (destruct data as [[| c cs] |]; reflexivity).
Qed.

Lemma findMember_free_text_fallback_witness :
  run (findMember Samples.apiKey MoreSamples.searchOnlyRemote Samples.janeDoe)
  = (Success (map fromContact [Samples.contactJane]),
     [(MembersQuery, membersData Samples.janeDoe);
      (ContactsQuery, contactsData Samples.janeDoe);
      (ContactsSearch, simpleParams Samples.janeDoe)]).
Proof.
  refine (proj1 (findMember_free_text_fallback Samples.apiKey
                   MoreSamples.searchOnlyRemote Samples.janeDoe _ _ _)
            "Request failed with status code 400" _);
    reflexivity.
Defined.

(** X7: Whatever the service answers, [searchMemberByNameOrDOB] calls the
    members directory at most once and then the contacts directory at most
    once, in that order; not initialised, or with neither a name nor a date
    of birth, it calls nothing, and then answers with a failure in the
    first case and with success, the tag "none" and no result in the
    second. *)
Theorem searchMemberByNameOrDOB_calls :
  forall (initialized : bool) (remote : Remote) (name dob : option string),
    (initialized = false ->
     run (WixDirectApi.searchMemberByNameOrDOB initialized remote name dob)
     = (WixDirectApi.SearchFailure "Wix Direct API not properly initialized",
        []))
    /\
    (initialized = true -> truthy name = false -> truthy dob = false ->
     run (WixDirectApi.searchMemberByNameOrDOB initialized remote name dob)
     = (WixDirectApi.Found "none" [], []))
    /\
    (let log :=
       snd (run (WixDirectApi.searchMemberByNameOrDOB initialized remote
                   name dob)) in
     log = []
     \/ log = [(MembersQuery, WixDirectApi.data name dob)]
     \/ log = [(MembersQuery, WixDirectApi.data name dob);
               (ContactsQuery, WixDirectApi.contactsData name dob)]).
Proof.
  intros initialized remote name dob. split; [| split].
  - intros ->. reflexivity.
  - intros -> Hname Hdob.
    unfold run, WixDirectApi.searchMemberByNameOrDOB. simpl.
    destruct (WixDirectApi.filters name dob) as [| f fs] eqn:E;
      [reflexivity |].
    exfalso.
    assert (H : WixDirectApi.filters name dob <> []) by (rewrite E; discriminate).
    apply filters_given in H. destruct H as [H | H].
    + rewrite Hname in H. discriminate.
    + rewrite Hdob in H. discriminate.
  - unfold run, WixDirectApi.searchMemberByNameOrDOB, andThen, post, ret.
    destruct initialized; simpl; [| left; reflexivity].
    destruct (List.length (WixDirectApi.filters name dob) =? 0)%nat;
      [left; reflexivity |].
    destruct (membersQuery remote (WixDirectApi.data name dob))
      as [[[| m ms] |] | msg]; simpl; auto.
Qed.

End Calls.

Lemma searchMemberByNameOrDOB_calls_witness :
  WixService.run
    (WixDirectApi.searchMemberByNameOrDOB true Samples.bothRemote None
       (Some ""))
  = (WixDirectApi.Found "none" [], []).
Proof.
  refine (proj1 (proj2 (searchMemberByNameOrDOB_calls true Samples.bothRemote
                          None (Some ""))) _ _ _);
    reflexivity.
Defined.

(** ** The SDK matcher: what the result holds *)

Section SdkResult.
Import Js WixServiceSdk.

Lemma filter_partition_Permutation {A} (keep : A -> bool) (l : list A) :
  Permutation (filter keep l ++ filter (fun x => negb (keep x)) l) l.
Proof.
  induction l as [| x l IH]; simpl; [apply perm_nil |].
  destruct (keep x); simpl.
  - apply perm_skip. exact IH.
  - eapply perm_trans; [apply Permutation_sym, Permutation_middle |].
    apply perm_skip. exact IH.
Qed.

(** The loop rearranges: it neither drops nor repeats a member. *)
Lemma promote_Permutation (args : Args) (f l : string) (matching : list Member) :
  Permutation (fst (promote args f l matching)) (map toProfile matching).
Proof.
  rewrite promote_split. simpl. rewrite <- map_app.
  apply Permutation_map.
  eapply perm_trans; [| apply (filter_partition_Permutation (isExact args f l))].
  apply Permutation_app_tail. apply Permutation_sym, Permutation_rev.
Qed.

(** What a successful [findMember] holds: the profiles of the members
    that pass the filter, rearranged, and the flag of the promotion. *)
Lemma findMember_matching (key : option string) (sdk : Sdk) (args : Args)
    (members : list Profile) (count : nat) (exactMatch : bool)
    (message : string) :
  findMember key sdk args = Success members count exactMatch message ->
  exists items,
    activeMembers sdk = Returned (Some items)
    /\ let f := WixService.toTitleCase (arg_firstName args) in
       let l := WixService.toTitleCase (arg_lastName args) in
       let matching :=
         filter (matches args f l (WixService.firstNameVariations f))
                items in
       Permutation members (map toProfile matching)
       /\ exactMatch = existsb (isExact args f l) matching
       /\ count = List.length members.
Proof.
  intro Hfound.
  destruct (findMember_success key sdk args members count exactMatch message
              Hfound) as [items [Hitems [Hpromote Hcount]]].
  exists items. split; [exact Hitems |].
  intros f l matching. fold f l matching in Hpromote.
  pose proof (promote_Permutation args f l matching) as Hperm.
  pose proof (promote_split args f l matching) as Hsplit.
  rewrite Hpromote in Hperm, Hsplit. simpl in Hperm.
  split; [exact Hperm |]. split; [| exact Hcount].
  injection Hsplit as _ ->. reflexivity.
Qed.

(** X8: A successful [findMember] returns the profiles of the active members
    that pass the filter, each of them once and no other, all tagged
    "wix-sdk"; [count] is their number, and [exactMatch] tells whether one
    of them is an exact match. *)
Theorem findMember_returns_the_matching_members :
  forall (key : option string) (sdk : Sdk) (args : Args)
         (members : list Profile) (count : nat) (exactMatch : bool)
         (message : string),
    findMember key sdk args = Success members count exactMatch message ->
    exists items,
      activeMembers sdk = Returned (Some items)
      /\ let f := WixService.toTitleCase (arg_firstName args) in
         let l := WixService.toTitleCase (arg_lastName args) in
         let matching :=
           filter (matches args f l (WixService.firstNameVariations f))
                  items in
         Permutation members (map toProfile matching)
         /\ count = List.length matching
         /\ exactMatch = existsb (isExact args f l) matching
         /\ Forall (fun p => source p = "wix-sdk") members.
Proof.
  intros key sdk args members count exactMatch message Hfound.
  destruct (findMember_matching key sdk args members count exactMatch message
              Hfound) as [items [Hitems Hrest]].
  exists items. split; [exact Hitems |].
  intros f l matching.
  destruct Hrest as [Hperm [Hexact Hcount]]. fold f l matching in Hperm, Hexact.
  split; [exact Hperm |]. split; [| split].
  - rewrite Hcount, (Permutation_length Hperm), length_map. reflexivity.
  - exact Hexact.
  - apply Forall_forall. intros p Hp.
    apply (Permutation_in _ Hperm) in Hp. apply in_map_iff in Hp.
    destruct Hp as [m [<- _]]. reflexivity.
Qed.

Lemma findMember_returns_the_matching_members_witness :
  exists items,
    activeMembers Samples.sdkClient = Returned (Some items)
    /\ Permutation
         (map toProfile [Samples.jane; Samples.janet; Samples.janeDoering])
         (map toProfile
            (filter (matches Samples.sdkJaneDoe "Jane" "Doe"
                       (WixService.firstNameVariations "Jane"))
                    items))
    /\ 3 = List.length
             (filter (matches Samples.sdkJaneDoe "Jane" "Doe"
                        (WixService.firstNameVariations "Jane"))
                     items)
    /\ true = existsb (isExact Samples.sdkJaneDoe "Jane" "Doe")
                (filter (matches Samples.sdkJaneDoe "Jane" "Doe"
                           (WixService.firstNameVariations "Jane"))
                        items)
    /\ Forall (fun p => source p = "wix-sdk")
              (map toProfile
                 [Samples.jane; Samples.janet; Samples.janeDoering]).
Proof.
  refine (findMember_returns_the_matching_members Samples.apiKey
            Samples.sdkClient Samples.sdkJaneDoe
            (map toProfile [Samples.jane; Samples.janet; Samples.janeDoering])
            3 true "Found 3 matching members (with exact match)" _).
  vm_compute. reflexivity.
Defined.

Lemma replaceAll_unchanged (c d : ascii) (s : string) :
  c <> d -> replaceAll c d s = s -> hasChar c s = false.
Proof.
  intro Hcd. unfold replaceAll.
  induction s as [| x s IH]; simpl; [reflexivity |].
  intro H. injection H as Hx Hs.
  destruct (Ascii.eqb x c) eqn:E.
  - apply Ascii.eqb_eq in E. subst x. exfalso. apply Hcd. symmetry. exact Hx.
  - simpl. apply IH. exact Hs.
Qed.

(** The date of birth of a member that passes the filter. *)
Lemma matches_dateOfBirth (args : Args) (f l : string) (vs : list string)
    (m : Member) (c : ascii) (s : string) :
  arg_dateOfBirth args = Some (String c s) ->
  nonEmpty (trim (String c s)) = true ->
  matches args f l vs m = true ->
  orEmpty (member_dateOfBirth m) = replaceAll "/" "-" (String c s).
Proof.
  unfold matches. intros -> ->.
  destruct (contactDetails m); [| discriminate].
  intro H. apply andb_prop in H. destruct H as [_ H].
  apply String.eqb_eq. exact H.
Qed.

(** X9: With a date of birth in the query, every profile returned has that
    date, slashes read as dashes.  The exact-match test compares with the
    text as given, so a date written with a slash never counts as an exact
    match: nothing is promoted and [exactMatch] is false. *)
Theorem findMember_date_of_birth :
  forall (key : option string) (sdk : Sdk) (args : Args)
         (members : list Profile) (count : nat) (exactMatch : bool)
         (message : string) (dob : string),
    findMember key sdk args = Success members count exactMatch message ->
    arg_dateOfBirth args = Some dob ->
    nonEmpty (trim dob) = true ->
    (forall p, In p members -> dateOfBirth p = replaceAll "/" "-" dob)
    /\ (hasChar "/" dob = true -> exactMatch = false).
Proof.
  intros key sdk args members count exactMatch message dob Hfound Hdob Hgiven.
  destruct dob as [| c s]; [discriminate |].
  destruct (findMember_matching key sdk args members count exactMatch message
              Hfound)
    as [items [_ [Hperm [Hexact _]]]].
  set (f := WixService.toTitleCase (arg_firstName args)) in *.
  set (l := WixService.toTitleCase (arg_lastName args)) in *.
  set (matching := filter (matches args f l (WixService.firstNameVariations f))
                          items) in *.
  assert (Hdates : forall m, In m matching ->
             orEmpty (member_dateOfBirth m) = replaceAll "/" "-" (String c s)).
  { intros m Hm. apply filter_In in Hm. destruct Hm as [_ Hm].
    exact (matches_dateOfBirth args f l _ m c s Hdob Hgiven Hm). }
  split.
  - intros p Hp. apply (Permutation_in _ Hperm) in Hp.
    apply in_map_iff in Hp. destruct Hp as [m [<- Hm]].
    exact (Hdates m Hm).
  - intro Hslash. rewrite Hexact.
    destruct (existsb (isExact args f l) matching) eqn:E; [| reflexivity].
    exfalso. apply existsb_exists in E. destruct E as [m [Hm Hisexact]].
    unfold isExact in Hisexact. rewrite Hdob in Hisexact.
    apply andb_prop in Hisexact. destruct Hisexact as [_ Hsame].
    rewrite sameText_orEmpty in Hsame. apply String.eqb_eq in Hsame.
    rewrite (Hdates m Hm) in Hsame.
    apply replaceAll_unchanged in Hsame; [| discriminate].
    rewrite Hsame in Hslash. discriminate.
Qed.

End SdkResult.

Lemma findMember_date_of_birth_witness :
  WixServiceSdk.dateOfBirth (WixServiceSdk.toProfile Samples.janet)
  = Js.replaceAll "/" "-" "01/15/1990"
  /\ false = false.
Proof.
  pose proof (findMember_date_of_birth Samples.apiKey Samples.sdkClient
                MoreSamples.sdkSlashDate
                (map WixServiceSdk.toProfile
                   [Samples.janet; Samples.jane; Samples.janeDoering])
                3 false "Found 3 matching members" "01/15/1990"
                eq_refl eq_refl eq_refl) as [Hdates Hexact].
  split.
  - apply Hdates. left. reflexivity.
  - apply Hexact. reflexivity.
Defined.

(** ** The CRM adapter: the queries it sends *)

Section CrmQueries.
Import Js WixSdkAdapterCrm.

Variable sdk : Sdk.

(** The loop over the parts of the first name: one query per part, in
    order, and the answers appended. *)
Lemma searchFirstNames_spec (parts : list string)
    (firstNameResults : list (option Contact)) (w : World) :
  searchFirstNames sdk parts firstNameResults w
  = (firstNameResults
       ++ flat_map
            (fun namePart =>
               match find sdk (mkQuery (Some ("info.name.first", namePart)) 50)
               with
               | Returned items => someItems items
               | Thrown _ => []
               end)
            parts,
     mkWorld (initialized w)
       (sent w
        ++ map (fun namePart => mkQuery (Some ("info.name.first", namePart)) 50)
               parts)).
Proof.
  revert firstNameResults w.
  induction parts as [| namePart parts IH]; intros results w; simpl.
  - unfold ret. rewrite !app_nil_r. destruct w. reflexivity.
  - unfold andThen, runFind. rewrite IH. simpl.
    rewrite <- !app_assoc. simpl.
    destruct (find sdk (mkQuery (Some ("info.name.first", namePart)) 50));
      simpl; rewrite <- ?app_assoc; reflexivity.
Qed.

End CrmQueries.

Section CrmSent.
Import Js WixSdkAdapterCrm.

(** X10: The queries of one [searchMember] on an initialised adapter, in the
    order sent: one per part of the first name on [info.name.first], one on
    [info.name.last] when a last name is given, and the query for all
    contacts exactly when those brought no contact at all.  Every one of
    them has the limit 50, and the date of birth appears in none. *)
Theorem searchMember_queries_sent :
  forall (sdk : Sdk) (args : Args) (w : World),
    initialized w = true ->
    let parts := firstNamePartsOf (arg_firstName args) in
    let last := formattedLastNameOf (arg_lastName args) in
    let answer (q : ContactsQuery) :=
      match find sdk q with
      | Returned items => someItems items
      | Thrown _ => []
      end in
    let byFirst :=
      flat_map (fun p => answer (mkQuery (Some ("info.name.first", p)) 50))
               parts in
    let byLast :=
      if nonEmpty last
      then answer (mkQuery (Some ("info.name.last", last)) 50) else [] in
    sent (snd (searchMember sdk args w))
    = sent w
      ++ map (fun p => mkQuery (Some ("info.name.first", p)) 50) parts
      ++ (if nonEmpty last
          then [mkQuery (Some ("info.name.last", last)) 50] else [])
      ++ (match byFirst ++ byLast with
          | [] => [mkQuery None 50]
          | _ :: _ => []
          end)
    /\ Forall (fun q => limit q = 50)
              (skipn (List.length (sent w))
                     (sent (snd (searchMember sdk args w)))).
Proof.
  intros sdk args w Hinit parts last answer byFirst byLast.
  assert (Hsent :
    sent (snd (searchMember sdk args w))
    = sent w
      ++ map (fun p => mkQuery (Some ("info.name.first", p)) 50) parts
      ++ (if nonEmpty last
          then [mkQuery (Some ("info.name.last", last)) 50] else [])
      ++ (match byFirst ++ byLast with
          | [] => [mkQuery None 50]
          | _ :: _ => []
          end)).
  { unfold searchMember, andThen, ret. rewrite Hinit.
    fold parts last.
    destruct (collect sdk parts last w) as [results w'] eqn:Hcollect.
    simpl. revert Hcollect.
    unfold collect, andThen, ret, runFind.
    assert (Hfirst :
      (if (0 <? List.length parts)%nat
       then searchFirstNames sdk parts []
       else fun w0 => ([], w0)) w
      = (byFirst,
         mkWorld (initialized w)
           (sent w
            ++ map (fun p => mkQuery (Some ("info.name.first", p)) 50) parts))).
    { destruct parts as [| p ps] eqn:Hparts.
      - simpl. rewrite app_nil_r. destruct w. reflexivity.
      - change (0 <? List.length (p :: ps))%nat with true. cbv iota.
        rewrite searchFirstNames_spec. reflexivity. }
    rewrite Hfirst. clear Hfirst.
    unfold byLast, answer.
    destruct (nonEmpty last) eqn:Hlast; simpl.
    - destruct (find sdk (mkQuery (Some ("info.name.last", last)) 50))
        as [[[| x items] |] | message]; simpl;
        destruct byFirst as [| b bs]; simpl;
        try destruct (find sdk (mkQuery None 50)); simpl;
        intro H; injection H as _ <-; simpl;
        rewrite <- !app_assoc; reflexivity.
    - rewrite app_nil_r.
      destruct byFirst as [| b bs]; simpl;
        [ destruct (find sdk (mkQuery None 50)); simpl |];
        intro H; injection H as _ <-; simpl;
        rewrite ?app_nil_r, <- ?app_assoc; reflexivity. }
  split; [exact Hsent |].
  rewrite Hsent, skipn_app, skipn_all, Nat.sub_diag. simpl.
  apply Forall_app. split.
  - apply Forall_forall. intros q Hq. apply in_map_iff in Hq.
    destruct Hq as [p [<- _]]. reflexivity.
  - apply Forall_app. split.
    + destruct (nonEmpty last); repeat constructor.
    + destruct (byFirst ++ byLast); repeat constructor.
Qed.

Lemma searchMember_queries_sent_witness :
  sent (snd (searchMember Samples.crmClient Samples.crmJaneDoe
               MoreSamples.readyCrmAdapter))
  = [mkQuery (Some ("info.name.first", "Jane")) 50;
     mkQuery (Some ("info.name.last", "Doe")) 50].
Proof.
  refine (proj1 (searchMember_queries_sent Samples.crmClient
                   Samples.crmJaneDoe MoreSamples.readyCrmAdapter _)).
  reflexivity.
Defined.

End CrmSent.

(** ** The members adapter: which method is called, and what the fallback
       keeps *)

Section MembersAdapter.
Import Js WixSdkAdapterMembers.

Lemma paramOf_nonEmpty (x : option string) (t : string) :
  paramOf x = Some t -> nonEmpty t = true.
Proof.
  destruct x as [[| c s] |]; simpl; try discriminate.
  destruct (nonEmpty (trim (String c s))) eqn:E; [| discriminate].
  intro H. injection H as <-. exact E.
Qed.

Lemma paramOf_truthy (x : option string) :
  truthy (paramOf x) = match paramOf x with Some _ => true | None => false end.
Proof.
  destruct (paramOf x) as [t |] eqn:E; [| reflexivity].
  apply paramOf_nonEmpty in E. destruct t; [discriminate | reflexivity].
Qed.

Lemma paramOf_orEmpty (x : option string) (t : string) :
  paramOf x = Some t -> orEmpty (paramOf x) = t.
Proof.
  intro E. rewrite E. apply paramOf_nonEmpty in E.
  destruct t; [discriminate | reflexivity].
Qed.

(** The test on one name looks at the lower-cased criterion only. *)
Lemma name_test_lower (x y : option string) :
  option_map toLowerCase (paramOf x) = option_map toLowerCase (paramOf y) ->
  truthy (paramOf x) = truthy (paramOf y)
  /\ toLowerCase (orEmpty (paramOf x)) = toLowerCase (orEmpty (paramOf y))
  /\ present (paramOf x) = present (paramOf y).
Proof.
  intro H. rewrite !paramOf_truthy.
  destruct (paramOf x) as [s |] eqn:Ex, (paramOf y) as [t |] eqn:Ey;
    simpl in H; try discriminate.
  - injection H as H.
    rewrite <- Ex, <- Ey, (paramOf_orEmpty x s Ex), (paramOf_orEmpty y t Ey).
    rewrite Ex, Ey. auto.
  - auto.
Qed.

(** X11: With [queryMembers] missing, the search does not depend on the letter
    case of the names asked for, nor on the white space around them: two
    calls whose trimmed names agree up to case, and whose trimmed dates of
    birth are the same text, give the same result and make the same
    call. *)
Theorem searchMember_fallback_ignores_case :
  forall (createClient : outcome (option MembersModule))
         (args1 args2 : Args) (w : World) (module : MembersModule),
    initialized w = true ->
    membersModule w = Some module ->
    queryMembers module = None ->
    option_map toLowerCase (paramOf (arg_firstName args1))
    = option_map toLowerCase (paramOf (arg_firstName args2)) ->
    option_map toLowerCase (paramOf (arg_lastName args1))
    = option_map toLowerCase (paramOf (arg_lastName args2)) ->
    paramOf (arg_dateOfBirth args1) = paramOf (arg_dateOfBirth args2) ->
    searchMember createClient args1 w = searchMember createClient args2 w.
Proof.
  intros createClient args1 args2 w module Hinit Hmodule Hquery
         Hfirst Hlast Hdob.
  destruct (name_test_lower _ _ Hfirst) as [Hf1 [Hf2 Hf3]].
  destruct (name_test_lower _ _ Hlast) as [Hl1 [Hl2 Hl3]].
  assert (Hkeys : keyCount (searchParamsOf args1)
                  = keyCount (searchParamsOf args2)).
  { unfold keyCount, searchParamsOf. simpl. rewrite Hf3, Hl3, Hdob.
    reflexivity. }
  assert (Hmatch : forall member,
             matchesParams (searchParamsOf args1) member
             = matchesParams (searchParamsOf args2) member).
  { intro member. unfold matchesParams, searchParamsOf. simpl.
    rewrite Hf1, Hf2, Hl1, Hl2, Hdob. reflexivity. }
  unfold searchMember, adapterSearchMember, initialize.
  rewrite Hinit, Hmodule, Hkeys, Hquery.
  destruct (keyCount (searchParamsOf args2) =? 0)%nat; [reflexivity |].
  destruct (listMembers module) as [[members | message] |]; try reflexivity.
  rewrite (filter_ext _ _ Hmatch). reflexivity.
Qed.

Lemma searchMember_fallback_ignores_case_witness :
  searchMember (Thrown "unused") MoreSamples.adapterJaneDoe
    MoreSamples.readyAdapter
  = searchMember (Thrown "unused")
      (mkArgs (Some "JANE") (Some "doe") (Some "  "))
      MoreSamples.readyAdapter.
Proof.
  apply (searchMember_fallback_ignores_case (Thrown "unused")
           MoreSamples.adapterJaneDoe
           (mkArgs (Some "JANE") (Some "doe") (Some "  "))
           MoreSamples.readyAdapter MoreSamples.listOnlyModule);
    reflexivity.
Defined.

(** X12: One search makes at most one remote call: none without a criterion,
    [queryMembers] with the trimmed criteria whenever the module has it
    (also when it then throws, [listMembers] is not tried), [listMembers]
    only when [queryMembers] is missing, none when both are missing.  A
    successful result comes from exactly one call, counts its own members
    and is tagged 'wix-sdk'. *)
Theorem searchMember_single_lookup :
  forall (createClient : outcome (option MembersModule))
         (args : Args) (w : World) (module : MembersModule),
    initialized w = true ->
    membersModule w = Some module ->
    let result := fst (searchMember createClient args w) in
    let after := made (snd (searchMember createClient args w)) in
    let searchParams := searchParamsOf args in
    (keyCount searchParams = 0 -> after = made w)
    /\ (keyCount searchParams <> 0 ->
        queryMembers module <> None ->
        after = made w ++ [QueryMembers searchParams])
    /\ (keyCount searchParams <> 0 ->
        queryMembers module = None -> listMembers module <> None ->
        after = made w ++ [ListMembers])
    /\ (queryMembers module = None -> listMembers module = None ->
        after = made w /\ forall results n source,
                            result <> Success results n source)
    /\ (forall results n source,
          result = Success results n source ->
          n = List.length results /\ source = "wix-sdk"
          /\ exists call, after = made w ++ [call]).
Proof.
  intros createClient args w module Hinit Hmodule result after searchParams.
  subst result after searchParams.
  unfold searchMember, adapterSearchMember, initialize.
  rewrite Hinit, Hmodule.
  destruct (keyCount (searchParamsOf args) =? 0)%nat eqn:Hkeys.
  - apply Nat.eqb_eq in Hkeys. simpl.
    repeat split; try congruence; try discriminate.
  - apply Nat.eqb_neq in Hkeys.
    destruct (queryMembers module) as [query |] eqn:Hquery.
    + destruct (query (searchParamsOf args)) as [members | message]; simpl;
        (repeat split; try congruence; try discriminate;
         try (intros results n source H; injection H as <- <- <-));
        try reflexivity; eexists; reflexivity.
    + destruct (listMembers module) as [[members | message] |] eqn:Hlist;
        simpl;
        (repeat split; try congruence; try discriminate;
         try (intros results n source H; injection H as <- <- <-));
        try reflexivity; try (eexists; reflexivity).
Qed.

Lemma searchMember_single_lookup_witness :
  made (snd (searchMember (Thrown "unused") MoreSamples.adapterJaneDoe
               MoreSamples.readyAdapter))
  = [ListMembers].
Proof.
  refine (proj1 (proj2 (proj2
            (searchMember_single_lookup (Thrown "unused")
               MoreSamples.adapterJaneDoe MoreSamples.readyAdapter
               MoreSamples.listOnlyModule eq_refl eq_refl))) _ _ _).
  - discriminate.
  - reflexivity.
  - discriminate.
Defined.

End MembersAdapter.

(** ** The draft of the scan reader that asks for a fingerprint *)

Section FingerprintDraft.
Import Js ScanIDService ScanIDFingerprint.

Variable parseDate : string -> option Z.

(** The fingerprint lookup does not throw and makes one attempt: it
    connects, and asks for the name once when the connection stands. *)
Lemma getFingerprintData_calls (sql : Sql) (userName : option string) :
  snd (getFingerprintData sql userName) = [Connect]
  \/ snd (getFingerprintData sql userName) = [Connect; Select userName].
Proof.
  unfold getFingerprintData.
  destruct (connect sql); [| left; reflexivity].
  destruct (query sql userName); right; reflexivity.
Qed.

(** X13: The draft of lines 24-79 is the draft of lines 165-208 followed by
    the fingerprint lookup.  Where the plain draft answers with an error,
    this one answers with the same error and the database is not touched.
    Where the plain draft answers with a scan record, the database is
    asked once, for the FULL NAME of that record, and the record is handed
    out only together with a non-empty hash; a person without a hash on
    file, an empty record set and a database that cannot be reached or
    rejects the query all end in 'Fingerprint not found'. *)
Theorem getLatestScan_fingerprint_gate :
  forall (sql : Sql) (file : CsvFile),
    let answer := ScanIDFingerprint.getLatestScan parseDate sql file in
    match getLatestScanPlain parseDate file with
    | ScanError error => answer = (Failed error, [])
    | Scan record =>
        let lookup := getFingerprintData sql (FullName record) in
        snd answer = snd lookup
        /\ (snd answer = [Connect]
            \/ snd answer = [Connect; Select (FullName record)])
        /\ fst answer
           = match fst lookup with
             | Some (String c s) => Scanned record (String c s)
             | _ => Failed "Fingerprint not found"
             end
        /\ (forall message,
              connect sql = Thrown message
              \/ query sql (FullName record) = Thrown message
              \/ query sql (FullName record) = Returned [] ->
              fst answer = Failed "Fingerprint not found")
    end.
Proof.
  intros sql file answer. subst answer.
  unfold getLatestScanPlain, latestOf, ScanIDFingerprint.getLatestScan.
  destruct file as [| message | records]; try reflexivity.
  destruct (List.length records =? 0)%nat eqn:Hlen; [reflexivity |].
  destruct (sort (compareCreatedPlain parseDate) records)
    as [[| latestRecord rest] | message] eqn:Hsort; try reflexivity.
  - apply sort_length in Hsort. apply Nat.eqb_neq in Hlen.
    simpl in Hsort. congruence.
  - change (FullName (toScan latestRecord)) with (FULL_NAME latestRecord).
    pose proof (getFingerprintData_calls sql (FULL_NAME latestRecord))
      as Hcalls.
    destruct (getFingerprintData sql (FULL_NAME latestRecord))
      as [fingerprintHash calls] eqn:Hlookup.
    simpl in Hcalls. simpl fst. simpl snd.
    assert (Hanswer :
      fst (if negb (truthy fingerprintHash)
           then (Failed "Fingerprint not found", calls)
           else (Scanned (toScan latestRecord) (orEmpty fingerprintHash),
                 calls))
      = match fingerprintHash with
        | Some (String c s) => Scanned (toScan latestRecord) (String c s)
        | _ => Failed "Fingerprint not found"
        end).
    { destruct fingerprintHash as [[| c s] |]; reflexivity. }
    split; [destruct (negb (truthy fingerprintHash)); reflexivity |].
    split; [destruct (negb (truthy fingerprintHash)); exact Hcalls |].
    split; [exact Hanswer |].
    intros message Hfailed. rewrite Hanswer.
    revert Hlookup. unfold getFingerprintData.
    destruct Hfailed as [H | [H | H]].
    + rewrite H. intro E. injection E as <- _. reflexivity.
    + rewrite H. destruct (connect sql); intro E; injection E as <- _;
        reflexivity.
    + rewrite H. destruct (connect sql); intro E; injection E as <- _;
        reflexivity.
Qed.

End FingerprintDraft.

Section FingerprintRuns.
Import Js ScanIDService ScanIDFingerprint.

(** The later row of the samples has a hash on file and is handed out
    with it; with the database out of reach the same file gives an
    error. *)
Example getLatestScan_with_fingerprint :
  ScanIDFingerprint.getLatestScan mdyDate FurtherSamples.fingerprints
    (Parsed [Samples.rowJan1; Samples.rowJan2])
  = (Scanned (toScan Samples.rowJan2) "9f86d081884c7d65",
     [Connect; Select (Some "LATER ROW")]).
Proof. vm_compute. reflexivity. Qed.

Example getLatestScan_database_down :
  ScanIDFingerprint.getLatestScan mdyDate FurtherSamples.unreachable
    (Parsed [Samples.rowJan1; Samples.rowJan2])
  = (Failed "Fingerprint not found", [Connect]).
Proof. vm_compute. reflexivity. Qed.

End FingerprintRuns.

(** ** Pricing plans of a member *)

Section PricingPlans.
Import Js WixServicePlans.

Variable Subscription : Type.
Variable Metadata : Type.

(** X14: [getMemberPricingPlans] sends nothing without the API key or
    without a member identifier, and fails.  Otherwise it sends exactly one
    query: the subscriptions whose buyer is that member, at most 10 of
    them.  An answered query is a success with the subscriptions of the
    response and their number, and with no plan and the number 0 when the
    response has no [memberSubscriptions]; a rejected query is a failure
    that carries the message of the rejection. *)
Theorem getMemberPricingPlans_one_query :
  forall (WIX_API_KEY : option string)
         (post : PlansQuery -> outcome (PlansData Subscription Metadata))
         (memberId : option string),
    let answer := getMemberPricingPlans WIX_API_KEY post memberId in
    let data := mkPlansQuery (orEmpty memberId) 10 plansFields in
    (truthy WIX_API_KEY && truthy memberId = false ->
     snd answer = []
     /\ exists error, fst answer = PlansFailure Subscription Metadata error)
    /\ (truthy WIX_API_KEY && truthy memberId = true ->
        snd answer = [data]
        /\ memberId = Some (filter_buyerInfo_memberId data)
        /\ (forall message,
              post data = Thrown message ->
              fst answer
              = PlansFailure Subscription Metadata
                  ("Error getting pricing plans: " ++ message)%string)
        /\ (forall response subscriptions,
              post data = Returned response ->
              memberSubscriptions response = Some subscriptions ->
              fst answer
              = Plans subscriptions (List.length subscriptions)
                  (pagingMetadata response))
        /\ (forall response,
              post data = Returned response ->
              memberSubscriptions response = None ->
              fst answer = Plans [] 0 (pagingMetadata response)))
    /\ (forall plans planCount metadata,
          fst answer = Plans plans planCount metadata ->
          planCount = List.length plans /\ snd answer = [data]
          /\ exists response,
               post data = Returned response
               /\ metadata = pagingMetadata response
               /\ plans = match memberSubscriptions response with
                          | Some subscriptions => subscriptions
                          | None => []
                          end).
Proof.
  intros WIX_API_KEY post memberId answer data. subst answer data.
  unfold getMemberPricingPlans.
  destruct (truthy WIX_API_KEY) eqn:Hkey; simpl.
  - destruct (truthy memberId) eqn:Hid; simpl.
    + split; [discriminate |]. split.
      * intros _. split.
        { destruct (post _); reflexivity. }
        split.
        { destruct memberId as [[| c s] |]; try discriminate. reflexivity. }
        split.
        { intros message ->. reflexivity. }
        split.
        { intros response subscriptions -> Hsome. simpl.
          rewrite Hsome. reflexivity. }
        intros response -> Hnone. simpl. rewrite Hnone. reflexivity.
      * intros plans planCount metadata.
        destruct (post _) as [response | message]; simpl; [| discriminate].
        intro H. injection H as <- <- <-.
        split; [destruct (memberSubscriptions response); reflexivity |].
        split; [reflexivity |].
        exists response. repeat split.
    + split.
      * intros _. split; [reflexivity |]. eexists. reflexivity.
      * split; [discriminate |]. discriminate.
  - split.
    + intros _. split; [reflexivity |]. eexists. reflexivity.
    + split; [discriminate |]. discriminate.
Qed.

End PricingPlans.

Section PricingPlansRuns.
Import Js WixServicePlans.

Example getMemberPricingPlans_two_plans :
  getMemberPricingPlans Samples.apiKey FurtherSamples.twoPlans (Some "m-1")
  = (Plans ["Monthly"; "Day pass"] 2 (Some 2),
     [mkPlansQuery "m-1" 10 plansFields]).
Proof. reflexivity. Qed.

End PricingPlansRuns.

(** ** The query methods of the direct API *)

Section DirectQueries.
Import Js WixDirectApiQueries.

Variable Item : Type.
Variable post : Endpoint -> Query -> outcome (Data Item).

(** The body that a method sends: the literal written in the method when
    the caller passes [null] (or that very object), the caller's object
    otherwise, and the empty object when the argument is left out. *)
Lemma orLiteral_defaulted (query : Argument Query) (literal : Query) :
  (orLiteral (defaulted query) literal = literal
   <-> query = Null \/ query = Passed literal
       \/ (query = Omitted /\ literal = emptyObject))
  /\ (query = Omitted -> orLiteral (defaulted query) literal = emptyObject)
  /\ (forall q, query = Passed q -> orLiteral (defaulted query) literal = q).
Proof.
  split; [| split].
  - destruct query as [| | q]; simpl; split.
    + intros <-. right. right. split; reflexivity.
    + intros [H | [H | [_ H]]]; try discriminate. symmetry. exact H.
    + intros _. left. reflexivity.
    + reflexivity.
    + intros ->. right. left. reflexivity.
    + intros [H | [H | [H _]]]; try discriminate.
      injection H as ->. reflexivity.
  - intros ->. reflexivity.
  - intros q ->. reflexivity.
Qed.

(** X15: [queryMembers], [queryContacts] and [queryCollection] throw without
    sending anything when the API is not initialised, and send exactly one
    request otherwise.  The default paging and field list written in each
    method are sent only when the caller passes [null]: a call that leaves
    the argument out sends the empty object, a call with an object sends
    that object. *)
Theorem direct_queries_send_the_callers_object :
  forall (initialized : bool) (collectionId : string)
         (query : Argument Query),
    let body (literal : Query) := orLiteral (defaulted query) literal in
    (initialized = false ->
     queryMembers initialized post query = (Thrown notInitialized, [])
     /\ queryContacts initialized post query = (Thrown notInitialized, [])
     /\ queryCollection initialized post collectionId query
        = (Thrown notInitialized, []))
    /\ (initialized = true ->
        snd (queryMembers initialized post query)
        = [(Members, body membersLiteral)]
        /\ snd (queryContacts initialized post query)
           = [(Contacts, body contactsLiteral)]
        /\ snd (queryCollection initialized post collectionId query)
           = [(CollectionItems collectionId, body collectionLiteral)])
    /\ (forall literal,
          In literal [membersLiteral; contactsLiteral; collectionLiteral] ->
          (body literal = literal <-> query = Null \/ query = Passed literal)
          /\ (query = Omitted -> body literal = emptyObject)
          /\ (forall q, query = Passed q -> body literal = q)).
Proof.
  intros initialized collectionId query body. subst body.
  split; [| split].
  - intros ->. repeat split.
  - intros ->. unfold queryMembers, queryContacts, queryCollection. simpl.
    repeat split.
    + destruct (post Members _); reflexivity.
    + destruct (post Contacts _); reflexivity.
    + destruct (post (CollectionItems collectionId) _); reflexivity.
  - intros literal Hliteral.
    destruct (orLiteral_defaulted query literal) as [Hiff [Homitted Hpassed]].
    split; [| split; assumption].
    rewrite Hiff. split.
    + intros [H | [H | [_ H]]]; [left; exact H | right; exact H |].
      exfalso.
      destruct Hliteral as [<- | [<- | [<- | []]]]; discriminate.
    + intros [H | H]; [left; exact H | right; left; exact H].
Qed.

End DirectQueries.

Section DirectQueriesRuns.
Import Js WixDirectApiQueries.

(** [queryMembers()] as the test entry point calls it: the empty object
    is sent, not the paging of 10. *)
Example queryMembers_without_argument :
  queryMembers true FurtherSamples.oneEntry Omitted
  = (Returned (mkAnswer ["entry"] 1), [(Members, emptyObject)]).
Proof. reflexivity. Qed.

End DirectQueriesRuns.

(** ** The data adapter: the method it picks *)

Section DataAdapter.
Import Js WixSdkAdapterData.

Variable Item : Type.
Variable SDK_VERSION : string.
Variable sdk : Sdk Item.

(** On an initialised adapter [queryCollection] makes the first call that
    the client has among [query], [find] and [list], and no other. *)
Lemma queryCollection_initialized (collectionId : string) (w : World) :
  initialized w = true ->
  snd (queryCollection SDK_VERSION sdk collectionId w)
  = mkWorld true (availableMethods w)
      (called w
       ++ (if has (availableMethods w) "query" then [CallQuery collectionId]
           else if has (availableMethods w) "find"
                then [CallFind collectionId]
           else if has (availableMethods w) "list"
                then [CallList collectionId]
           else [])).
Proof.
  intro Hinit. unfold queryCollection, initialize. rewrite Hinit.
  destruct (has (availableMethods w) "query"); [rewrite <- Hinit; reflexivity |].
  destruct (has (availableMethods w) "find"); [rewrite <- Hinit; reflexivity |].
  destruct (has (availableMethods w) "list"); [rewrite <- Hinit; reflexivity |].
  rewrite app_nil_r. destruct w. simpl in *. subst. reflexivity.
Qed.

(** X16: [testAdapter] does not throw.  It makes at most one data call: none
    when the client cannot be built (the test fails with the message of
    the failure), and otherwise the first that the client has among
    [query], [find] and [list], whatever that call then answers.  A test
    that passes made exactly one call; its items are the [items] of the
    answer, or the answer itself when it is an array, or else its
    [results], or else its [data], or else none, and [total] is their
    number. *)
Theorem testAdapter_first_available_method :
  forall (collection : option string) (w : World),
    let run := testAdapter SDK_VERSION sdk collection w in
    let methods := availableMethods (snd run) in
    let collectionId :=
      match collection with
      | Some c => c
      | None => "BannedNames"
      end in
    (initialized (snd run) = false ->
     snd run = w
     /\ exists message,
          createClient sdk = Thrown message
          /\ fst run = TestFailed Item message (availableMethods w))
    /\ (initialized (snd run) = true ->
        called (snd run)
        = called w
          ++ (if has methods "query" then [CallQuery collectionId]
              else if has methods "find" then [CallFind collectionId]
              else if has methods "list" then [CallList collectionId]
              else []))
    /\ (forall total items rawData available message,
          fst run = Tested total items rawData available message ->
          total = List.length items
          /\ itemsOf rawData = Returned items
          /\ available = methods
          /\ exists call, called (snd run) = called w ++ [call]).
Proof.
  intros collection w run methods collectionId.
  subst run methods. unfold testAdapter. fold collectionId.
  destruct (initialize sdk w) as [started w1] eqn:Hstart.
  assert (Hstarted :
    (exists message,
       started = Thrown message /\ w1 = w /\ initialized w = false
       /\ createClient sdk = Thrown message)
    \/ (started = Returned tt /\ initialized w1 = true
        /\ called w1 = called w)).
  { revert Hstart. unfold initialize.
    destruct (initialized w) eqn:Hinit.
    - intro H. injection H as <- <-. right. auto.
    - destruct (createClient sdk) as [methods | message].
      + intro H. injection H as <- <-. right. auto.
      + intro H. injection H as <- <-. left. exists message. auto. }
  destruct Hstarted as [[message [-> [-> [Hinit Hclient]]]]
                       | [-> [Hinit Hcalled]]].
  - simpl. rewrite Hinit. split; [| split].
    + intros _. split; [reflexivity |]. exists message. auto.
    + discriminate.
    + discriminate.
  - pose proof (queryCollection_initialized collectionId w1 Hinit) as Hworld.
    destruct (queryCollection SDK_VERSION sdk collectionId w1)
      as [answer w2] eqn:Hquery.
    simpl in Hworld.
    assert (Hrun :
      snd (match answer with
           | Returned dataItems =>
               match itemsOf dataItems with
               | Returned items =>
                   (Tested (List.length items) items dataItems
                      (availableMethods w2)
                      ("Successfully retrieved "
                       ++ WixServiceSdk.showNat (List.length items)
                       ++ " items from collection " ++ quote ++ collectionId
                       ++ quote ++ " using SDK Adapter")%string, w2)
               | Thrown message =>
                   (TestFailed Item message (availableMethods w2), w2)
               end
           | Thrown message =>
               (TestFailed Item message (availableMethods w2), w2)
           end) = w2).
    { destruct answer as [dataItems | message]; [| reflexivity].
      destruct (itemsOf dataItems); reflexivity. }
    rewrite Hrun. rewrite Hworld. simpl. rewrite Hcalled.
    split; [discriminate |]. split; [reflexivity |].
    intros total items rawData available message.
    destruct answer as [dataItems | failure]; [| discriminate].
    destruct (itemsOf dataItems) as [found | failure] eqn:Hitems;
      [| discriminate].
    intro H. injection H as <- <- <- <- _.
    split; [reflexivity |]. split; [exact Hitems |].
    split; [reflexivity |].
    revert Hquery. unfold queryCollection, initialize. rewrite Hinit.
    destruct (has (availableMethods w1) "query");
      [intros _; eexists; reflexivity |].
    destruct (has (availableMethods w1) "find");
      [intros _; eexists; reflexivity |].
    destruct (has (availableMethods w1) "list");
      [intros _; eexists; reflexivity |].
    discriminate.
Qed.

End DataAdapter.

Section DataAdapterRuns.
Import Js WixSdkAdapterData.

(** A client with [find] and [list] but without [query]: [find] is
    called, and the items are taken from [results]. *)
Example testAdapter_uses_find :
  testAdapter "1.12.0" FurtherSamples.findListClient None
    FurtherSamples.newDataAdapter
  = (Tested 2 ["Mallory"; "Trudy"]
       (ObjectAnswer None (Some ["Mallory"; "Trudy"]) (Some ["unused"]))
       ["get"; "list"; "find"]
       ("Successfully retrieved 2 items from collection " ++ quote
        ++ "BannedNames" ++ quote ++ " using SDK Adapter")%string,
     mkWorld true ["get"; "list"; "find"] [CallFind "BannedNames"]).
Proof. vm_compute. reflexivity. Qed.

End DataAdapterRuns.

(** ** The CRM adapter: listing all contacts, and the pricing plans *)

Section CrmListing.
Import Js WixSdkAdapterCrm WixSdkAdapterCrmMore.

(** X17: [queryAllContactsStatic] and a [searchMember] without names on a new
    adapter send the same queries: none when the client cannot be built,
    the one query without filter and with the limit 50 otherwise.  What
    the listing returns, [searchMember] returns with the repeated and the
    unidentified contacts taken out; [total] counts the items as listed.
    They differ when the query is rejected: the listing fails with the
    message of the rejection, the search reports success with no
    contact. *)
Theorem queryAllContactsStatic_and_search :
  forall (sdk : Sdk) (args : Args),
    given (arg_firstName args) = false ->
    given (arg_lastName args) = false ->
    let listing := queryAllContactsStatic sdk in
    let search := searchMember sdk args (mkWorld false []) in
    snd listing = sent (snd search)
    /\ (forall items total source,
          fst listing = Listed items total source ->
          total = List.length items
          /\ source = "wix-crm-contacts"
          /\ snd listing = [mkQuery None 50]
          /\ exists details,
               fst search
               = Success (dedupe items) (List.length (dedupe items))
                   "wix-crm-contacts" details)
    /\ (forall error,
          fst listing = NotListed error ->
          (createClient sdk = Thrown error
           /\ snd listing = []
           /\ fst search = Failure error "wix-crm-contacts")
          \/ (find sdk (mkQuery None 50) = Thrown error
              /\ snd listing = [mkQuery None 50]
              /\ exists details,
                   fst search = Success [] 0 "wix-crm-contacts" details)).
Proof.
  intros sdk args Hfirst Hlast listing search. subst listing search.
  unfold queryAllContactsStatic, searchMember, andThen, initialize, ret,
    runFind.
  rewrite (given_false_parts _ Hfirst), (given_false_lastName _ Hlast).
  simpl initialized.
  destruct (createClient sdk) as [[] | message] eqn:Hclient.
  - rewrite collect_without_names. simpl.
    destruct (find sdk (mkQuery None 50)) as [items | message] eqn:Hfind;
      simpl.
    + split; [reflexivity |]. split.
      * intros items' total source H. injection H as <- <- <-.
        repeat split. eexists. reflexivity.
      * discriminate.
    + split; [reflexivity |]. split.
      * discriminate.
      * intros error H. injection H as <-. right.
        repeat split. eexists. reflexivity.
  - simpl. split; [reflexivity |]. split.
    + discriminate.
    + intros error H. injection H as <-. left. repeat split.
Qed.

Lemma queryAllContactsStatic_and_search_witness :
  snd (queryAllContactsStatic Samples.crmClient)
  = sent (snd (searchMember Samples.crmClient Samples.crmNoNames
                 (mkWorld false []))).
Proof.
  refine (proj1 (queryAllContactsStatic_and_search Samples.crmClient
                   Samples.crmNoNames _ _)); reflexivity.
Defined.

(** X18: The CRM adapter has no pricing plans: [getMemberPricingPlans] never
    reports success and never sends a query, with or without a member
    identifier, whether or not the client can be built. *)
Theorem getMemberPricingPlans_is_never_available :
  forall (sdk : Sdk) (memberId : option string) (w : World),
    let answer := getMemberPricingPlans sdk memberId w in
    success (fst answer) = false
    /\ source (fst answer) = "wix-sdk"
    /\ sent (snd answer) = sent w
    /\ (truthy memberId = false ->
        initialized (snd answer) = true ->
        error (fst answer)
        = "Error getting pricing plans: Member ID is required").
Proof.
  intros sdk memberId w answer. subst answer.
  unfold getMemberPricingPlans, adapterGetMemberPricingPlans, initialize.
  destruct (initialized w) eqn:Hinit.
  - simpl. destruct (truthy memberId); simpl; repeat split;
      intros; discriminate || reflexivity.
  - destruct (createClient sdk) as [[] | message]; simpl.
    + destruct (truthy memberId); simpl; repeat split;
        intros; discriminate || reflexivity.
    + repeat split. simpl. intros _ H. congruence.
Qed.

End CrmListing.

(** ** The candidates made from members *)

Section Candidates.
Import Js WixService.

Lemma split_after_word (sep : ascii) (f l : string) :
  hasChar sep f = false ->
  split sep (f ++ String sep l) = f :: split sep l.
Proof.
  induction f as [| c f IH]; simpl.
  - intros _. rewrite Ascii.eqb_refl. reflexivity.
  - destruct (Ascii.eqb c sep); simpl; [discriminate |].
    intro H. rewrite (IH H). reflexivity.
Qed.

(** X19: The names of a candidate made from a member.  A nickname of a first
    word, a space and a non-empty rest gives the first word as first name
    and the whole rest as last name, whatever names the profile and the
    contact of the member hold.  A nickname of one word is the first name,
    and the last name comes from the profile or else from the contact.
    Without a nickname both names come from the profile or else from the
    contact. *)
Theorem fromMember_names :
  forall member : Member,
    (forall f l,
       hasChar " " f = false -> nonEmpty f = true -> nonEmpty l = true ->
       profile_nickname member = Some (f ++ " " ++ l)%string ->
       firstName (fromMember member) = f
       /\ lastName (fromMember member) = l)
    /\ (forall word,
          hasChar " " word = false -> nonEmpty word = true ->
          profile_nickname member = Some word ->
          firstName (fromMember member) = word
          /\ lastName (fromMember member)
             = orEmpty (or (profile_lastName member)
                           (contact_lastName member)))
    /\ (truthy (profile_nickname member) = false ->
        firstName (fromMember member)
        = orEmpty (or (profile_firstName member) (contact_firstName member))
        /\ lastName (fromMember member)
           = orEmpty (or (profile_lastName member)
                         (contact_lastName member))).
Proof.
  intro member. split; [| split].
  - intros f l Hword Hf Hl Hnick.
    destruct f as [| c f]; [discriminate |].
    assert (Hparts : split " " (String c (f ++ String " " l))
                     = String c f :: split " " l)
      by exact (split_after_word " " (String c f) l Hword).
    unfold fromMember. rewrite Hnick.
    change (String c f ++ " " ++ l)%string
      with (String c (f ++ String " " l)).
    cbv beta iota. rewrite Hparts.
    destruct (split " " l) as [| w ws] eqn:Hsplit;
      [exfalso; exact (split_not_nil " " l Hsplit) |].
    cbn [List.length Nat.leb hd tl truthy].
    rewrite <- Hsplit, (join_split " " l).
    destruct l as [| d l]; [discriminate |].
    split; reflexivity.
  - intros word Hword Hnonempty Hnick.
    destruct word as [| c word]; [discriminate |].
    unfold fromMember. rewrite Hnick.
    rewrite (split_without_separator " " (String c word) Hword).
    split; reflexivity.
  - intro Hnone. unfold fromMember. rewrite Hnone. split; reflexivity.
Qed.

(** Giving every member an [_id] before the candidates are made changes
    no candidate: the identifier of a candidate is the member's [_id], or
    else its [id], or else its [memberId], with or without that step. *)
Lemma fromMember_ensureId (member : Member) :
  fromMember (ensureId member) = fromMember member.
Proof.
  destruct member as [_id id0 memberId ? ? ? ? ? ? ? ? ? ? ? ? ? ?].
  destruct _id as [[| ? ?] |], id0 as [[| ? ?] |], memberId as [[| ? ?] |];
    reflexivity.
Qed.

(** X20: When the member directory answers with members, the candidates of
    [findMember] are made from these members as they came, one candidate
    per member and in the same order. *)
Theorem findMember_candidates_of_members :
  forall (key : option string) (remote : Remote) (args : Args),
    truthy key = true -> hasCriteria args = true ->
    yield (membersQuery remote (membersData args)) <> [] ->
    fst (run (findMember key remote args))
    = Success (map fromMember
                 (yield (membersQuery remote (membersData args)))).
Proof.
  intros key remote args Hkey Hcriteria Hsome.
  rewrite (findMember_members key remote args Hkey Hcriteria Hsome).
  simpl. rewrite map_map. f_equal. apply map_ext.
  intro member. apply fromMember_ensureId.
Qed.

Lemma findMember_candidates_of_members_witness :
  fst (run (findMember Samples.apiKey Samples.bothRemote Samples.janeDoe))
  = Success (map fromMember
               (yield (membersQuery Samples.bothRemote
                         (membersData Samples.janeDoe)))).
Proof.
  apply (findMember_candidates_of_members Samples.apiKey Samples.bothRemote
           Samples.janeDoe).
  - reflexivity.
  - reflexivity.
  - discriminate.
Defined.

End Candidates.

(** ** The properties above on the sample data *)

Section FurtherRuns.
Import Js.

(** With the database out of reach, the file whose latest row is the
    later row of the samples gives 'Fingerprint not found'. *)
Lemma getLatestScan_fingerprint_gate_witness :
  fst (ScanIDFingerprint.getLatestScan ScanIDService.mdyDate
         FurtherSamples.unreachable
         (ScanIDService.Parsed [Samples.rowJan1; Samples.rowJan2]))
  = ScanIDFingerprint.Failed "Fingerprint not found".
Proof.
  pose proof (getLatestScan_fingerprint_gate ScanIDService.mdyDate
                FurtherSamples.unreachable
                (ScanIDService.Parsed [Samples.rowJan1; Samples.rowJan2]))
    as H.
  change (ScanIDService.getLatestScanPlain ScanIDService.mdyDate
            (ScanIDService.Parsed [Samples.rowJan1; Samples.rowJan2]))
    with (ScanIDService.Scan (ScanIDService.toScan Samples.rowJan2)) in H.
  cbv beta iota zeta in H.
  destruct H as [_ [_ [_ H]]].
  apply (H "Failed to connect"). left. reflexivity.
Defined.

(** Two plans for the member m-1, from one query. *)
Lemma getMemberPricingPlans_one_query_witness :
  snd (WixServicePlans.getMemberPricingPlans Samples.apiKey
         FurtherSamples.twoPlans (Some "m-1"))
  = [WixServicePlans.mkPlansQuery "m-1" 10 WixServicePlans.plansFields].
Proof.
  destruct (getMemberPricingPlans_one_query string nat Samples.apiKey
              FurtherSamples.twoPlans (Some "m-1")) as [_ [H _]].
  destruct (H eq_refl) as [Hsent _]. exact Hsent.
Defined.

(** [queryMembers()] sends the empty object. *)
Lemma direct_queries_send_the_callers_object_witness :
  snd (WixDirectApiQueries.queryMembers true FurtherSamples.oneEntry
         WixDirectApiQueries.Omitted)
  = [(WixDirectApiQueries.Members, WixDirectApiQueries.emptyObject)].
Proof.
  destruct (direct_queries_send_the_callers_object string
              FurtherSamples.oneEntry true "BannedNames"
              WixDirectApiQueries.Omitted) as [_ [H _]].
  destruct (H eq_refl) as [Hmembers _]. exact Hmembers.
Defined.

(** A client without [query]: [find] is the one call. *)
Lemma testAdapter_first_available_method_witness :
  WixSdkAdapterData.called
    (snd (WixSdkAdapterData.testAdapter "1.12.0" FurtherSamples.findListClient
            None FurtherSamples.newDataAdapter))
  = [WixSdkAdapterData.CallFind "BannedNames"].
Proof.
  destruct (testAdapter_first_available_method string "1.12.0"
              FurtherSamples.findListClient None
              FurtherSamples.newDataAdapter) as [_ [H _]].
  exact (H eq_refl).
Defined.

(** Jane Doe's nickname gives her names. *)
Lemma fromMember_names_witness :
  WixService.firstName (WixService.fromMember Samples.memberJane) = "Jane"
  /\ WixService.lastName (WixService.fromMember Samples.memberJane) = "Doe".
Proof.
  destruct (fromMember_names Samples.memberJane) as [H _].
  apply (H "Jane" "Doe"); reflexivity.
Defined.

End FurtherRuns.

(** ** The letter case of the names asked for *)

Section LetterCase.
Import Js.

Lemma isSpace_lowerChar (c : ascii) : isSpace (lowerChar c) = isSpace c.
Proof. destruct c as [[] [] [] [] [] [] [] []]; reflexivity. Qed.

Lemma allSpaces_toLowerCase (s : string) :
  allSpaces (toLowerCase s) = allSpaces s.
Proof.
  unfold toLowerCase. induction s as [| c s IH]; simpl; [reflexivity |].
  rewrite isSpace_lowerChar, IH. reflexivity.
Qed.

(** Title case and the emptiness test see a name only through its lower
    case form. *)
Lemma toTitleCase_case (x y : option string) :
  option_map toLowerCase x = option_map toLowerCase y ->
  WixService.toTitleCase x = WixService.toTitleCase y.
Proof.
  destruct x as [[| c s] |], y as [[| d t] |]; simpl; try discriminate;
    try reflexivity.
  intro H. injection H as Hc Hs. unfold toLowerCase.
  rewrite Hc, Hs. reflexivity.
Qed.

Lemma blank_case (x y : option string) :
  option_map toLowerCase x = option_map toLowerCase y ->
  WixService.blank x = WixService.blank y.
Proof.
  destruct x as [[| c s] |], y as [[| d t] |]; simpl; try discriminate;
    try reflexivity.
  intro H. injection H as Hc Hs.
  rewrite !trim_nonEmpty.
  rewrite <- (allSpaces_toLowerCase (String c s)),
          <- (allSpaces_toLowerCase (String d t)).
  unfold toLowerCase. simpl mapChars. rewrite Hc, Hs. reflexivity.
Qed.

(** X21: Both versions of [findMember] are blind to the letter case of
    the names asked for: two queries whose first names agree up to case,
    whose last names agree up to case and whose dates of birth are the
    same text send the same requests and get the same result.  A name in
    capitals, as the scanner writes it, is searched as the same name in
    title case. *)
Theorem findMember_ignores_letter_case :
  forall (key : option string) (remote : WixService.Remote)
         (sdk : WixServiceSdk.Sdk)
         (firstName1 firstName2 lastName1 lastName2 dateOfBirth
            : option string),
    option_map toLowerCase firstName1 = option_map toLowerCase firstName2 ->
    option_map toLowerCase lastName1 = option_map toLowerCase lastName2 ->
    WixService.run
      (WixService.findMember key remote
         (WixService.mkArgs firstName1 lastName1 dateOfBirth))
    = WixService.run
        (WixService.findMember key remote
           (WixService.mkArgs firstName2 lastName2 dateOfBirth))
    /\ WixServiceSdk.findMember key sdk
         (WixServiceSdk.mkArgs firstName1 lastName1 dateOfBirth)
       = WixServiceSdk.findMember key sdk
           (WixServiceSdk.mkArgs firstName2 lastName2 dateOfBirth).
Proof.
  intros key remote sdk firstName1 firstName2 lastName1 lastName2 dateOfBirth
         Hfirst Hlast.
  pose proof (toTitleCase_case _ _ Hfirst) as Htitle1.
  pose proof (toTitleCase_case _ _ Hlast) as Htitle2.
  pose proof (blank_case _ _ Hfirst) as Hblank1.
  pose proof (blank_case _ _ Hlast) as Hblank2.
  split.
  - unfold WixService.run, WixService.findMember, WixService.hasCriteria,
      WixService.membersData, WixService.contactsData,
      WixService.simpleParams.
    cbn [WixService.arg_firstName WixService.arg_lastName
         WixService.arg_dateOfBirth].
    rewrite Htitle1, Htitle2, Hblank1, Hblank2. reflexivity.
  - unfold WixServiceSdk.findMember, WixServiceSdk.matches,
      WixServiceSdk.promote, WixServiceSdk.step, WixServiceSdk.isExact.
    cbn [WixServiceSdk.arg_firstName WixServiceSdk.arg_lastName
         WixServiceSdk.arg_dateOfBirth].
    rewrite Htitle1, Htitle2, Hblank1, Hblank2. reflexivity.
Qed.

Lemma findMember_ignores_letter_case_witness :
  WixServiceSdk.findMember Samples.apiKey Samples.sdkClient
    (WixServiceSdk.mkArgs (Some "JANE") (Some "DOE") (Some "01-15-1990"))
  = WixServiceSdk.findMember Samples.apiKey Samples.sdkClient
      (WixServiceSdk.mkArgs (Some "jane") (Some "Doe") (Some "01-15-1990")).
Proof.
  refine (proj2 (findMember_ignores_letter_case Samples.apiKey
                   Samples.bothRemote Samples.sdkClient
                   (Some "JANE") (Some "jane") (Some "DOE") (Some "Doe")
                   (Some "01-15-1990") _ _)); reflexivity.
Defined.

End LetterCase.

(** ** The drafts of the scan reader side by side *)

Section Drafts.
Import Js ScanIDService.

Variable A : Type.
Variables comparefn comparefn' : A -> A -> outcome number.



End Drafts.

Section DraftsAgree.
Import Js ScanIDService.

Variable parseDate : string -> option Z.



End DraftsAgree.

Section DraftsRuns.
Import Js ScanIDService.


End DraftsRuns.
